(** * The in-container setup agent (package [container], command [setup])

    A shallow embedding of the [setup] command of the agent: the
    orchestrator [Run], the mount streamer, the dockerless builder, the
    credential helpers, the IDE dispatch and the progress reader, with
    the properties the specification states about them.

    Conventions.
    - Go strings are byte strings: [string] of the standard library.
    - A Go [error] is a value of [error]; a returned [(T, error)] is a
      [Result T], and a function that returns only an [error] returns a
      [Result unit], whose [Ok tt] is [nil].
    - Every call that leaves the file (the operating system, the tunnel,
      packages of the repository that are not part of this unit) is a
      field of [Sys]: a read is a function of the world, an effect
      returns the new world, and each effect is recorded in a trace of
      [Event]s in the order the code performs it. *)

From Stdlib Require Import ZArith List String Ascii Lia DecimalString.
From stdpp Require Import gmap strings list.

Open Scope string_scope.
Open Scope list_scope.
Open Scope Z_scope.

(** ** Strings: the two functions of Go's [strings] that the unit uses *)

Module GoStrings.

Definition byte_of (n : nat) : ascii := ascii_of_nat n.

(** The white space of the ASCII range: \t \n \v \f \r and the blank. *)
Definition asciiSpace (c : ascii) : bool :=
  let n := nat_of_ascii c in
  ((9 <=? n)%nat && (n <=? 13)%nat) || (n =? 32)%nat.

(** The other runes of [unicode.IsSpace], as the second (and third)
    byte that follows the lead byte in UTF-8:
    U+0085 and U+00A0 (lead C2), U+1680 (lead E1), U+2000..U+200A,
    U+2028, U+2029, U+202F and U+205F (lead E2), U+3000 (lead E3). *)
Definition space2 (d : ascii) : bool :=
  let n := nat_of_ascii d in (n =? 133)%nat || (n =? 160)%nat.

Definition space3 (c d e : ascii) : bool :=
  let c := nat_of_ascii c in
  let d := nat_of_ascii d in
  let e := nat_of_ascii e in
  ((c =? 225) && (d =? 154) && (e =? 128))%nat
  || ((c =? 226) && (d =? 128)
      && (((128 <=? e) && (e <=? 138)) || (e =? 168) || (e =? 169) || (e =? 175)))%nat
  || ((c =? 226) && (d =? 129) && (e =? 159))%nat
  || ((c =? 227) && (d =? 128) && (e =? 128))%nat.

(** Leading white space removed, one rune at a time. *)
Fixpoint trimLeft (s : string) : string :=
  match s with
  | EmptyString => EmptyString
  | String c r =>
      if asciiSpace c then trimLeft r
      else match r with
           | String d r' =>
               if (nat_of_ascii c =? 194)%nat && space2 d then trimLeft r'
               else match r' with
                    | String e r'' => if space3 c d e then trimLeft r'' else s
                    | EmptyString => s
                    end
           | EmptyString => s
           end
  end.

(** Trailing white space removed: the same scan over the reversed
    bytes, where a rune shows its last byte first. *)
Fixpoint trimLeftRev (s : string) : string :=
  match s with
  | EmptyString => EmptyString
  | String c r =>
      if asciiSpace c then trimLeftRev r
      else match r with
           | String d r' =>
               if (nat_of_ascii d =? 194)%nat && space2 c then trimLeftRev r'
               else match r' with
                    | String e r'' => if space3 e d c then trimLeftRev r'' else s
                    | EmptyString => s
                    end
           | EmptyString => s
           end
  end.

Definition trimRight (s : string) : string :=
  String.rev (trimLeftRev (String.rev s)).

(** [strings.TrimSpace]: leading and trailing white space, as defined
    by Unicode, removed. *)
Definition TrimSpace (s : string) : string := trimRight (trimLeft s).

(** [strings.Split(s, sep)] for a separator of one byte: the pieces
    between the separators, one more than there are separators. *)
Fixpoint Split (s : string) (sep : ascii) : list string :=
  match s with
  | EmptyString => [EmptyString]
  | String c r =>
      if Ascii.eqb c sep then EmptyString :: Split r sep
      else match Split r sep with
           | piece :: pieces => String c piece :: pieces
           | [] => [String c EmptyString]
           end
  end.

(** [strings.Join]. *)
Fixpoint Join (elems : list string) (sep : string) : string :=
  match elems with
  | [] => ""
  | [e] => e
  | e :: rest => e +:+ sep +:+ Join rest sep
  end.

(** The encodings of the white-space runes, for stating what a
    string of white space only is. *)
Definition spaceRunes : list string :=
  map (fun n => String (byte_of n) "") [9; 10; 11; 12; 13; 32]%nat
  ++ map (fun n => String (byte_of 194) (String (byte_of n) "")) [133; 160]%nat
  ++ [String (byte_of 225) (String (byte_of 154) (String (byte_of 128) ""))]
  ++ map (fun n => String (byte_of 226) (String (byte_of 128) (String (byte_of n) "")))
       [128; 129; 130; 131; 132; 133; 134; 135; 136; 137; 138; 168; 169; 175]%nat
  ++ [String (byte_of 226) (String (byte_of 129) (String (byte_of 159) ""));
      String (byte_of 227) (String (byte_of 128) (String (byte_of 128) ""))].

Inductive WhiteSpaceOnly : string -> Prop :=
| ws_empty : WhiteSpaceOnly ""
| ws_rune r s : In r spaceRunes -> WhiteSpaceOnly s -> WhiteSpaceOnly (r +:+ s).

End GoStrings.

(** ** parseIgnorePaths *)

Definition parseIgnorePaths (ignorePaths : string) : list string :=
  if decide (GoStrings.TrimSpace ignorePaths = "") then []
  else
    let splitted := GoStrings.Split ignorePaths "," in
    fold_left (fun retPaths s => retPaths ++ ["--ignore-path"; GoStrings.TrimSpace s])
      splitted [].

(** ** Errors and results *)

(** A Go [error]: created ([errors.New], [fmt.Errorf] without a wrapped
    cause) or wrapping a cause with a message ([errors.Wrap],
    [fmt.Errorf("...: %w", err)]). *)
Inductive error : Type :=
| errNew (msg : string)
| errWrap (msg : string) (cause : error).

(** [errors.Is]: the error is the cause or wraps it, at any depth. *)
Fixpoint errIs (e cause : error) : Prop :=
  e = cause \/ match e with
               | errNew _ => False
               | errWrap _ inner => errIs inner cause
               end.

(** A returned [(T, error)]; a function that returns only [error]
    returns [Result unit], and [Ok tt] is its [nil]. *)
Inductive Result (A : Type) : Type :=
| Ok (a : A)
| Err (err : error).
Arguments Ok {A} a.
Arguments Err {A} err.

Definition isOk {A} (r : Result A) : bool :=
  match r with Ok _ => true | Err _ => false end.

(** [strconv.Itoa]. *)
Definition Itoa (n : Z) : string := NilZero.string_of_int (Z.to_int n).

(** ** Data model *)

Definition Flavor := string.
Definition Options := gmap string string.

Module Mount.
(** [config.Mount]: the unit reads [Source] and [Target]; what else a
    mount carries is kept in [Rest]. *)
Record t := { Source : string; Target : string; Rest : string }.
End Mount.

Module Platform.
Record t := {
  Enabled : bool;
  PlatformHost : string;
  InstanceNamespace : string;
  InstanceName : string;
  AccessKey : string }.
End Platform.

Module CLIOptions.
Record t := {
  Reset : bool;
  Recreate : bool;
  DisableDaemon : bool;
  WorkspaceEnv : list string;
  Platform : Platform.t }.
End CLIOptions.

Module Dockerless.
(** [provider2.ProviderDockerlessOptions]. *)
Record t := {
  DisableDockerCredentials : string;
  IgnorePaths : string;
  RegistryCache : string }.
End Dockerless.

(** [config2.IDE]: the names the dispatch knows; [IDEOther] is a name
    that is none of them. *)
Inductive IDE : Type :=
| IDENone | IDEVSCode | IDEVSCodeInsiders | IDECursor | IDEPositron
| IDECodium | IDEWindsurf | IDEOpenVSCode
| IDEGoland | IDERustRover | IDEPyCharm | IDEPhpStorm | IDEIntellij
| IDECLion | IDERider | IDERubyMine | IDEWebStorm | IDEDataSpell
| IDEFleet | IDEJupyterNotebook | IDERStudio
| IDEOther (name : string).

Module IDEConfig.
(** [provider2.WorkspaceIDEConfig]. *)
Record t := { Name : IDE; Options : Options }.
End IDEConfig.

Module WorkspaceInfo.
(** [provider2.ContainerWorkspaceInfo]. *)
Record t := {
  CLIOptions : CLIOptions.t;
  Source : string;
  Agent : string;
  Dockerless : Dockerless.t;
  IDE : IDEConfig.t;
  PullFromInsideContainer : string;
  ContainerTimeout : string }.
End WorkspaceInfo.

Module MergedConfig.
(** [config.MergedDevContainerConfig]; [RemoteEnv = None] is the nil
    map. *)
Record t := {
  RemoteEnv : option (gmap string string);
  Mounts : list Mount.t;
  Customizations : string }.
End MergedConfig.

Module SetupInfo.
(** [config.Result]. *)
Record t := {
  ContainerWorkspaceFolder : string;  (* SubstitutionContext.ContainerWorkspaceFolder *)
  MergedConfig : MergedConfig.t }.
Definition withMergedConfig (r : t) (c : MergedConfig.t) : t :=
  {| ContainerWorkspaceFolder := ContainerWorkspaceFolder r; MergedConfig := c |}.
End SetupInfo.

Module VSCodeConfiguration.
Record t := { Settings : gmap string string; Extensions : list string }.
End VSCodeConfiguration.

Module SetupContainerCmd.
Record t := {
  Debug : bool;                (* GlobalFlags.Debug *)
  ChownWorkspace : bool;
  StreamMounts : bool;
  InjectGitCredentials : bool;
  ContainerWorkspaceInfo : string;
  SetupInfo : string;
  AccessKey : string;
  PlatformHost : string;
  WorkspaceHost : string }.
End SetupContainerCmd.

(** [logrus] levels and the arguments of a log call. *)
Inductive Level : Type := DebugLevel | InfoLevel | WarnLevel | ErrorLevel.

Inductive LogArg : Type :=
| LStr (s : string)
| LErr (e : error)
| LMounts (ms : list Mount.t)
| LInt (n : Z).

Module Cmd.
(** [exec.Cmd]: a writer of the logger is known by its level;
    [Stdout = None] is the nil writer (the output is discarded), and
    [Env = None] the environment of the parent. *)
Record t := {
  Path : string;
  Args : list string;
  Env : option (list string);
  Stdout : option Level;
  Stderr : option Level }.
Definition Command (path : string) (args : list string) : t :=
  {| Path := path; Args := args; Env := None; Stdout := None; Stderr := None |}.
End Cmd.

Inductive JetBrains : Type :=
| Goland | RustRover | PyCharm | PhpStorm | Intellij
| CLion | Rider | RubyMine | WebStorm | DataSpell.

(** The installers of the packages under [pkg/ide], with the arguments
    of their constructors. *)
Inductive Installer : Type :=
| VSCodeServer (extensions : list string) (settings user : string)
    (options : Options) (flavor : Flavor)
| OpenVSCodeServer (extensions : list string) (settings user host port : string)
    (options : Options)
| JetBrainsServer (product : JetBrains) (user : string) (options : Options)
| FleetServer (user : string) (options : Options) (projectDir : string)
| JupyterNotebookServer (folder user : string) (options : Options)
| RStudioServer (folder user : string) (options : Options).

(** Where [extract.Extract] reads from. *)
Inductive Stream : Type := ProgressReader | TunnelStreamReader.

Module Response.
Record t := { StatusCode : Z; Status : string }.
End Response.

Module ConfigFile.
(** [v1.ConfigFile]: the unit reads [Config.Env]. *)
Record t := { Env : list string }.
End ConfigFile.

(** The effects, as the unit performs them. *)
Inductive Event : Type :=
| ELog (level : Level) (format : string) (args : list LogArg)
| EWriter (level : Level)
| EWriterClose (level : Level)
| ENewTunnelClient
| EPing
| EStreamMount (mount : string)
| ESendResult (message : string)
| EHTTPDo (url authorization : string) (insecureSkipVerify : bool)
| EReadAll
| EBodyClose
| EExtract (from : Stream) (target : string)
| ERenameDirectory (from to : string)
| ERemoveAll (path : string)
| ESetenv (key value : string)
| EUnsetenv (key : string)
| EStartCredentialsServer
| ECancel
| EConfigureCredentialsDockerless (dir : string) (port : Z)
| EGit (args : list string)
| EExec (cmd : Cmd.t)
| EMergeAndApply (env : gmap string string)
| ECloneRepository (source agent folder : string) (options : CLIOptions.t)
| ESetupContainer (setupInfo : SetupInfo.t) (chown : bool)
| EInstall (installer : Installer)
| EStart (installer : Installer)
| ESpawn (name : string) (cmd : Cmd.t).

(** ** What the unit imports

    [Extern] holds the constants and the functions without effect of
    the packages the unit imports ([path/filepath], [net/url],
    [encoding/json], [pkg/devcontainer/config], [pkg/ide/vscode], ...):
    they are not part of this unit and every property below holds for
    every choice of them. *)
Class Extern : Type := {
  filepath_Join : list string -> string;
  url_QueryEscape : string -> string;
  ts_RemoveProtocol : string -> string;
  http_NewRequest : string -> string -> Result unit;
  runtime_GOOS : string;
  runtime_GOARCH : string;
  DevPodDockerlessBuildInfoFolder : string;
  DevPodContextFeatureFolder : string;
  FlavorStable : Flavor;
  FlavorInsiders : Flavor;
  FlavorCursor : Flavor;
  FlavorPositron : Flavor;
  FlavorCodium : Flavor;
  FlavorWindsurf : Flavor;
  Flavor_DisplayName : Flavor -> string;
  DefaultVSCodePort : Z;
  Mount_String : Mount.t -> string;
  StrBool_Bool : string -> Result bool;
  GetMounts : SetupInfo.t -> list Mount.t;
  GetVSCodeConfiguration : MergedConfig.t -> VSCodeConfiguration.t;
  GetRemoteUser : SetupInfo.t -> string;
  ListToObject : list string -> gmap string string;
  SubstituteContainerEnv :
    gmap string string -> MergedConfig.t -> Result MergedConfig.t;
  DecodeContainerWorkspaceInfo : string -> Result WorkspaceInfo.t;
  Decompress : string -> Result string;
  Unmarshal_SetupInfo : string -> Result SetupInfo.t;
  Marshal_SetupInfo : SetupInfo.t -> Result string;
  Marshal_Settings : gmap string string -> Result string;
  Unmarshal_ConfigFile : string -> Result ConfigFile.t }.

(** [Sys W] is the world the agent runs in, of state [W]: the operating
    system, the tunnel to the host, the logger and the packages that act
    on them.  A read returns what the world holds; an effect returns its
    result and the world after it. *)
Class Sys (W : Type) : Type := {
  (* reads *)
  sys_Getenv : string -> W -> string;
  sys_Environ : W -> list string;
  sys_Stat : string -> W -> Result unit;
  sys_ReadDir : string -> W -> Result (list string);
  sys_ReadFile : string -> W -> Result string;
  sys_Executable : W -> Result string;
  sys_CommandExists : string -> W -> bool;
  sys_LockAlive : string -> W -> bool;
  (* effects *)
  sys_Log : Level -> string -> list LogArg -> W -> W;
  sys_Writer : Level -> W -> W;
  sys_WriterClose : Level -> W -> W;
  sys_NewTunnelClient : W -> Result unit * W;
  sys_Ping : W -> Result unit * W;
  sys_StreamMount : string -> W -> Result unit * W;
  sys_SendResult : string -> W -> Result unit * W;
  sys_HTTPDo : string -> string -> W -> Result Response.t * W;
  sys_ReadAll : W -> string * W;
  sys_BodyClose : W -> W;
  sys_Extract : Stream -> string -> W -> Result unit * W;
  sys_RenameDirectory : string -> string -> W -> Result unit * W;
  sys_RemoveAll : string -> W -> W;
  sys_Setenv : string -> string -> W -> W;
  sys_Unsetenv : string -> W -> W;
  sys_StartCredentialsServer : W -> Result Z * W;
  sys_Cancel : W -> W;
  sys_ConfigureCredentialsDockerless : string -> Z -> W -> Result string * W;
  sys_Git : list string -> W -> Result unit * W;
  sys_Exec : Cmd.t -> W -> Result unit * W;
  sys_MergeAndApply : gmap string string -> W -> W;
  sys_CloneRepository :
    string -> string -> string -> CLIOptions.t -> W -> Result unit * W;
  sys_SetupContainer :
    SetupInfo.t -> list string -> bool -> Platform.t -> W ->
    (Result unit * SetupInfo.t) * W;
  sys_Install : Installer -> W -> Result unit * W;
  sys_Start : Installer -> W -> Result unit * W;
  sys_Spawn : string -> Cmd.t -> W -> Result unit * W }.

(** ** The monad of the agent: the world and the trace of its effects *)

Record State (W : Type) : Type := mkState { world : W; trace : list Event }.
Arguments mkState {W} world trace.
Arguments world {W} s.
Arguments trace {W} s.

Definition Act (W A : Type) : Type := State W -> A * State W.

Definition ret {W A} (a : A) : Act W A := fun st => (a, st).

Definition bind {W A B} (m : Act W A) (k : A -> Act W B) : Act W B :=
  fun st => let (a, st') := m st in k a st'.

(** [x, err := m; if err != nil { return ..., err }; k x] *)
Definition try_ {W A B} (m : Act W (Result A)) (k : A -> Act W (Result B))
  : Act W (Result B) :=
  fun st =>
    match m st with
    | (Ok a, st') => k a st'
    | (Err err, st') => (Err err, st')
    end.

(** [fmt.Errorf(msg + ": %w", err)] and [errors.Wrap(err, msg)] on the
    error of [m]. *)
Definition wrapErr {W A} (msg : string) (m : Act W (Result A)) : Act W (Result A) :=
  fun st =>
    match m st with
    | (Ok a, st') => (Ok a, st')
    | (Err err, st') => (Err (errWrap msg err), st')
    end.

(** [defer cleanup()] followed by the rest of the function: [cleanup]
    runs when [body] returns, on every path. *)
Definition defer {W A} (cleanup : Act W unit) (body : Act W A) : Act W A :=
  fun st => let (a, st') := body st in let (_, st'') := cleanup st' in (a, st'').

Declare Scope agent_scope.
Delimit Scope agent_scope with agent.
Notation "x ← m ; k" := (bind m (fun x => k))
  (at level 20, m at level 100, k at level 200, only parsing) : agent_scope.
Notation "m ;; k" := (bind m (fun _ => k))
  (at level 100, k at level 200, only parsing, right associativity) : agent_scope.
Notation "x ←? m ; k" := (try_ m (fun x => k))
  (at level 20, m at level 100, k at level 200, only parsing) : agent_scope.
Notation "m ;;? k" := (try_ m (fun _ => k))
  (at level 100, k at level 200, only parsing, right associativity) : agent_scope.
Open Scope agent_scope.

Definition effect {W R} (ev : Event) (op : W -> R * W) : Act W R :=
  fun st => let (r, w) := op (world st) in (r, mkState w (trace st ++ [ev])).

Definition effect_ {W} (ev : Event) (op : W -> W) : Act W unit :=
  fun st => (tt, mkState (op (world st)) (trace st ++ [ev])).

Definition read {W R} (f : W -> R) : Act W R := fun st => (f (world st), st).

Definition nil_ {W} : Act W (Result unit) := ret (Ok tt).

Definition DockerlessImageConfigOutput : string := "/.dockerless/image.json".

Section Agent.
Context {W : Type} `{Extern} `{Sys W}.

Abbreviation M := (Act W).

(** [log.Debugf], [log.Infof], [log.Errorf]. *)
Definition logf (level : Level) (format : string) (args : list LogArg) : M unit :=
  effect_ (ELog level format args) (sys_Log level format args).

(** [log.Debug]: the arguments are printed one after the other, there
    is no format. *)
Definition logv (level : Level) (args : list LogArg) : M unit :=
  logf level "" args.

(** *** single.Single *)

(** Modelled from the spec: [pkg/single] is not part of this unit.
    Given a task name and a factory of a background command: if a
    live instance holds the lock of that name, the factory is never
    invoked and the call succeeds; otherwise the command the factory
    produces is spawned detached under that name. *)
Definition single_Single (name : string) (createCommand : M (Result Cmd.t))
  : M (Result unit) :=
  alive ← read (sys_LockAlive name);
  if (alive : bool) then nil_
  else
    cmd ←? createCommand;
    effect (ESpawn name cmd) (sys_Spawn name cmd).

(** *** streamMount *)

Definition streamMount (workspaceInfo : WorkspaceInfo.t) (m : Mount.t)
  : M (Result unit) :=
  let platform := CLIOptions.Platform (WorkspaceInfo.CLIOptions workspaceInfo) in
  if Platform.Enabled platform then
    logf InfoLevel "Download %s into DevContainer %s"
      [LStr (Mount.Source m); LStr (Mount.Target m)];;
    let url :=
      "https://" +:+ ts_RemoveProtocol (Platform.PlatformHost platform)
      +:+ "/kubernetes/management/apis/management.loft.sh/v1/namespaces/"
      +:+ Platform.InstanceNamespace platform
      +:+ "/devpodworkspaceinstances/" +:+ Platform.InstanceName platform
      +:+ "/download?path=" +:+ url_QueryEscape (Mount.Source m) in
    wrapErr "create request" (ret (http_NewRequest "GET" url));;?
    resp ←? wrapErr "download workspace"
              (effect (EHTTPDo url ("Bearer " +:+ Platform.AccessKey platform) true)
                 (sys_HTTPDo url ("Bearer " +:+ Platform.AccessKey platform)));
    defer (effect_ EBodyClose sys_BodyClose)
      (if decide (Response.StatusCode resp = 200) then
         wrapErr ("stream mount " +:+ Mount_String m)
           (effect (EExtract ProgressReader (Mount.Target m))
              (sys_Extract ProgressReader (Mount.Target m)))
       else
         body ← effect EReadAll sys_ReadAll;
         ret (Err (errNew ("download workspace: body = " +:+ body
                           +:+ ", status = " +:+ Response.Status resp))))
  else
    logf InfoLevel "Copy %s into DevContainer %s"
      [LStr (Mount.Source m); LStr (Mount.Target m)];;
    wrapErr ("init stream mount " +:+ Mount_String m)
      (effect (EStreamMount (Mount_String m)) (sys_StreamMount (Mount_String m)));;?
    wrapErr ("stream mount " +:+ Mount_String m)
      (effect (EExtract TunnelStreamReader (Mount.Target m))
         (sys_Extract TunnelStreamReader (Mount.Target m))).

(** *** The loop of [Run] over the mounts (lines 188-203) *)

(** Whether the loop skips the mount: the run is not a reset and the
    target directory reads without error and has entries. *)
Definition targetNotEmpty (files : Result (list string)) : bool :=
  match files with
  | Ok (_ :: _) => true
  | _ => false
  end.

Fixpoint syncMounts (workspaceInfo : WorkspaceInfo.t) (mounts : list Mount.t)
  : M (Result unit) :=
  match mounts with
  | [] => nil_
  | m :: rest =>
      skip ←
        (if CLIOptions.Reset (WorkspaceInfo.CLIOptions workspaceInfo) then ret false
         else
           files ← read (sys_ReadDir (Mount.Target m));
           ret (targetNotEmpty files));
      if (skip : bool) then
        logv DebugLevel
          [LStr "Skip stream mount "; LStr (Mount.Target m);
           LStr " because it's not empty"];;
        syncMounts workspaceInfo rest
      else
        streamMount workspaceInfo m;;?
        syncMounts workspaceInfo rest
  end.


(** *** configureDockerCredentials *)

Definition configureDockerCredentials : M (Result string) :=
  serverPort ←? effect EStartCredentialsServer sys_StartCredentialsServer;
  dockerCredentials ←?
    effect (EConfigureCredentialsDockerless "/.dockerless/.docker" serverPort)
      (sys_ConfigureCredentialsDockerless "/.dockerless/.docker" serverPort);
  ret (Ok dockerCredentials).

(** *** dockerlessBuild *)

(** Lines 388-394: the targets of the mounts that are there already
    are ignored by the build. *)
Fixpoint ignoreMounts (mounts : list Mount.t) (args : list string)
  : M (list string) :=
  match mounts with
  | [] => ret args
  | m :: rest =>
      files ← read (sys_ReadDir (Mount.Target m));
      if targetNotEmpty files
      then ignoreMounts rest (args ++ ["--ignore-path"; Mount.Target m])
      else ignoreMounts rest args
  end.

(** Lines 336-351: the build info is in the build context, or is
    moved there from the fallback directory. *)
Definition findBuildInfo (fallbackDir buildInfoDir : string) : M (Result unit) :=
  found ← read (sys_Stat buildInfoDir);
  match found with
  | Ok _ => nil_
  | Err _ =>
      wrapErr "rename dir"
        (effect (ERenameDirectory fallbackDir buildInfoDir)
           (sys_RenameDirectory fallbackDir buildInfoDir));;?
      wrapErr ("couldn't find build dir " +:+ buildInfoDir)
        (read (sys_Stat buildInfoDir))
  end.

(** Lines 358-374: unless disabled, the docker credentials are
    configured for the time of [build]; a failure to configure them
    is logged and the build goes on without them. *)
Definition withDockerCredentials (dockerlessOptions : Dockerless.t)
    (build : M (Result unit)) : M (Result unit) :=
  if negb (String.eqb (Dockerless.DisableDockerCredentials dockerlessOptions) "true") then
    defer (effect_ ECancel sys_Cancel)
      (dockerCredentialsDir ← configureDockerCredentials;
       match dockerCredentialsDir with
       | Err err =>
           logf ErrorLevel "Error configuring docker credentials: %v" [LErr err];;
           build
       | Ok dockerCredentialsDir =>
           defer (effect_ (EUnsetenv "DOCKER_CONFIG") (sys_Unsetenv "DOCKER_CONFIG");;
                  effect_ (ERemoveAll dockerCredentialsDir)
                    (sys_RemoveAll dockerCredentialsDir))
             build
       end)
  else build.

(** Lines 404-408: the standard output of the builder goes to the
    logger when [debug] is set, and is not set otherwise. *)
Definition withDebugWriter (debug : bool)
    (run : option Level -> M (Result unit)) : M (Result unit) :=
  if debug then
    effect_ (EWriter DebugLevel) (sys_Writer DebugLevel);;
    defer (effect_ (EWriterClose DebugLevel) (sys_WriterClose DebugLevel))
      (run (Some DebugLevel))
  else run None.

(** Lines 376-440: the arguments, the run of the builder and what
    follows it. *)
Definition runDockerless (setupInfo : SetupInfo.t)
    (dockerlessOptions : Dockerless.t) (debug : bool)
    (binaryPath fallbackDir buildInfoDir : string) : M (Result unit) :=
  let args := ["build"; "--ignore-path"; binaryPath] in
  let args := args ++ parseIgnorePaths (Dockerless.IgnorePaths dockerlessOptions) in
  let args := args ++ ["--build-arg"; "TARGETOS=" +:+ runtime_GOOS] in
  let args := args ++ ["--build-arg"; "TARGETARCH=" +:+ runtime_GOARCH] in
  args ←
    (if negb (String.eqb (Dockerless.RegistryCache dockerlessOptions) "") then
       logv DebugLevel
         [LStr "Appending registry cache to dockerless build arguments ";
          LStr (Dockerless.RegistryCache dockerlessOptions)];;
       ret (args ++ ["--registry-cache"; Dockerless.RegistryCache dockerlessOptions])
     else ret args);
  let args := args ++ ["--ignore-path"; SetupInfo.ContainerWorkspaceFolder setupInfo] in
  args ← ignoreMounts (MergedConfig.Mounts (SetupInfo.MergedConfig setupInfo)) args;
  (* errWriter := log.Writer(logrus.InfoLevel, false) *)
  effect_ (EWriter InfoLevel) (sys_Writer InfoLevel);;
  defer (effect_ (EWriterClose InfoLevel) (sys_WriterClose InfoLevel))
    (logf InfoLevel "Start dockerless building %s %s"
       [LStr "/.dockerless/dockerless"; LStr (GoStrings.Join args " ")];;
     withDebugWriter debug (fun stdout =>
       environ ← read sys_Environ;
       let cmd := {| Cmd.Path := "/.dockerless/dockerless";
                     Cmd.Args := args;
                     Cmd.Env := Some environ;
                     Cmd.Stdout := stdout;
                     Cmd.Stderr := Some InfoLevel |} in
       effect (EExec cmd) (sys_Exec cmd);;?
       rawConfig ←? read (sys_ReadFile DockerlessImageConfigOutput);
       configFile ←? wrapErr "parse container config" (ret (Unmarshal_ConfigFile rawConfig));
       effect_ (EMergeAndApply (ListToObject (ConfigFile.Env configFile)))
         (sys_MergeAndApply (ListToObject (ConfigFile.Env configFile)));;
       effect_ (ERemoveAll fallbackDir) (sys_RemoveAll fallbackDir);;
       renamed ← effect (ERenameDirectory buildInfoDir fallbackDir)
                   (sys_RenameDirectory buildInfoDir fallbackDir);
       match renamed with
       | Err err =>
           logf DebugLevel "Error renaming dir %s: %v" [LStr buildInfoDir; LErr err];;
           nil_
       | Ok _ => nil_
       end)).

Definition dockerlessBuild (setupInfo : SetupInfo.t)
    (dockerlessOptions : Dockerless.t) (debug : bool) : M (Result unit) :=
  dockerless ← read (sys_Getenv "DOCKERLESS");
  if negb (String.eqb dockerless "true") then nil_
  else
    built ← read (sys_Stat DockerlessImageConfigOutput);
    match built with
    | Ok _ =>
        logf DebugLevel "Skip dockerless build, because container was built already" [];;
        nil_
    | Err _ =>
        buildContext ← read (sys_Getenv "DOCKERLESS_CONTEXT");
        if String.eqb buildContext "" then
          logf DebugLevel "Build context is missing for dockerless build" [];;
          nil_
        else
          let fallbackDir :=
            filepath_Join [DevPodDockerlessBuildInfoFolder; DevPodContextFeatureFolder] in
          let buildInfoDir := filepath_Join [buildContext; DevPodContextFeatureFolder] in
          findBuildInfo fallbackDir buildInfoDir;;?
          binaryPath ←? read sys_Executable;
          withDockerCredentials dockerlessOptions
            (runDockerless setupInfo dockerlessOptions debug
               binaryPath fallbackDir buildInfoDir)
    end.

(** *** fillContainerEnv *)

(** Lines 294-300: the remote environment is made a map if it is nil,
    and gets a ["PATH"] entry if it has none. *)
Definition setRemoteEnv (remoteEnv : option (gmap string string))
  : gmap string string :=
  let remoteEnv := match remoteEnv with
                   | None => ∅
                   | Some env => env
                   end in
  match remoteEnv !! "PATH" with
  | Some _ => remoteEnv
  | None => <["PATH" := "${containerEnv:PATH}"]> remoteEnv
  end.

Definition withRemoteEnv (c : MergedConfig.t) : MergedConfig.t :=
  {| MergedConfig.RemoteEnv := Some (setRemoteEnv (MergedConfig.RemoteEnv c));
     MergedConfig.Mounts := MergedConfig.Mounts c;
     MergedConfig.Customizations := MergedConfig.Customizations c |}.

(** [setupInfo] is a pointer: the function returns, with its error,
    the value [setupInfo] points to when it returns. *)
Definition fillContainerEnv (setupInfo : SetupInfo.t)
  : M (Result unit * SetupInfo.t) :=
  let mergedConfig := withRemoteEnv (SetupInfo.MergedConfig setupInfo) in
  environ ← read sys_Environ;
  match SubstituteContainerEnv (ListToObject environ) mergedConfig with
  | Err err =>
      ret (Err (errWrap "substitute container env" err),
           SetupInfo.withMergedConfig setupInfo mergedConfig)
  | Ok newMergedConfig =>
      ret (Ok tt, SetupInfo.withMergedConfig setupInfo newMergedConfig)
  end.

(** *** configureSystemGitCredentials *)

(** The cleanup function that [configureSystemGitCredentials] returns. *)
Definition unsetSystemGitCredentials : M unit :=
  logv DebugLevel [LStr "Unset setup system credential helper"];;
  err ← effect (EGit ["config"; "--system"; "--unset"; "credential.helper"])
          (sys_Git ["config"; "--system"; "--unset"; "credential.helper"]);
  match err with
  | Err err => logf ErrorLevel "unset system credential helper %v" [LErr err]
  | Ok _ => ret tt
  end.

Definition configureSystemGitCredentials : M (Result (M unit)) :=
  exists_ ← read (sys_CommandExists "git");
  if negb exists_ then ret (Err (errNew "git not found"))
  else
    serverPort ←? effect EStartCredentialsServer sys_StartCredentialsServer;
    binaryPath ←? read sys_Executable;
    let gitCredentials :=
      "!'" +:+ binaryPath +:+ "' agent git-credentials --port " +:+ Itoa serverPort in
    effect_ (ESetenv "DEVPOD_GIT_HELPER_PORT" (Itoa serverPort))
      (sys_Setenv "DEVPOD_GIT_HELPER_PORT" (Itoa serverPort));;
    wrapErr "add git credential helper"
      (effect (EGit ["config"; "--system"; "--add"; "credential.helper"; gitCredentials])
         (sys_Git ["config"; "--system"; "--add"; "credential.helper"; gitCredentials]));;?
    ret (Ok unsetSystemGitCredentials).

(** *** The IDE dispatch *)

(** Lines 531-539 and 576-584: the settings are marshalled when
    there are some, and are the empty string otherwise. *)
Definition marshalSettings (vsCodeConfiguration : VSCodeConfiguration.t)
  : Result string :=
  if (0 <? size (VSCodeConfiguration.Settings vsCodeConfiguration))%nat
  then Marshal_Settings (VSCodeConfiguration.Settings vsCodeConfiguration)
  else Ok "".

(** The background command of [setupVSCode] (lines 556-570). *)
Definition vscodeAsync (cmd : SetupContainerCmd.t) (extensions : list string)
    (flavor : Flavor) : M (Result Cmd.t) :=
  logf InfoLevel "Install extensions '%s' in the background"
    [LStr (GoStrings.Join extensions ",")];;
  binaryPath ←? read sys_Executable;
  let args := ["agent"; "container"; "vscode-async";
               "--setup-info"; SetupContainerCmd.SetupInfo cmd;
               "--release-channel"; flavor] in
  ret (Ok (Cmd.Command binaryPath args)).

Definition setupVSCode (cmd : SetupContainerCmd.t) (setupInfo : SetupInfo.t)
    (ideOptions : Options) (flavor : Flavor) : M (Result unit) :=
  logf DebugLevel "Setup %s..." [LStr (Flavor_DisplayName flavor)];;
  let vsCodeConfiguration := GetVSCodeConfiguration (SetupInfo.MergedConfig setupInfo) in
  let settingsMap := VSCodeConfiguration.Settings vsCodeConfiguration in
  let extensions := VSCodeConfiguration.Extensions vsCodeConfiguration in
  settings ←? ret (marshalSettings vsCodeConfiguration);
  let user := GetRemoteUser setupInfo in
  effect (EInstall (VSCodeServer extensions settings user ideOptions flavor))
    (sys_Install (VSCodeServer extensions settings user ideOptions flavor));;?
  (* don't install code-server if we don't have settings or extensions *)
  if ((size settingsMap =? 0) && (length extensions =? 0))%nat then nil_
  else if (length extensions =? 0)%nat then nil_
  else
    single_Single (flavor +:+ "-async.pid") (vscodeAsync cmd extensions flavor).

(** The background command of [setupOpenVSCode] (lines 597-605). *)
Definition openvscodeAsync (cmd : SetupContainerCmd.t) (extensions : list string)
  : M (Result Cmd.t) :=
  logf InfoLevel "Install extensions '%s' in the background"
    [LStr (GoStrings.Join extensions ",")];;
  binaryPath ←? read sys_Executable;
  ret (Ok (Cmd.Command binaryPath
             ["agent"; "container"; "openvscode-async";
              "--setup-info"; SetupContainerCmd.SetupInfo cmd])).

Definition setupOpenVSCode (cmd : SetupContainerCmd.t) (setupInfo : SetupInfo.t)
    (ideOptions : Options) : M (Result unit) :=
  logf DebugLevel "Setup openvscode..." [];;
  let vsCodeConfiguration := GetVSCodeConfiguration (SetupInfo.MergedConfig setupInfo) in
  let settingsMap := VSCodeConfiguration.Settings vsCodeConfiguration in
  let extensions := VSCodeConfiguration.Extensions vsCodeConfiguration in
  settings ←? ret (marshalSettings vsCodeConfiguration);
  let user := GetRemoteUser setupInfo in
  let openVSCode :=
    OpenVSCodeServer extensions settings user "0.0.0.0" (Itoa DefaultVSCodePort)
      ideOptions in
  (* install open vscode *)
  effect (EInstall openVSCode) (sys_Install openVSCode);;?
  (* install extensions in background *)
  (if (0 <? length extensions)%nat then
     wrapErr "install extensions"
       (single_Single "openvscode-async.pid" (openvscodeAsync cmd extensions))
   else nil_);;?
  (* start the server in the background *)
  effect (EStart openVSCode) (sys_Start openVSCode).

Definition install (installer : Installer) : M (Result unit) :=
  effect (EInstall installer) (sys_Install installer).

Definition installIDE (cmd : SetupContainerCmd.t) (setupInfo : SetupInfo.t)
    (ide : IDEConfig.t) : M (Result unit) :=
  let options := IDEConfig.Options ide in
  let user := GetRemoteUser setupInfo in
  let folder := SetupInfo.ContainerWorkspaceFolder setupInfo in
  match IDEConfig.Name ide with
  | IDENone => nil_
  | IDEVSCode => setupVSCode cmd setupInfo options FlavorStable
  | IDEVSCodeInsiders => setupVSCode cmd setupInfo options FlavorInsiders
  | IDECursor => setupVSCode cmd setupInfo options FlavorCursor
  | IDEPositron => setupVSCode cmd setupInfo options FlavorPositron
  | IDECodium => setupVSCode cmd setupInfo options FlavorCodium
  | IDEWindsurf => setupVSCode cmd setupInfo options FlavorWindsurf
  | IDEOpenVSCode => setupOpenVSCode cmd setupInfo options
  | IDEGoland => install (JetBrainsServer Goland user options)
  | IDERustRover => install (JetBrainsServer RustRover user options)
  | IDEPyCharm => install (JetBrainsServer PyCharm user options)
  | IDEPhpStorm => install (JetBrainsServer PhpStorm user options)
  | IDEIntellij => install (JetBrainsServer Intellij user options)
  | IDECLion => install (JetBrainsServer CLion user options)
  | IDERider => install (JetBrainsServer Rider user options)
  | IDERubyMine => install (JetBrainsServer RubyMine user options)
  | IDEWebStorm => install (JetBrainsServer WebStorm user options)
  | IDEDataSpell => install (JetBrainsServer DataSpell user options)
  | IDEFleet => install (FleetServer user options folder)
  | IDEJupyterNotebook => install (JupyterNotebookServer folder user options)
  | IDERStudio =>
      err ← install (RStudioServer folder user options);
      match err with
      | Err err =>
          logf ErrorLevel "could not install rstudio with error: %w" [LErr err];;
          nil_
      | Ok _ => nil_
      end
  | IDEOther _ => nil_
  end.

(** *** Run

    [Run] is one sequence of steps with early returns.  It is cut
    here before each step, last step first: [Run_X] is the run from
    step [X] of the sequence on, so that [Run] itself, at the end,
    reads from line 149 and hands over to the cut that follows. *)

(** Lines 279-289. *)
Definition Run_ReportResult (setupInfo : SetupInfo.t) : M (Result unit) :=
  out ←? wrapErr "marshal setup info" (ret (Marshal_SetupInfo setupInfo));
  wrapErr "send result" (effect (ESendResult out) (sys_SendResult out));;?
  nil_.

(** The command of the container daemon (lines 265-273). *)
Definition daemonCommand (workspaceInfo : WorkspaceInfo.t) : M (Result Cmd.t) :=
  logf DebugLevel "Start DevPod Container Daemon with Inactivity Timeout %s"
    [LStr (WorkspaceInfo.ContainerTimeout workspaceInfo)];;
  binaryPath ←? read sys_Executable;
  ret (Ok (Cmd.Command binaryPath
             ["agent"; "container"; "daemon"; "--timeout";
              WorkspaceInfo.ContainerTimeout workspaceInfo])).

(** Lines 263-277, the step alone. *)
Definition startDaemon (workspaceInfo : WorkspaceInfo.t) : M (Result unit) :=
  let options := WorkspaceInfo.CLIOptions workspaceInfo in
  if negb (Platform.Enabled (CLIOptions.Platform options))
     && negb (CLIOptions.DisableDaemon options)
     && negb (String.eqb (WorkspaceInfo.ContainerTimeout workspaceInfo) "")
  then single_Single "devpod.daemon.pid" (daemonCommand workspaceInfo)
  else nil_.

Definition Run_StartDaemon (workspaceInfo : WorkspaceInfo.t)
    (setupInfo : SetupInfo.t) : M (Result unit) :=
  startDaemon workspaceInfo;;?
  Run_ReportResult setupInfo.

(** Lines 257-261. *)
Definition Run_InstallIDE (cmd : SetupContainerCmd.t)
    (workspaceInfo : WorkspaceInfo.t) (setupInfo : SetupInfo.t) : M (Result unit) :=
  installIDE cmd setupInfo (WorkspaceInfo.IDE workspaceInfo);;?
  Run_StartDaemon workspaceInfo setupInfo.

(** [setup.SetupContainer]: it is handed the pointer [setupInfo], and
    the run goes on with what it leaves there. *)
Definition SetupContainer (cmd : SetupContainerCmd.t)
    (workspaceInfo : WorkspaceInfo.t) (setupInfo : SetupInfo.t)
  : M (Result unit * SetupInfo.t) :=
  let options := WorkspaceInfo.CLIOptions workspaceInfo in
  effect (ESetupContainer setupInfo (SetupContainerCmd.ChownWorkspace cmd))
    (sys_SetupContainer setupInfo (CLIOptions.WorkspaceEnv options)
       (SetupContainerCmd.ChownWorkspace cmd) (CLIOptions.Platform options)).

(** Lines 251-255. *)
Definition Run_ContainerSetup (cmd : SetupContainerCmd.t)
    (workspaceInfo : WorkspaceInfo.t) (setupInfo : SetupInfo.t) : M (Result unit) :=
  r ← SetupContainer cmd workspaceInfo setupInfo;
  match r with
  | (Err err, _) => ret (Err err)
  | (Ok _, setupInfo) => Run_InstallIDE cmd workspaceInfo setupInfo
  end.

(** [agent.CloneRepositoryForWorkspace] with the arguments of line 237. *)
Definition CloneRepositoryForWorkspace (workspaceInfo : WorkspaceInfo.t)
    (setupInfo : SetupInfo.t) : M (Result unit) :=
  effect
    (ECloneRepository (WorkspaceInfo.Source workspaceInfo)
       (WorkspaceInfo.Agent workspaceInfo)
       (SetupInfo.ContainerWorkspaceFolder setupInfo)
       (WorkspaceInfo.CLIOptions workspaceInfo))
    (sys_CloneRepository (WorkspaceInfo.Source workspaceInfo)
       (WorkspaceInfo.Agent workspaceInfo)
       (SetupInfo.ContainerWorkspaceFolder setupInfo)
       (WorkspaceInfo.CLIOptions workspaceInfo)).

(** Lines 230-249, the step alone. *)
Definition cloneRepository (workspaceInfo : WorkspaceInfo.t)
    (setupInfo : SetupInfo.t) : M (Result unit) :=
  match StrBool_Bool (WorkspaceInfo.PullFromInsideContainer workspaceInfo) with
  | Ok true =>
      (* check if workspace folder exists and is a git repository *)
      let folder := SetupInfo.ContainerWorkspaceFolder setupInfo in
      found ← read (sys_Stat (filepath_Join [folder; ".git"]));
      if isOk found
         && negb (CLIOptions.Recreate (WorkspaceInfo.CLIOptions workspaceInfo))
      then
        logf DebugLevel "Workspace repository already checked out %s, skipping clone"
          [LStr folder];;
        nil_
      else CloneRepositoryForWorkspace workspaceInfo setupInfo
  | _ => nil_
  end.

Definition Run_CloneRepository (cmd : SetupContainerCmd.t)
    (workspaceInfo : WorkspaceInfo.t) (setupInfo : SetupInfo.t) : M (Result unit) :=
  cloneRepository workspaceInfo setupInfo;;?
  Run_ContainerSetup cmd workspaceInfo setupInfo.

(** Lines 218-228: the two deferred calls run when [Run] returns. *)
Definition Run_InjectGitCredentials (cmd : SetupContainerCmd.t)
    (workspaceInfo : WorkspaceInfo.t) (setupInfo : SetupInfo.t) : M (Result unit) :=
  if SetupContainerCmd.InjectGitCredentials cmd then
    defer (effect_ ECancel sys_Cancel)
      (cleanupFunc ← configureSystemGitCredentials;
       match cleanupFunc with
       | Err err =>
           logf ErrorLevel "Error configuring git credentials: %v" [LErr err];;
           Run_CloneRepository cmd workspaceInfo setupInfo
       | Ok cleanupFunc =>
           defer cleanupFunc (Run_CloneRepository cmd workspaceInfo setupInfo)
       end)
  else Run_CloneRepository cmd workspaceInfo setupInfo.

(** Lines 212-216. *)
Definition Run_MergeEnv (cmd : SetupContainerCmd.t)
    (workspaceInfo : WorkspaceInfo.t) (setupInfo : SetupInfo.t) : M (Result unit) :=
  r ← fillContainerEnv setupInfo;
  match r with
  | (Err err, _) => ret (Err err)
  | (Ok _, setupInfo) => Run_InjectGitCredentials cmd workspaceInfo setupInfo
  end.

(** Lines 206-210. *)
Definition Run_DockerlessBuild (cmd : SetupContainerCmd.t)
    (workspaceInfo : WorkspaceInfo.t) (setupInfo : SetupInfo.t) : M (Result unit) :=
  wrapErr "dockerless build"
    (dockerlessBuild setupInfo (WorkspaceInfo.Dockerless workspaceInfo)
       (SetupContainerCmd.Debug cmd));;?
  Run_MergeEnv cmd workspaceInfo setupInfo.

(** Lines 184-204, the step alone. *)
Definition streamMounts (cmd : SetupContainerCmd.t)
    (workspaceInfo : WorkspaceInfo.t) (setupInfo : SetupInfo.t) : M (Result unit) :=
  if SetupContainerCmd.StreamMounts cmd then
    let mounts := GetMounts setupInfo in
    logv DebugLevel [LStr "Syncing mounts... "; LMounts mounts];;
    syncMounts workspaceInfo mounts
  else nil_.

Definition Run_StreamMounts (cmd : SetupContainerCmd.t)
    (workspaceInfo : WorkspaceInfo.t) (setupInfo : SetupInfo.t) : M (Result unit) :=
  streamMounts cmd workspaceInfo setupInfo;;?
  Run_DockerlessBuild cmd workspaceInfo setupInfo.

(** Lines 166-182. *)
Definition Run_DecodeInputs (cmd : SetupContainerCmd.t) : M (Result unit) :=
  logf DebugLevel "Start setting up container..." [];;
  workspaceInfo ←?
    ret (DecodeContainerWorkspaceInfo (SetupContainerCmd.ContainerWorkspaceInfo cmd));
  decompressed ←? ret (Decompress (SetupContainerCmd.SetupInfo cmd));
  setupInfo ←? ret (Unmarshal_SetupInfo decompressed);
  Run_StreamMounts cmd workspaceInfo setupInfo.

(** Lines 160-164. *)
Definition Run_Ping (cmd : SetupContainerCmd.t) : M (Result unit) :=
  wrapErr "ping client" (effect EPing sys_Ping);;?
  Run_DecodeInputs cmd.

(** Lines 149-158. *)
Definition Run (cmd : SetupContainerCmd.t) : M (Result unit) :=
  wrapErr "error creating tunnel client"
    (effect ENewTunnelClient sys_NewTunnelClient);;?
  logf DebugLevel "Created logger" [];;
  Run_Ping cmd.

End Agent.

(** ** progressReader *)

Module Progress.

(** [int64]: the sum of two values, wrapped around. *)
Definition wrap64 (z : Z) : Z := (z + 2 ^ 63) mod 2 ^ 64 - 2 ^ 63.

Definition inInt64 (z : Z) : Prop := - 2 ^ 63 <= z < 2 ^ 63.

(** A [time.Time] is the count of nanoseconds since its zero value;
    [Time.Sub] gives a [Duration], an [int64] of nanoseconds, and
    saturates. *)
Definition Sub (t u : Z) : Z := Z.max (- 2 ^ 63) (Z.min (2 ^ 63 - 1) (t - u)).

Definition Second : Z := 1000000000.

Record progressReader : Type := {
  lastMessage : Z;
  bytesRead : Z }.

(** The reader of line 690: the fields that are not set are zero. *)
Definition new : progressReader := {| lastMessage := 0; bytesRead := 0 |}.

(** What [Read] calls: the wrapped [io.Reader], which fills the buffer
    and returns [(n, err)] ([None] is the nil error), the clock and
    the logger. *)
Class Under (W : Type) : Type := {
  Reader_Read : list Byte.byte -> W -> (list Byte.byte * Z * option error) * W;
  time_Now : W -> Z * W;
  Log_Infof : string -> list LogArg -> W -> W }.

Section Read.
Context {W : Type} `{Under W}.

(** [Read] returns the buffer as the wrapped reader left it, [n] and
    [err], with the reader and the world after the call.  The
    logged figure is [bytesRead], which the format shows in MB. *)
Definition Read (p : progressReader) (b : list Byte.byte) (w : W)
  : (list Byte.byte * Z * option error) * progressReader * W :=
  let '(b, n, err, w) := Reader_Read b w in
  let bytesRead := wrap64 (bytesRead p + n) in
  let '(now, w) := time_Now w in
  if Second * 4 <? Sub now (lastMessage p) then
    let w := Log_Infof "Downloaded %.2f MB" [LInt bytesRead] w in
    let '(now, w) := time_Now w in
    (b, n, err, {| lastMessage := now; bytesRead := bytesRead |}, w)
  else
    (b, n, err, {| lastMessage := lastMessage p; bytesRead := bytesRead |}, w).

(** One [Read] after the other, into the buffers [bs]: the byte
    counts and the errors returned, in order. *)
Fixpoint Reads (p : progressReader) (bs : list (list Byte.byte)) (w : W)
  : list (Z * option error) * progressReader * W :=
  match bs with
  | [] => ([], p, w)
  | b :: bs =>
      let '(_, n, err, p, w) := Read p b w in
      let '(rs, p, w) := Reads p bs w in
      ((n, err) :: rs, p, w)
  end.

Definition total (rs : list (Z * option error)) : Z :=
  fold_right Z.add 0 (map fst rs).

End Read.

(** A reader that answers every read with the count [n] and no error,
    under a clock that stands still and a logger that writes nowhere. *)
Definition stub (n : Z) : Under unit :=
  {| Reader_Read b w := (b, n, None, w);
     time_Now w := (0, w);
     Log_Infof _ _ w := w |}.

End Progress.

(** ** A world with fixed answers

    The packages and the world of [Demo] answer from a table: they are
    what the model is run on, and what the properties below are applied
    to at a concrete run. *)

Module Demo.

Record World : Type := {
  env : gmap string string;            (* the environment *)
  files : list string;                 (* the paths [os.Stat] finds *)
  dirs : gmap string (list string);    (* the directories [os.ReadDir] reads *)
  commands : list string;              (* the commands on the path *)
  executable : Result string;          (* [os.Executable] *)
  alive : list string;                 (* the locks a live process holds *)
  fails : Event -> bool }.             (* the effects that fail *)

Definition failed : error := errNew "failed".

Definition notFound : error := errNew "no such file or directory".

Definition outcome {A} (w : World) (ev : Event) (a : A) : Result A * World :=
  (if fails w ev then Err failed else Ok a, w).

(** The value of a reference ["${containerEnv:NAME}"], and any other
    value as it is. *)
Definition substituteValue (containerEnv : gmap string string) (v : string) : string :=
  if String.prefix "${containerEnv:" v
     && String.eqb (String.substring (String.length v - 1) 1 v) "}"
  then
    let name := String.substring 15 (String.length v - 16) v in
    default v (containerEnv !! name)
  else v.

Definition substitute (containerEnv : gmap string string) (c : MergedConfig.t)
  : Result MergedConfig.t :=
  Ok {| MergedConfig.RemoteEnv :=
          fmap (M := option) (fmap (substituteValue containerEnv))
            (MergedConfig.RemoteEnv c);
        MergedConfig.Mounts := MergedConfig.Mounts c;
        MergedConfig.Customizations := MergedConfig.Customizations c |}.

Definition withFile (path : string) (w : World) : World :=
  {| env := env w; files := path :: files w; dirs := dirs w;
     commands := commands w; executable := executable w; alive := alive w;
     fails := fails w |}.

Definition keyValue (kv : string * string) : string := fst kv +:+ "=" +:+ snd kv.

Definition extern (workspaceInfo : WorkspaceInfo.t) (setupInfo : SetupInfo.t)
    (vsCodeConfiguration : VSCodeConfiguration.t) : Extern := {|
  filepath_Join elems := GoStrings.Join elems "/";
  url_QueryEscape s := s;
  ts_RemoveProtocol s := s;
  http_NewRequest _ _ := Ok tt;
  runtime_GOOS := "linux";
  runtime_GOARCH := "amd64";
  DevPodDockerlessBuildInfoFolder := "/workspaces/.dockerless";
  DevPodContextFeatureFolder := ".devpod-internal";
  FlavorStable := "stable";
  FlavorInsiders := "insiders";
  FlavorCursor := "cursor";
  FlavorPositron := "positron";
  FlavorCodium := "codium";
  FlavorWindsurf := "windsurf";
  Flavor_DisplayName flavor := flavor;
  DefaultVSCodePort := 10800;
  Mount_String m := Mount.Source m +:+ ":" +:+ Mount.Target m;
  StrBool_Bool s :=
    if String.eqb s "true" then Ok true
    else if String.eqb s "false" then Ok false
    else Err (errNew "invalid syntax");
  GetMounts s := MergedConfig.Mounts (SetupInfo.MergedConfig s);
  GetVSCodeConfiguration _ := vsCodeConfiguration;
  GetRemoteUser _ := "root";
  ListToObject _ := ∅;
  SubstituteContainerEnv := substitute;
  DecodeContainerWorkspaceInfo _ := Ok workspaceInfo;
  Decompress s := Ok s;
  Unmarshal_SetupInfo _ := Ok setupInfo;
  Marshal_SetupInfo _ := Ok "{}";
  Marshal_Settings _ := Ok "{}";
  Unmarshal_ConfigFile _ := Ok {| ConfigFile.Env := [] |} |}.

Definition sys : Sys World := {|
  sys_Getenv key w := default "" (env w !! key);
  sys_Environ w := map keyValue (map_to_list (env w));
  sys_Stat path w := if bool_decide (path ∈ files w) then Ok tt else Err notFound;
  sys_ReadDir path w :=
    match dirs w !! path with
    | Some entries => Ok entries
    | None => Err notFound
    end;
  sys_ReadFile path w :=
    if bool_decide (path ∈ files w) then Ok "{}" else Err notFound;
  sys_Executable w := executable w;
  sys_CommandExists name w := bool_decide (name ∈ commands w);
  sys_LockAlive name w := bool_decide (name ∈ alive w);
  sys_Log _ _ _ w := w;
  sys_Writer _ w := w;
  sys_WriterClose _ w := w;
  sys_NewTunnelClient w := outcome w ENewTunnelClient tt;
  sys_Ping w := outcome w EPing tt;
  sys_StreamMount mount w := outcome w (EStreamMount mount) tt;
  sys_SendResult message w := outcome w (ESendResult message) tt;
  sys_HTTPDo url authorization w :=
    outcome w (EHTTPDo url authorization true)
      {| Response.StatusCode := 200; Response.Status := "200 OK" |};
  sys_ReadAll w := ("", w);
  sys_BodyClose w := w;
  sys_Extract from target w := outcome w (EExtract from target) tt;
  sys_RenameDirectory from to w := outcome w (ERenameDirectory from to) tt;
  sys_RemoveAll _ w := w;
  sys_Setenv _ _ w := w;
  sys_Unsetenv _ w := w;
  sys_StartCredentialsServer w := outcome w EStartCredentialsServer 12049;
  sys_Cancel w := w;
  sys_ConfigureCredentialsDockerless dir port w :=
    outcome w (EConfigureCredentialsDockerless dir port) dir;
  sys_Git args w := outcome w (EGit args) tt;
  sys_Exec cmd w :=
    (* the builder writes the image configuration *)
    if fails w (EExec cmd) then (Err failed, w)
    else (Ok tt, withFile DockerlessImageConfigOutput w);
  sys_MergeAndApply _ w := w;
  sys_CloneRepository source agent folder options w :=
    outcome w (ECloneRepository source agent folder options) tt;
  sys_SetupContainer setupInfo _ chown _ w :=
    let (r, w) := outcome w (ESetupContainer setupInfo chown) tt in ((r, setupInfo), w);
  sys_Install installer w := outcome w (EInstall installer) tt;
  sys_Start installer w := outcome w (EStart installer) tt;
  sys_Spawn name cmd w := outcome w (ESpawn name cmd) tt |}.

(** A workspace with one mount, cloned from inside the container. *)
Definition mount : Mount.t :=
  {| Mount.Source := "/home/user/project"; Mount.Target := "/workspaces/project";
     Mount.Rest := "type=bind" |}.

Definition platform : Platform.t :=
  {| Platform.Enabled := false; Platform.PlatformHost := "";
     Platform.InstanceNamespace := ""; Platform.InstanceName := "";
     Platform.AccessKey := "" |}.

Definition options (reset recreate : bool) : CLIOptions.t :=
  {| CLIOptions.Reset := reset; CLIOptions.Recreate := recreate;
     CLIOptions.DisableDaemon := false; CLIOptions.WorkspaceEnv := [];
     CLIOptions.Platform := platform |}.

Definition dockerless : Dockerless.t :=
  {| Dockerless.DisableDockerCredentials := "true";
     Dockerless.IgnorePaths := "node_modules, .cache";
     Dockerless.RegistryCache := "" |}.

Definition workspaceInfo (reset recreate : bool) (ide : IDE) : WorkspaceInfo.t :=
  {| WorkspaceInfo.CLIOptions := options reset recreate;
     WorkspaceInfo.Source := "git:https://example.com/project.git";
     WorkspaceInfo.Agent := "";
     WorkspaceInfo.Dockerless := dockerless;
     WorkspaceInfo.IDE := {| IDEConfig.Name := ide; IDEConfig.Options := ∅ |};
     WorkspaceInfo.PullFromInsideContainer := "true";
     WorkspaceInfo.ContainerTimeout := "" |}.

Definition setupInfo (remoteEnv : option (gmap string string)) : SetupInfo.t :=
  {| SetupInfo.ContainerWorkspaceFolder := "/workspaces/project";
     SetupInfo.MergedConfig :=
       {| MergedConfig.RemoteEnv := remoteEnv;
          MergedConfig.Mounts := [mount];
          MergedConfig.Customizations := "" |} |}.

Definition vsCode (settings : gmap string string) (extensions : list string)
  : VSCodeConfiguration.t :=
  {| VSCodeConfiguration.Settings := settings;
     VSCodeConfiguration.Extensions := extensions |}.

Definition cmd (debug streamMounts injectGitCredentials : bool)
  : SetupContainerCmd.t :=
  {| SetupContainerCmd.Debug := debug;
     SetupContainerCmd.ChownWorkspace := false;
     SetupContainerCmd.StreamMounts := streamMounts;
     SetupContainerCmd.InjectGitCredentials := injectGitCredentials;
     SetupContainerCmd.ContainerWorkspaceInfo := "workspace-info";
     SetupContainerCmd.SetupInfo := "setup-info";
     SetupContainerCmd.AccessKey := "";
     SetupContainerCmd.PlatformHost := "";
     SetupContainerCmd.WorkspaceHost := "" |}.

Definition nothingFails (_ : Event) : bool := false.

Definition pingFails (ev : Event) : bool :=
  match ev with EPing => true | _ => false end.

Definition installFails (ev : Event) : bool :=
  match ev with EInstall _ => true | _ => false end.

Definition cloneFails (ev : Event) : bool :=
  match ev with ECloneRepository _ _ _ _ => true | _ => false end.

(** The packages, for a workspace without IDE. *)
Definition ex : Extern :=
  extern (workspaceInfo false false IDENone) (setupInfo None) (vsCode ∅ []).

(** The packages, for a workspace with the given VSCode settings and
    extensions. *)
Definition withVSCode (settings : gmap string string) (extensions : list string)
  : Extern :=
  extern (workspaceInfo false false IDECursor) (setupInfo None)
    (vsCode settings extensions).

(** The command of the builder in the worlds below. *)
Definition builder (stdout : option Level) : Cmd.t :=
  {| Cmd.Path := "/.dockerless/dockerless";
     Cmd.Args :=
       ["build"; "--ignore-path"; "/usr/local/bin/devpod";
        "--ignore-path"; "node_modules"; "--ignore-path"; ".cache";
        "--build-arg"; "TARGETOS=linux"; "--build-arg"; "TARGETARCH=amd64";
        "--ignore-path"; "/workspaces/project"];
     Cmd.Env := Some ["DOCKERLESS_CONTEXT=/workspaces/.dockerless"; "DOCKERLESS=true"];
     Cmd.Stdout := stdout;
     Cmd.Stderr := Some InfoLevel |}.

(** The world of a container that was set up before: the mount target
    has entries, the repository is checked out, the image was built. *)
Definition settled (fails : Event -> bool) : World :=
  {| env := {[ "DOCKERLESS" := "true"; "DOCKERLESS_CONTEXT" := "/workspaces/.dockerless" ]};
     files := ["/.dockerless/image.json"; "/workspaces/project/.git"];
     dirs := {[ "/workspaces/project" := ["README.md"] ]};
     commands := ["git"];
     executable := Ok "/usr/local/bin/devpod";
     alive := [];
     fails := fails |}.

(** The world of a fresh container, before the dockerless build. *)
Definition fresh (fails : Event -> bool) : World :=
  {| env := {[ "DOCKERLESS" := "true"; "DOCKERLESS_CONTEXT" := "/workspaces/.dockerless" ]};
     files := ["/workspaces/.dockerless/.devpod-internal"];
     dirs := {[ "/workspaces/project" := [] ]};
     commands := [];
     executable := Ok "/usr/local/bin/devpod";
     alive := [];
     fails := fails |}.

Definition start (w : World) : State World := mkState w [].

End Demo.

(** ** The vocabulary of the properties *)

Section Vocabulary.
Context {W : Type}.

(** The state and the result of an action run from [st]. *)
Definition after {A} (m : Act W A) (st : State W) : State W := snd (m st).
Definition result {A} (m : Act W A) (st : State W) : A := fst (m st).

(** The events an action adds to the trace. *)
Definition emitted {A} (m : Act W A) (st : State W) (evs : list Event) : Prop :=
  trace (after m st) = trace st ++ evs.

(** Every event the action adds satisfies [P]. *)
Definition emits {A} (P : Event -> Prop) (m : Act W A) : Prop :=
  forall st, exists evs, emitted m st evs /\ Forall P evs.

(** When [step] fails, [run], which starts with it, returns its error
    (as [wrap] wraps it) in the state [step] left: nothing is done
    after the step. *)
Definition failFast {A} (step : Act W (Result A)) (wrap : error -> error)
    (run : Act W (Result unit)) : Prop :=
  forall st err st', step st = (Err err, st') -> run st = (Err (wrap err), st').

(** The same for a step that also returns the setup result. *)
Definition failFast2 {A B} (step : Act W (Result A * B))
    (run : Act W (Result unit)) : Prop :=
  forall st err b st', step st = (Err err, b, st') -> run st = (Err err, st').

(** How a run of the builder has its streams set: the standard error
    goes to the writer of the logger at level [stderr], the standard
    output to the one at level [DebugLevel] when [debug] is set and
    nowhere otherwise. *)
Definition builderStreams (stderr : Level) (debug : bool) (ev : Event) : Prop :=
  forall cmd, ev = EExec cmd ->
    Cmd.Path cmd = "/.dockerless/dockerless"
    /\ Cmd.Stderr cmd = Some stderr
    /\ Cmd.Stdout cmd = (if debug then Some DebugLevel else None).

Definition isSpawn (ev : Event) : bool :=
  match ev with ESpawn _ _ => true | _ => false end.

Definition isLog (level : Level) (ev : Event) : Prop :=
  exists format args, ev = ELog level format args.

End Vocabulary.

(** ** More vocabulary: the footprint of a step *)

Section Footprints.
Context {W : Type}.

(** [Q] holds of the result of the action and of the events it adds. *)
Definition post {A} (Q : A -> list Event -> Prop) (m : Act W A) : Prop :=
  forall st, exists evs, emitted m st evs /\ Q (result m st) evs.

(** The events of a list, weighed and summed: with weight 1 for the
    opening of a resource and -1 for its release, the sum is the number
    of resources left open. *)
Definition weigh (weight : Event -> Z) (evs : list Event) : Z :=
  fold_right Z.add 0 (map weight evs).

Definition emitsWeight {A} (weight : Event -> Z) (n : Z) (m : Act W A) : Prop :=
  forall st, exists evs, emitted m st evs /\ weigh weight evs = n.

End Footprints.

Definition countEvents (p : Event -> bool) (evs : list Event) : nat :=
  length (List.filter p evs).

Definition Level_eqb (a b : Level) : bool :=
  match a, b with
  | DebugLevel, DebugLevel | InfoLevel, InfoLevel
  | WarnLevel, WarnLevel | ErrorLevel, ErrorLevel => true
  | _, _ => false
  end.

Definition isLogEvent (ev : Event) : bool :=
  match ev with ELog _ _ _ => true | _ => false end.

(** The events of a mount transfer. *)
Definition isTransfer (ev : Event) : bool :=
  match ev with
  | EStreamMount _ | EHTTPDo _ _ _ | EReadAll | EBodyClose | EExtract _ _ => true
  | _ => false
  end.

(** The events that configure git: the helper in the system
    configuration and the variable of its port. *)
Definition isGitSetup (ev : Event) : bool :=
  match ev with EGit _ | ESetenv _ _ => true | _ => false end.

Definition isClone (ev : Event) : bool :=
  match ev with ECloneRepository _ _ _ _ => true | _ => false end.

Definition isSendResult (ev : Event) : bool :=
  match ev with ESendResult _ => true | _ => false end.

(** The events of a credentials session. *)
Definition isCredentials (ev : Event) : bool :=
  match ev with
  | EStartCredentialsServer | ECancel | EConfigureCredentialsDockerless _ _
  | EUnsetenv _ => true
  | _ => false
  end.

Definition isWriter (level : Level) (ev : Event) : bool :=
  match ev with EWriter l => Level_eqb l level | _ => false end.

Definition isWriterClose (level : Level) (ev : Event) : bool :=
  match ev with EWriterClose l => Level_eqb l level | _ => false end.

Definition isStartCredentialsServer (ev : Event) : bool :=
  match ev with EStartCredentialsServer => true | _ => false end.

Definition isCancel (ev : Event) : bool :=
  match ev with ECancel => true | _ => false end.

Definition isExec (ev : Event) : bool :=
  match ev with EExec _ => true | _ => false end.


Definition isMergeAndApply (ev : Event) : bool :=
  match ev with EMergeAndApply _ => true | _ => false end.

(** Weight 1 where [opens] holds, -1 where [closes] holds. *)
Definition balance (opens closes : Event -> bool) (ev : Event) : Z :=
  (if opens ev then 1 else 0) - (if closes ev then 1 else 0).

(** The events of the dockerless build. *)
Definition isBuildEvent (ev : Event) : bool :=
  match ev with
  | ELog _ _ _ | EWriter _ | EWriterClose _ | ERenameDirectory _ _ | ERemoveAll _
  | EUnsetenv _ | EStartCredentialsServer | ECancel
  | EConfigureCredentialsDockerless _ _ | EExec _ | EMergeAndApply _ => true
  | _ => false
  end.

(** The events of the install of an IDE. *)
Definition isIDEEvent (ev : Event) : bool :=
  match ev with
  | ELog _ _ _ | EInstall _ | EStart _ | ESpawn _ _ => true
  | _ => false
  end.

Definition isSetupContainer (ev : Event) : bool :=
  match ev with ESetupContainer _ _ => true | _ => false end.

(** The events that are none of the gated ones. *)
Definition isUngated (ev : Event) : bool :=
  negb (isTransfer ev) && negb (isGitSetup ev) && negb (isClone ev).

(** A stream or an extraction is of one of the [mounts]. *)
Definition ofMounts `{Extern} (mounts : list Mount.t) (ev : Event) : Prop :=
  (forall mount, ev = EStreamMount mount ->
     exists m, In m mounts /\ mount = Mount_String m)
  /\ (forall from target, ev = EExtract from target ->
        exists m, In m mounts /\ target = Mount.Target m).

(** What the flags of the command and the workspace allow: a mount
    transfer needs the flag of the mount streaming, the configuration
    of git the flag of the credentials, and a clone a workspace that is
    pulled from inside the container. *)
Definition gated `{Extern} (cmd : SetupContainerCmd.t) (ev : Event) : Prop :=
  (isTransfer ev = true -> SetupContainerCmd.StreamMounts cmd = true)
  /\ (isGitSetup ev = true -> SetupContainerCmd.InjectGitCredentials cmd = true)
  /\ (isClone ev = true ->
      exists workspaceInfo,
        DecodeContainerWorkspaceInfo (SetupContainerCmd.ContainerWorkspaceInfo cmd)
        = Ok workspaceInfo
        /\ StrBool_Bool (WorkspaceInfo.PullFromInsideContainer workspaceInfo) = Ok true).

(** The report of the result: sent at most once, sent when the run
    returns [nil], and, when it is sent, the run returns [nil] or the
    error of the send. *)
Definition reported (r : Result unit) (evs : list Event) : Prop :=
  (countEvents isSendResult evs <= 1)%nat
  /\ (r = Ok tt -> countEvents isSendResult evs = 1%nat)
  /\ (countEvents isSendResult evs = 1%nat ->
      r = Ok tt \/ exists err, r = Err (errWrap "send result" err)).

(** The environment of the image: applied at most once, only after the
    one run of the builder, and then the build returns [nil]. *)
Definition applied (r : Result unit) (evs : list Event) : Prop :=
  (countEvents isMergeAndApply evs <= countEvents isExec evs)%nat
  /\ (countEvents isExec evs <= 1)%nat
  /\ (countEvents isMergeAndApply evs = 1%nat -> r = Ok tt).


(** Whether the byte [c] occurs in [s], and how often. *)
Fixpoint hasByte (c : ascii) (s : string) : bool :=
  match s with
  | EmptyString => false
  | String a r => Ascii.eqb a c || hasByte c r
  end.

Fixpoint countByte (c : ascii) (s : string) : nat :=
  match s with
  | EmptyString => 0
  | String a r => (if Ascii.eqb a c then 1 else 0) + countByte c r
  end.

(** The arguments that [parseIgnorePaths] gives for one part of a list
    with commas: those of the part alone, and one empty path for a part
    that is blank. *)
Definition ignoredPart (part : string) : list string :=
  if decide (GoStrings.TrimSpace part = "") then ["--ignore-path"; ""]
  else parseIgnorePaths part.

(** What the steps of a run are handed, for the workspace and the
    setup result that the run decoded: the clone is that of the source
    of the workspace into the workspace folder, and the container setup
    is given the setup result with the folder as decoded and the
    configuration that the substitution returned. *)
Definition cloneOf (workspaceInfo : WorkspaceInfo.t) (setupInfo : SetupInfo.t)
    (ev : Event) : Prop :=
  forall source agent folder options,
    ev = ECloneRepository source agent folder options ->
    source = WorkspaceInfo.Source workspaceInfo
    /\ agent = WorkspaceInfo.Agent workspaceInfo
    /\ folder = SetupInfo.ContainerWorkspaceFolder setupInfo
    /\ options = WorkspaceInfo.CLIOptions workspaceInfo.

Definition substituted {W : Type} `{Extern} `{Sys W} (setupInfo setupInfo' : SetupInfo.t)
  : Prop :=
  SetupInfo.ContainerWorkspaceFolder setupInfo'
  = SetupInfo.ContainerWorkspaceFolder setupInfo
  /\ exists w : W,
       SubstituteContainerEnv (ListToObject (sys_Environ w))
         (withRemoteEnv (SetupInfo.MergedConfig setupInfo))
       = Ok (SetupInfo.MergedConfig setupInfo').

Definition setupOf {W : Type} `{Extern} `{Sys W} (cmd : SetupContainerCmd.t)
    (setupInfo : SetupInfo.t) (ev : Event) : Prop :=
  forall setupInfo' chown,
    ev = ESetupContainer setupInfo' chown ->
    chown = SetupContainerCmd.ChownWorkspace cmd
    /\ substituted (W := W) setupInfo setupInfo'.

Definition handedOver {W : Type} `{Extern} `{Sys W} (cmd : SetupContainerCmd.t)
    (workspaceInfo : WorkspaceInfo.t) (setupInfo : SetupInfo.t) (ev : Event) : Prop :=
  cloneOf workspaceInfo setupInfo ev /\ setupOf (W := W) cmd setupInfo ev.

(** What is sent as the result is the setup result as the container
    setup, which has succeeded, left it. *)
Definition resultSent {W : Type} `{Extern} `{Sys W} (cmd : SetupContainerCmd.t)
    (workspaceInfo : WorkspaceInfo.t) (evs : list Event) : Prop :=
  forall out,
    In (ESendResult out) evs ->
    exists setupInfo setupInfo' (w : W),
      In (ESetupContainer setupInfo (SetupContainerCmd.ChownWorkspace cmd)) evs
      /\ fst (sys_SetupContainer setupInfo
                (CLIOptions.WorkspaceEnv (WorkspaceInfo.CLIOptions workspaceInfo))
                (SetupContainerCmd.ChownWorkspace cmd)
                (CLIOptions.Platform (WorkspaceInfo.CLIOptions workspaceInfo)) w)
         = (Ok tt, setupInfo')
      /\ Marshal_SetupInfo setupInfo' = Ok out.

(** The lock under which the extensions of an IDE are installed in the
    background, if they are. *)
Definition asyncLock `{Extern} (ide : IDE) : option string :=
  match ide with
  | IDEVSCode => Some (FlavorStable +:+ "-async.pid")
  | IDEVSCodeInsiders => Some (FlavorInsiders +:+ "-async.pid")
  | IDECursor => Some (FlavorCursor +:+ "-async.pid")
  | IDEPositron => Some (FlavorPositron +:+ "-async.pid")
  | IDECodium => Some (FlavorCodium +:+ "-async.pid")
  | IDEWindsurf => Some (FlavorWindsurf +:+ "-async.pid")
  | IDEOpenVSCode => Some "openvscode-async.pid"
  | _ => None
  end.

Definition installerUser (installer : Installer) : string :=
  match installer with
  | VSCodeServer _ _ user _ _ => user
  | OpenVSCodeServer _ _ user _ _ _ => user
  | JetBrainsServer _ user _ => user
  | FleetServer user _ _ => user
  | JupyterNotebookServer _ user _ => user
  | RStudioServer _ user _ => user
  end.

Definition installerOptions (installer : Installer) : Options :=
  match installer with
  | VSCodeServer _ _ _ options _ => options
  | OpenVSCodeServer _ _ _ _ _ options => options
  | JetBrainsServer _ _ options => options
  | FleetServer _ options _ => options
  | JupyterNotebookServer _ _ options => options
  | RStudioServer _ _ options => options
  end.

(** What [installIDE] does for an IDE: it logs, installs for the remote
    user with the options of the IDE, starts the server of OpenVSCode
    only, and hands a command to the guard under the lock of the IDE
    only. *)
Definition ofIDE `{Extern} (setupInfo : SetupInfo.t) (ide : IDEConfig.t) (ev : Event)
  : Prop :=
  match ev with
  | ELog _ _ _ => True
  | EInstall installer =>
      installerUser installer = GetRemoteUser setupInfo
      /\ installerOptions installer = IDEConfig.Options ide
  | EStart _ => IDEConfig.Name ide = IDEOpenVSCode
  | ESpawn name _ => asyncLock (IDEConfig.Name ide) = Some name
  | _ => False
  end.

(** ** The sequence of a run

    The stages of [Run], in the order of the code, with what the run
    holds when it is at a stage: from the mounts on, the workspace and
    the setup result it decoded, and from the clone on, the deferred
    calls, which run when [Run] returns. *)
Inductive Stage (W : Type) : Type :=
| AtPing
| AtDecodeInputs
| AtStreamMounts (workspaceInfo : WorkspaceInfo.t) (setupInfo : SetupInfo.t)
| AtDockerlessBuild (workspaceInfo : WorkspaceInfo.t) (setupInfo : SetupInfo.t)
| AtMergeEnv (workspaceInfo : WorkspaceInfo.t) (setupInfo : SetupInfo.t)
| AtInjectGitCredentials (workspaceInfo : WorkspaceInfo.t) (setupInfo : SetupInfo.t)
| AtCloneRepository (workspaceInfo : WorkspaceInfo.t) (setupInfo : SetupInfo.t)
    (deferred : Act W unit)
| AtContainerSetup (workspaceInfo : WorkspaceInfo.t) (setupInfo : SetupInfo.t)
    (deferred : Act W unit)
| AtInstallIDE (workspaceInfo : WorkspaceInfo.t) (setupInfo : SetupInfo.t)
    (deferred : Act W unit)
| AtStartDaemon (workspaceInfo : WorkspaceInfo.t) (setupInfo : SetupInfo.t)
    (deferred : Act W unit)
| AtReportResult (workspaceInfo : WorkspaceInfo.t) (setupInfo : SetupInfo.t)
    (deferred : Act W unit).

Arguments AtPing {W}.
Arguments AtDecodeInputs {W}.
Arguments AtStreamMounts {W}.
Arguments AtDockerlessBuild {W}.
Arguments AtMergeEnv {W}.
Arguments AtInjectGitCredentials {W}.
Arguments AtCloneRepository {W}.
Arguments AtContainerSetup {W}.
Arguments AtInstallIDE {W}.
Arguments AtStartDaemon {W}.
Arguments AtReportResult {W}.

Section Sequence.
Context {W : Type} `{Extern} `{Sys W}.

(** [reaches cmd st stage s]: the run of [cmd] from [st] is at [stage]
    in the state [s], every step before that stage having succeeded
    (or, for the git credentials, having failed and been logged).  Each
    rule is one step of the code: what the step is called with, and
    where a success leaves the run. *)
Inductive reaches (cmd : SetupContainerCmd.t) (st : State W)
  : Stage W -> State W -> Prop :=
| reaches_Ping st1 :
    effect ENewTunnelClient sys_NewTunnelClient st = (Ok tt, st1) ->
    reaches cmd st AtPing (after (logf DebugLevel "Created logger" []) st1)
| reaches_DecodeInputs s s1 :
    reaches cmd st AtPing s ->
    effect EPing sys_Ping s = (Ok tt, s1) ->
    reaches cmd st AtDecodeInputs
      (after (logf DebugLevel "Start setting up container..." []) s1)
| reaches_StreamMounts s workspaceInfo decompressed setupInfo :
    reaches cmd st AtDecodeInputs s ->
    DecodeContainerWorkspaceInfo (SetupContainerCmd.ContainerWorkspaceInfo cmd)
    = Ok workspaceInfo ->
    Decompress (SetupContainerCmd.SetupInfo cmd) = Ok decompressed ->
    Unmarshal_SetupInfo decompressed = Ok setupInfo ->
    reaches cmd st (AtStreamMounts workspaceInfo setupInfo) s
| reaches_DockerlessBuild s workspaceInfo setupInfo s1 :
    reaches cmd st (AtStreamMounts workspaceInfo setupInfo) s ->
    streamMounts cmd workspaceInfo setupInfo s = (Ok tt, s1) ->
    reaches cmd st (AtDockerlessBuild workspaceInfo setupInfo) s1
| reaches_MergeEnv s workspaceInfo setupInfo s1 :
    reaches cmd st (AtDockerlessBuild workspaceInfo setupInfo) s ->
    dockerlessBuild setupInfo (WorkspaceInfo.Dockerless workspaceInfo)
      (SetupContainerCmd.Debug cmd) s
    = (Ok tt, s1) ->
    reaches cmd st (AtMergeEnv workspaceInfo setupInfo) s1
| reaches_InjectGitCredentials s workspaceInfo setupInfo setupInfo' s1 :
    reaches cmd st (AtMergeEnv workspaceInfo setupInfo) s ->
    fillContainerEnv setupInfo s = (Ok tt, setupInfo', s1) ->
    reaches cmd st (AtInjectGitCredentials workspaceInfo setupInfo') s1
| reaches_CloneRepository s workspaceInfo setupInfo :
    (* no injection of the credentials: nothing is deferred *)
    reaches cmd st (AtInjectGitCredentials workspaceInfo setupInfo) s ->
    SetupContainerCmd.InjectGitCredentials cmd = false ->
    reaches cmd st (AtCloneRepository workspaceInfo setupInfo (ret tt)) s
| reaches_CloneRepository_unauthenticated s workspaceInfo setupInfo err s1 :
    (* the credentials are not configured: the error is logged *)
    reaches cmd st (AtInjectGitCredentials workspaceInfo setupInfo) s ->
    SetupContainerCmd.InjectGitCredentials cmd = true ->
    configureSystemGitCredentials s = (Err err, s1) ->
    reaches cmd st
      (AtCloneRepository workspaceInfo setupInfo (effect_ ECancel sys_Cancel))
      (after (logf ErrorLevel "Error configuring git credentials: %v" [LErr err]) s1)
| reaches_CloneRepository_authenticated s workspaceInfo setupInfo cleanupFunc s1 :
    reaches cmd st (AtInjectGitCredentials workspaceInfo setupInfo) s ->
    SetupContainerCmd.InjectGitCredentials cmd = true ->
    configureSystemGitCredentials s = (Ok cleanupFunc, s1) ->
    reaches cmd st
      (AtCloneRepository workspaceInfo setupInfo
         (cleanupFunc;; effect_ ECancel sys_Cancel))
      s1
| reaches_ContainerSetup s workspaceInfo setupInfo deferred s1 :
    reaches cmd st (AtCloneRepository workspaceInfo setupInfo deferred) s ->
    cloneRepository workspaceInfo setupInfo s = (Ok tt, s1) ->
    reaches cmd st (AtContainerSetup workspaceInfo setupInfo deferred) s1
| reaches_InstallIDE s workspaceInfo setupInfo deferred setupInfo' s1 :
    reaches cmd st (AtContainerSetup workspaceInfo setupInfo deferred) s ->
    SetupContainer cmd workspaceInfo setupInfo s = (Ok tt, setupInfo', s1) ->
    reaches cmd st (AtInstallIDE workspaceInfo setupInfo' deferred) s1
| reaches_StartDaemon s workspaceInfo setupInfo deferred s1 :
    reaches cmd st (AtInstallIDE workspaceInfo setupInfo deferred) s ->
    installIDE cmd setupInfo (WorkspaceInfo.IDE workspaceInfo) s = (Ok tt, s1) ->
    reaches cmd st (AtStartDaemon workspaceInfo setupInfo deferred) s1
| reaches_ReportResult s workspaceInfo setupInfo deferred s1 :
    reaches cmd st (AtStartDaemon workspaceInfo setupInfo deferred) s ->
    startDaemon workspaceInfo s = (Ok tt, s1) ->
    reaches cmd st (AtReportResult workspaceInfo setupInfo deferred) s1.

(** The failures of the decoding of the inputs. *)
Definition decodeFails (cmd : SetupContainerCmd.t) (err : error) : Prop :=
  DecodeContainerWorkspaceInfo (SetupContainerCmd.ContainerWorkspaceInfo cmd) = Err err
  \/ (isOk (DecodeContainerWorkspaceInfo (SetupContainerCmd.ContainerWorkspaceInfo cmd))
      = true
      /\ Decompress (SetupContainerCmd.SetupInfo cmd) = Err err)
  \/ (isOk (DecodeContainerWorkspaceInfo (SetupContainerCmd.ContainerWorkspaceInfo cmd))
      = true
      /\ exists decompressed,
           Decompress (SetupContainerCmd.SetupInfo cmd) = Ok decompressed
           /\ Unmarshal_SetupInfo decompressed = Err err).

(** The rest of [Run] at a stage: the code from the step of the stage
    on, followed by the deferred calls. *)
Definition rest (cmd : SetupContainerCmd.t) (stage : Stage W) : Act W (Result unit) :=
  match stage with
  | AtPing => Run_Ping cmd
  | AtDecodeInputs =>
      workspaceInfo ←?
        ret (DecodeContainerWorkspaceInfo (SetupContainerCmd.ContainerWorkspaceInfo cmd));
      decompressed ←? ret (Decompress (SetupContainerCmd.SetupInfo cmd));
      setupInfo ←? ret (Unmarshal_SetupInfo decompressed);
      Run_StreamMounts cmd workspaceInfo setupInfo
  | AtStreamMounts workspaceInfo setupInfo =>
      Run_StreamMounts cmd workspaceInfo setupInfo
  | AtDockerlessBuild workspaceInfo setupInfo =>
      Run_DockerlessBuild cmd workspaceInfo setupInfo
  | AtMergeEnv workspaceInfo setupInfo => Run_MergeEnv cmd workspaceInfo setupInfo
  | AtInjectGitCredentials workspaceInfo setupInfo =>
      Run_InjectGitCredentials cmd workspaceInfo setupInfo
  | AtCloneRepository workspaceInfo setupInfo deferred =>
      defer deferred (Run_CloneRepository cmd workspaceInfo setupInfo)
  | AtContainerSetup workspaceInfo setupInfo deferred =>
      defer deferred (Run_ContainerSetup cmd workspaceInfo setupInfo)
  | AtInstallIDE workspaceInfo setupInfo deferred =>
      defer deferred (Run_InstallIDE cmd workspaceInfo setupInfo)
  | AtStartDaemon workspaceInfo setupInfo deferred =>
      defer deferred (Run_StartDaemon workspaceInfo setupInfo)
  | AtReportResult workspaceInfo setupInfo deferred =>
      defer deferred (Run_ReportResult setupInfo)
  end.

End Sequence.

(** ** More fixtures *)

Module Fixtures.

(** A workspace of a managed platform. *)
Definition managedPlatform : Platform.t :=
  {| Platform.Enabled := true; Platform.PlatformHost := "platform.example.com";
     Platform.InstanceNamespace := "team"; Platform.InstanceName := "ws1";
     Platform.AccessKey := "secret" |}.

Definition managed : WorkspaceInfo.t :=
  {| WorkspaceInfo.CLIOptions :=
       {| CLIOptions.Reset := false; CLIOptions.Recreate := false;
          CLIOptions.DisableDaemon := false; CLIOptions.WorkspaceEnv := [];
          CLIOptions.Platform := managedPlatform |};
     WorkspaceInfo.Source := "git:https://example.com/project.git";
     WorkspaceInfo.Agent := "";
     WorkspaceInfo.Dockerless := Demo.dockerless;
     WorkspaceInfo.IDE := {| IDEConfig.Name := IDENone; IDEConfig.Options := ∅ |};
     WorkspaceInfo.PullFromInsideContainer := "false";
     WorkspaceInfo.ContainerTimeout := "10m" |}.


Definition streamFails (ev : Event) : bool :=
  match ev with EStreamMount _ => true | _ => false end.

Definition extractFails (ev : Event) : bool :=
  match ev with EExtract _ _ => true | _ => false end.

Definition execFails (ev : Event) : bool :=
  match ev with EExec _ => true | _ => false end.

Definition renameFails (ev : Event) : bool :=
  match ev with ERenameDirectory _ _ => true | _ => false end.

Definition gitFails (ev : Event) : bool :=
  match ev with EGit _ => true | _ => false end.

Definition serverFails (ev : Event) : bool :=
  match ev with EStartCredentialsServer => true | _ => false end.

Definition sendFails (ev : Event) : bool :=
  match ev with ESendResult _ => true | _ => false end.

(** Dockerless options with the docker credentials enabled. *)
Definition withCredentials : Dockerless.t :=
  {| Dockerless.DisableDockerCredentials := "";
     Dockerless.IgnorePaths := "";
     Dockerless.RegistryCache := "registry.example.com/cache" |}.

(** A fresh container in which the path of the executable of the
    agent cannot be determined. *)
Definition noExecutable : Demo.World :=
  {| Demo.env := Demo.env (Demo.fresh Demo.nothingFails);
     Demo.files := Demo.files (Demo.fresh Demo.nothingFails);
     Demo.dirs := Demo.dirs (Demo.fresh Demo.nothingFails);
     Demo.commands := [];
     Demo.executable := Err Demo.notFound;
     Demo.alive := [];
     Demo.fails := Demo.nothingFails |}.

(** A fresh container with git installed. *)
Definition withGit (fails : Event -> bool) : Demo.World :=
  {| Demo.env := Demo.env (Demo.fresh fails);
     Demo.files := Demo.files (Demo.fresh fails);
     Demo.dirs := Demo.dirs (Demo.fresh fails);
     Demo.commands := ["git"];
     Demo.executable := Ok "/usr/local/bin/devpod";
     Demo.alive := [];
     Demo.fails := fails |}.

(** A fresh container whose build information is neither in the build
    context nor recovered by the rename. *)
Definition noBuildInfo (fails : Event -> bool) : Demo.World :=
  {| Demo.env := Demo.env (Demo.fresh fails);
     Demo.files := [];
     Demo.dirs := Demo.dirs (Demo.fresh fails);
     Demo.commands := [];
     Demo.executable := Ok "/usr/local/bin/devpod";
     Demo.alive := [];
     Demo.fails := fails |}.

End Fixtures.

(** * Properties *)

(** ** parseIgnorePaths *)

Example parseIgnorePaths_abc :
  parseIgnorePaths "a, b,c" =
  ["--ignore-path"; "a"; "--ignore-path"; "b"; "--ignore-path"; "c"].
Proof. reflexivity. Qed.

Example parseIgnorePaths_blank : parseIgnorePaths "  " = [].
Proof. reflexivity. Qed.

(** An empty piece is kept, as the empty path. *)
Example parseIgnorePaths_gap :
  parseIgnorePaths "a,,b " =
  ["--ignore-path"; "a"; "--ignore-path"; ""; "--ignore-path"; "b"].
Proof. reflexivity. Qed.

Lemma trimLeft_rune r s :
  In r GoStrings.spaceRunes -> GoStrings.trimLeft (r +:+ s) = GoStrings.trimLeft s.
Proof.
  unfold GoStrings.spaceRunes. cbn [map app In].
  intros Hr. repeat (destruct Hr as [<- | Hr]; [reflexivity |]). destruct Hr.
Qed.

Lemma trimLeft_WhiteSpaceOnly s :
  GoStrings.WhiteSpaceOnly s -> GoStrings.trimLeft s = "".
Proof.
  induction 1 as [| r s Hr _ IH]; [reflexivity |].
  rewrite trimLeft_rune by assumption. exact IH.
Qed.

Lemma TrimSpace_WhiteSpaceOnly s :
  GoStrings.WhiteSpaceOnly s -> GoStrings.TrimSpace s = "".
Proof.
  intros Hs. unfold GoStrings.TrimSpace.
  rewrite trimLeft_WhiteSpaceOnly by assumption. reflexivity.
Qed.

Lemma fold_left_append {A B} (f : B -> list A) (l : list B) (acc : list A) :
  fold_left (fun acc x => acc ++ f x) l acc = acc ++ flat_map f l.
Proof.
  revert acc. induction l as [| x l IH]; intros acc; cbn [fold_left flat_map].
  - symmetry. apply app_nil_r.
  - rewrite IH. symmetry. apply app_assoc.
Qed.

(** C6. [parseIgnorePaths] returns the empty list for the empty string
    and for a string of white space only; for ["a, b,c"] it returns
    ["--ignore-path"; "a"; "--ignore-path"; "b"; "--ignore-path"; "c"];
    and for any other string it returns, for each piece between the
    commas in order, ["--ignore-path"] and the piece trimmed. *)
Theorem parseIgnorePaths_spec :
  (forall s, GoStrings.WhiteSpaceOnly s -> parseIgnorePaths s = [])
  /\ parseIgnorePaths "a, b,c"
     = ["--ignore-path"; "a"; "--ignore-path"; "b"; "--ignore-path"; "c"]
  /\ (forall s, GoStrings.TrimSpace s <> "" ->
        parseIgnorePaths s
        = flat_map (fun piece => ["--ignore-path"; GoStrings.TrimSpace piece])
            (GoStrings.Split s ",")).
Proof.
  split; [| split].
  - intros s Hs. unfold parseIgnorePaths.
    rewrite TrimSpace_WhiteSpaceOnly by assumption. reflexivity.
  - reflexivity.
  - intros s Hs. unfold parseIgnorePaths.
    destruct (decide (GoStrings.TrimSpace s = "")) as [He | _]; [contradiction |].
    exact (fold_left_append
             (fun piece => ["--ignore-path"; GoStrings.TrimSpace piece]) _ []).
Qed.

(** The string of a blank, a tab and a no-break space (U+00A0) is white
    space only, and so is the empty string. *)
Lemma parseIgnorePaths_spec_witness :
  let s := String " " (String (GoStrings.byte_of 9)
             (String (GoStrings.byte_of 194) (String (GoStrings.byte_of 160) ""))) in
  GoStrings.WhiteSpaceOnly s /\ parseIgnorePaths s = [] /\ parseIgnorePaths "" = [].
Proof.
  intros s.
  assert (Hs : GoStrings.WhiteSpaceOnly s).
  { subst s.
    refine (GoStrings.ws_rune " " _ _ _); [cbn; tauto |].
    refine (GoStrings.ws_rune (String (GoStrings.byte_of 9) "") _ _ _); [cbn; tauto |].
    refine (GoStrings.ws_rune
              (String (GoStrings.byte_of 194) (String (GoStrings.byte_of 160) "")) "" _ _);
      [cbn; tauto | constructor]. }
  split; [exact Hs |]. split.
  - exact (proj1 parseIgnorePaths_spec s Hs).
  - exact (proj1 parseIgnorePaths_spec "" GoStrings.ws_empty).
Defined.

(** ** The monad *)

Section MonadLaws.
Context {W : Type} `{Sys W}.

Lemma try_ok {A B} (m : Act W (Result A)) (k : A -> Act W (Result B)) st a st' :
  m st = (Ok a, st') -> try_ m k st = k a st'.
Proof. intros Hm. unfold try_. rewrite Hm. reflexivity. Qed.

Lemma try_err {A B} (m : Act W (Result A)) (k : A -> Act W (Result B)) st err st' :
  m st = (Err err, st') -> try_ m k st = (Err err, st').
Proof. intros Hm. unfold try_. rewrite Hm. reflexivity. Qed.

Lemma wrapErr_ok {A} msg (m : Act W (Result A)) st a st' :
  m st = (Ok a, st') -> wrapErr msg m st = (Ok a, st').
Proof. intros Hm. unfold wrapErr. rewrite Hm. reflexivity. Qed.

Lemma wrapErr_err {A} msg (m : Act W (Result A)) st err st' :
  m st = (Err err, st') -> wrapErr msg m st = (Err (errWrap msg err), st').
Proof. intros Hm. unfold wrapErr. rewrite Hm. reflexivity. Qed.

Lemma errIs_refl err : errIs err err.
Proof. destruct err; cbn; left; reflexivity. Qed.

(** A wrapped error is still its cause for [errors.Is]. *)
Lemma errIs_errWrap msg err : errIs (errWrap msg err) err.
Proof. cbn. right. apply errIs_refl. Qed.

Lemma bind_eq {A B} (m : Act W A) (k : A -> Act W B) st a st' :
  m st = (a, st') -> bind m k st = k a st'.
Proof. intros Hm. unfold bind. rewrite Hm. reflexivity. Qed.

Lemma logf_eq level format args (st : State W) :
  logf level format args st
  = (tt, mkState (sys_Log level format args (world st))
           (trace st ++ [ELog level format args])).
Proof. reflexivity. Qed.

Lemma after_logf level format args (st : State W) :
  after (logf level format args) st
  = mkState (sys_Log level format args (world st))
      (trace st ++ [ELog level format args]).
Proof. reflexivity. Qed.

(** A step that is tried first is fail-fast for the run it starts. *)
Lemma failFast_try {A} (step : Act W (Result A)) (k : A -> Act W (Result unit)) :
  failFast step id (try_ step k).
Proof. intros st err st' Hstep. exact (try_err _ _ _ _ _ Hstep). Qed.

Lemma failFast_wrap {A} msg (step : Act W (Result A)) (k : A -> Act W (Result unit)) :
  failFast step (errWrap msg) (try_ (wrapErr msg step) k).
Proof.
  intros st err st' Hstep. apply try_err. apply wrapErr_err. exact Hstep.
Qed.

End MonadLaws.

(** ** The mount loop *)

Section Mounts.
Context {W : Type} `{Extern} `{Sys W}.

(** C1. In the loop over the mounts, which [Run] enters when mount
    streaming is enabled: when the run is not a reset and the target
    directory of the mount reads without error and has an entry, the
    mount is skipped, the loop goes on with the other mounts after one
    debug message and nothing else (no stream is opened, nothing is
    extracted); when the run is a reset, the mount is handed to
    [streamMount] whatever its target directory holds, and the loop
    goes on with the other mounts if the transfer succeeds. *)
Theorem syncMounts_skip_or_transfer
    (cmd : SetupContainerCmd.t) (workspaceInfo : WorkspaceInfo.t)
    (setupInfo : SetupInfo.t) (m : Mount.t) (rest : list Mount.t) (st : State W) :
  let skipped :=
    [LStr "Skip stream mount "; LStr (Mount.Target m); LStr " because it's not empty"] in
  (SetupContainerCmd.StreamMounts cmd = true ->
   streamMounts cmd workspaceInfo setupInfo st
   = syncMounts workspaceInfo (GetMounts setupInfo)
       (after (logv DebugLevel [LStr "Syncing mounts... "; LMounts (GetMounts setupInfo)]) st))
  /\ (CLIOptions.Reset (WorkspaceInfo.CLIOptions workspaceInfo) = false ->
      forall entry entries,
        sys_ReadDir (Mount.Target m) (world st) = Ok (entry :: entries) ->
        syncMounts workspaceInfo (m :: rest) st
        = syncMounts workspaceInfo rest
            (mkState (sys_Log DebugLevel "" skipped (world st))
               (trace st ++ [ELog DebugLevel "" skipped])))
  /\ (CLIOptions.Reset (WorkspaceInfo.CLIOptions workspaceInfo) = true ->
      syncMounts workspaceInfo (m :: rest) st
      = try_ (streamMount workspaceInfo m) (fun _ => syncMounts workspaceInfo rest) st).
Proof.
  intros skipped. split; [| split].
  - intros Hstream. unfold streamMounts. rewrite Hstream. reflexivity.
  - intros Hreset entry entries Hdir. cbn [syncMounts]. rewrite Hreset.
    unfold bind at 1. unfold bind at 1. unfold read. rewrite Hdir. reflexivity.
  - intros Hreset. cbn [syncMounts]. rewrite Hreset. reflexivity.
Qed.

End Mounts.

(** A second run on a container whose mount target has entries, and a
    run that resets it. *)
Lemma syncMounts_skip_or_transfer_witness :
  let ex := Demo.ex in
  let st := Demo.start (Demo.settled Demo.nothingFails) in
  trace (after (@syncMounts _ ex Demo.sys (Demo.workspaceInfo false false IDENone)
                  [Demo.mount]) st)
  = [ELog DebugLevel ""
       [LStr "Skip stream mount "; LStr "/workspaces/project";
        LStr " because it's not empty"]]
  /\ trace (after (@syncMounts _ ex Demo.sys (Demo.workspaceInfo true false IDENone)
                     [Demo.mount]) st)
     = [ELog InfoLevel "Copy %s into DevContainer %s"
          [LStr "/home/user/project"; LStr "/workspaces/project"];
        EStreamMount "/home/user/project:/workspaces/project";
        EExtract TunnelStreamReader "/workspaces/project"].
Proof.
  intros ex st. split.
  - unfold after.
    rewrite (proj1 (proj2 (@syncMounts_skip_or_transfer _ ex Demo.sys
               (Demo.cmd false true false) (Demo.workspaceInfo false false IDENone)
               (Demo.setupInfo None) Demo.mount [] st))
               eq_refl "README.md" [] eq_refl).
    reflexivity.
  - unfold after.
    rewrite (proj2 (proj2 (@syncMounts_skip_or_transfer _ ex Demo.sys
               (Demo.cmd false true false) (Demo.workspaceInfo true false IDENone)
               (Demo.setupInfo None) Demo.mount [] st)) eq_refl).
    reflexivity.
Defined.

(** ** The dockerless builder: when nothing is built *)

Section DockerlessSkip.
Context {W : Type} `{Extern} `{Sys W}.

Lemma String_eqb_true (s t : string) : String.eqb s t = true <-> s = t.
Proof. apply String.eqb_eq. Qed.

Lemma String_eqb_false (s t : string) : String.eqb s t = false <-> s <> t.
Proof. apply String.eqb_neq. Qed.

Lemma dockerlessBuild_unset setupInfo dockerlessOptions debug (st : State W) :
  sys_Getenv "DOCKERLESS" (world st) <> "true" ->
  dockerlessBuild setupInfo dockerlessOptions debug st = (Ok tt, st).
Proof.
  intros Hmode. apply String_eqb_false in Hmode.
  unfold dockerlessBuild, bind, read. rewrite Hmode. reflexivity.
Qed.

Lemma dockerlessBuild_built setupInfo dockerlessOptions debug (st : State W) :
  sys_Getenv "DOCKERLESS" (world st) = "true" ->
  sys_Stat DockerlessImageConfigOutput (world st) = Ok tt ->
  dockerlessBuild setupInfo dockerlessOptions debug st
  = (Ok tt,
     after (logf DebugLevel
              "Skip dockerless build, because container was built already" []) st).
Proof.
  intros Hmode Hstat.
  unfold dockerlessBuild, bind, read. rewrite Hmode. cbn. rewrite Hstat. reflexivity.
Qed.

Lemma dockerlessBuild_no_context setupInfo dockerlessOptions debug (st : State W) :
  sys_Getenv "DOCKERLESS" (world st) = "true" ->
  sys_Stat DockerlessImageConfigOutput (world st) <> Ok tt ->
  sys_Getenv "DOCKERLESS_CONTEXT" (world st) = "" ->
  dockerlessBuild setupInfo dockerlessOptions debug st
  = (Ok tt,
     after (logf DebugLevel "Build context is missing for dockerless build" []) st).
Proof.
  intros Hmode Hstat Hctx.
  unfold dockerlessBuild, bind, read. rewrite Hmode. cbn.
  destruct (sys_Stat DockerlessImageConfigOutput (world st)) as [[] | e];
    [contradiction |].
  rewrite Hctx. reflexivity.
Qed.

(** C2, as the code has it. [dockerlessBuild] returns [nil] without
    running the builder when the variable DOCKERLESS is not ["true"], or
    the image configuration is there already, or the variable
    DOCKERLESS_CONTEXT is empty.  In the first case it does nothing at
    all; in the second and in the third (reached in that order) it
    writes one debug message to the logger, and that is all it does. *)
Theorem dockerlessBuild_skips
    (setupInfo : SetupInfo.t) (dockerlessOptions : Dockerless.t) (debug : bool)
    (st : State W) :
  let w := world st in
  let build := dockerlessBuild setupInfo dockerlessOptions debug in
  sys_Getenv "DOCKERLESS" w <> "true"
  \/ sys_Stat DockerlessImageConfigOutput w = Ok tt
  \/ sys_Getenv "DOCKERLESS_CONTEXT" w = "" ->
  ((sys_Getenv "DOCKERLESS" w <> "true" /\ build st = (Ok tt, st))
   \/ (sys_Getenv "DOCKERLESS" w = "true"
       /\ sys_Stat DockerlessImageConfigOutput w = Ok tt
       /\ build st
          = (Ok tt,
             after (logf DebugLevel
                      "Skip dockerless build, because container was built already" []) st))
   \/ (sys_Getenv "DOCKERLESS" w = "true"
       /\ sys_Stat DockerlessImageConfigOutput w <> Ok tt
       /\ sys_Getenv "DOCKERLESS_CONTEXT" w = ""
       /\ build st
          = (Ok tt,
             after (logf DebugLevel
                      "Build context is missing for dockerless build" []) st)))
  /\ exists evs, emitted build st evs
                 /\ Forall (isLog DebugLevel) evs /\ (length evs <= 1)%nat.
Proof.
  intros w build Hpre.
  destruct (decide (sys_Getenv "DOCKERLESS" w = "true")) as [Hmode | Hmode].
  2: { pose proof (dockerlessBuild_unset setupInfo dockerlessOptions debug st Hmode)
         as Hrun.
       split; [left; split; assumption |].
       exists []. unfold emitted, after. fold build in Hrun. rewrite Hrun.
       cbn [snd]. rewrite app_nil_r. repeat split; [constructor | cbn; lia]. }
  assert (Hdec : sys_Stat DockerlessImageConfigOutput w = Ok tt
                 \/ sys_Stat DockerlessImageConfigOutput w <> Ok tt)
    by (destruct (sys_Stat DockerlessImageConfigOutput w) as [[] | e];
        [left; reflexivity | right; discriminate]).
  destruct Hdec as [Hstat | Hstat].
  - pose proof (dockerlessBuild_built setupInfo dockerlessOptions debug st Hmode Hstat)
      as Hrun.
    split; [right; left; repeat split; assumption |].
    eexists [_]. unfold emitted. unfold after at 1. fold build in Hrun. rewrite Hrun.
    cbn [snd]. rewrite after_logf. cbn [trace]. repeat split.
    + constructor; [eexists _, _; reflexivity | constructor].
    + cbn; lia.
  - assert (Hctx : sys_Getenv "DOCKERLESS_CONTEXT" w = "")
      by (destruct Hpre as [Hno | [Hbuilt | Hctx]]; [contradiction.. | exact Hctx]).
    pose proof (dockerlessBuild_no_context setupInfo dockerlessOptions debug st
                  Hmode Hstat Hctx) as Hrun.
    split; [right; right; repeat split; assumption |].
    eexists [_]. unfold emitted. unfold after at 1. fold build in Hrun. rewrite Hrun.
    cbn [snd]. rewrite after_logf. cbn [trace]. repeat split.
    + constructor; [eexists _, _; reflexivity | constructor].
    + cbn; lia.
Qed.

End DockerlessSkip.

(** In a container whose image was built, with the mode set, the step
    writes its debug message: the state it returns is not the state it
    was called in. *)
Lemma dockerlessBuild_built_logs :
  let ex := Demo.ex in
  let st := Demo.start (Demo.settled Demo.nothingFails) in
  let build := @dockerlessBuild _ ex Demo.sys (Demo.setupInfo None) Demo.dockerless false in
  @sys_Stat _ Demo.sys DockerlessImageConfigOutput (world st) = Ok tt
  /\ build st <> (Ok tt, st)
  /\ build st
     = (Ok tt,
        mkState (world st)
          [ELog DebugLevel "Skip dockerless build, because container was built already" []]).
Proof.
  intros ex st build. split; [reflexivity |]. split.
  - intros Hsame. apply (f_equal (fun r => length (trace (snd r)))) in Hsame.
    vm_compute in Hsame. discriminate Hsame.
  - reflexivity.
Qed.

Lemma dockerlessBuild_skips_witness :
  let ex := Demo.ex in
  let st := Demo.start (Demo.settled Demo.nothingFails) in
  let build := @dockerlessBuild _ ex Demo.sys (Demo.setupInfo None) Demo.dockerless false in
  @sys_Stat _ Demo.sys DockerlessImageConfigOutput (world st) = Ok tt
  /\ exists evs, emitted build st evs
                 /\ Forall (isLog DebugLevel) evs /\ (length evs <= 1)%nat.
Proof.
  intros ex st build. split; [reflexivity |].
  apply (@dockerlessBuild_skips _ ex Demo.sys (Demo.setupInfo None) Demo.dockerless false st).
  right. left. reflexivity.
Defined.

(** ** The events of an action *)

Section Emits.
Context {W : Type} `{Sys W}.
Variable P : Event -> Prop.

Lemma emits_ret {A} (a : A) : emits P (ret (W := W) a).
Proof.
  intros st. exists []. split; [| constructor].
  unfold emitted, after, ret. cbn. symmetry. apply app_nil_r.
Qed.

Lemma emits_read {A} (f : W -> A) : emits P (read f).
Proof.
  intros st. exists []. split; [| constructor].
  unfold emitted, after, read. cbn. symmetry. apply app_nil_r.
Qed.

Lemma emits_effect {A} ev (op : W -> A * W) : P ev -> emits P (effect ev op).
Proof.
  intros Hev st. exists [ev]. split; [| repeat constructor; exact Hev].
  unfold emitted, after, effect. destruct (op (world st)). reflexivity.
Qed.

Lemma emits_effect_ ev (op : W -> W) : P ev -> emits P (effect_ ev op).
Proof.
  intros Hev st. exists [ev]. split; [| repeat constructor; exact Hev]. reflexivity.
Qed.

Lemma emits_logf level format args :
  P (ELog level format args) -> emits P (logf level format args).
Proof. apply emits_effect_. Qed.

Lemma emits_bind {A B} (m : Act W A) (k : A -> Act W B) :
  emits P m -> (forall a, emits P (k a)) -> emits P (bind m k).
Proof.
  intros Hm Hk st. destruct (Hm st) as (evs1 & Htr1 & HP1).
  unfold emitted, after in *. unfold bind.
  destruct (m st) as [a st1]. cbn [snd] in Htr1.
  destruct (Hk a st1) as (evs2 & Htr2 & HP2). unfold emitted, after in Htr2.
  exists (evs1 ++ evs2). split; [| apply Forall_app; split; assumption].
  rewrite Htr2, Htr1. symmetry. apply app_assoc.
Qed.

Lemma emits_try {A B} (m : Act W (Result A)) (k : A -> Act W (Result B)) :
  emits P m -> (forall a, emits P (k a)) -> emits P (try_ m k).
Proof.
  intros Hm Hk st. destruct (Hm st) as (evs1 & Htr1 & HP1).
  unfold emitted, after in *. unfold try_.
  destruct (m st) as [[a | err] st1]; cbn [snd] in Htr1.
  - destruct (Hk a st1) as (evs2 & Htr2 & HP2). unfold emitted, after in Htr2.
    exists (evs1 ++ evs2). split; [| apply Forall_app; split; assumption].
    rewrite Htr2, Htr1. symmetry. apply app_assoc.
  - exists evs1. split; assumption.
Qed.

Lemma emits_wrapErr {A} msg (m : Act W (Result A)) :
  emits P m -> emits P (wrapErr msg m).
Proof.
  intros Hm st. destruct (Hm st) as (evs & Htr & HP).
  exists evs. split; [| exact HP].
  unfold emitted, after, wrapErr in *. destruct (m st) as [[a | err] st1]; exact Htr.
Qed.

Lemma emits_defer {A} (cleanup : Act W unit) (body : Act W A) :
  emits P cleanup -> emits P body -> emits P (defer cleanup body).
Proof.
  intros Hc Hb st. destruct (Hb st) as (evs1 & Htr1 & HP1).
  unfold emitted, after in *. unfold defer.
  destruct (body st) as [a st1]. cbn [snd] in Htr1.
  destruct (Hc st1) as (evs2 & Htr2 & HP2). unfold emitted, after in Htr2.
  destruct (cleanup st1) as [u st2]. cbn [snd] in *.
  exists (evs1 ++ evs2). split; [| apply Forall_app; split; assumption].
  rewrite Htr2, Htr1. symmetry. apply app_assoc.
Qed.

End Emits.

(** One step of a proof that an action emits only events of a kind:
    the side conditions left are the events themselves. *)
Ltac emits_step :=
  lazymatch goal with
  | |- emits _ (ret _) => apply emits_ret
  | |- emits _ nil_ => apply emits_ret
  | |- emits _ (read _) => apply emits_read
  | |- emits _ (bind _ _) => apply emits_bind; [| intros ?]
  | |- emits _ (try_ _ _) => apply emits_try; [| intros ?]
  | |- emits _ (wrapErr _ _) => apply emits_wrapErr
  | |- emits _ (defer _ _) => apply emits_defer
  | |- emits _ (logf _ _ _) => apply emits_logf
  | |- emits _ (logv _ _) => apply emits_logf
  | |- emits _ (effect _ _) => apply emits_effect
  | |- emits _ (effect_ _ _) => apply emits_effect_
  | |- emits _ (if ?b then _ else _) => destruct b
  | |- emits _ (match ?x with _ => _ end) => destruct x
  end.

(** ** The dockerless builder: the streams of the builder *)

Section DockerlessStreams.
Context {W : Type} `{Extern} `{Sys W}.

Ltac not_exec := intros ? Hexec; discriminate Hexec.

Lemma emits_ignoreMounts P mounts args : emits P (ignoreMounts mounts args).
Proof.
  revert args. induction mounts as [| m mounts IH]; intros args; cbn [ignoreMounts].
  - apply emits_ret.
  - apply emits_bind; [apply emits_read |]. intros files.
    destruct (targetNotEmpty files); apply IH.
Qed.

Lemma emits_configureDockerCredentials P :
  (forall ev, (forall cmd, ev <> EExec cmd) -> P ev) ->
  emits P configureDockerCredentials.
Proof.
  intros HP. unfold configureDockerCredentials.
  repeat emits_step; apply HP; intros ? Hexec; discriminate Hexec.
Qed.

(** C8, as the code has it. Whenever [dockerlessBuild] runs the
    builder, the standard error of the builder is the writer of the
    logger at the info level, and its standard output is the writer of
    the logger at the debug level when debug logging is enabled and is
    not set (the output is discarded) otherwise. *)
Theorem dockerlessBuild_streams
    (setupInfo : SetupInfo.t) (dockerlessOptions : Dockerless.t) (debug : bool)
    (st : State W) :
  exists evs,
    trace (after (dockerlessBuild setupInfo dockerlessOptions debug) st) = trace st ++ evs
    /\ forall cmd, In (EExec cmd) evs ->
         Cmd.Path cmd = "/.dockerless/dockerless"
         /\ Cmd.Stderr cmd = Some InfoLevel
         /\ Cmd.Stdout cmd = (if debug then Some DebugLevel else None).
Proof.
  assert (Hemits : emits (builderStreams InfoLevel debug)
                     (dockerlessBuild setupInfo dockerlessOptions debug)).
  { unfold dockerlessBuild, findBuildInfo, withDockerCredentials, runDockerless,
      withDebugWriter.
    repeat first
      [ apply emits_ignoreMounts
      | apply emits_configureDockerCredentials;
        intros ev Hev cmd Hcmd; exfalso; exact (Hev cmd Hcmd)
      | emits_step ];
      try not_exec.
    all: intros cmd Hcmd; injection Hcmd as <-; cbn; repeat split. }
  destruct (Hemits st) as (evs & Htrace & Hall).
  exists evs. split; [exact Htrace |].
  intros cmd Hin. rewrite Forall_forall in Hall.
  apply (Hall (EExec cmd)); [apply list_elem_of_In; exact Hin | reflexivity].
Qed.

End DockerlessStreams.

(** The build of a fresh container, without debug logging: the builder
    runs with its standard error on the writer of the info level, not of
    the error level, and its standard output not set. *)
Lemma dockerlessBuild_stderr_info :
  In (EExec (Demo.builder None))
    (trace (after (@dockerlessBuild _ Demo.ex Demo.sys (Demo.setupInfo None)
                     Demo.dockerless false)
              (Demo.start (Demo.fresh Demo.nothingFails))))
  /\ Cmd.Stderr (Demo.builder None) = Some InfoLevel
  /\ Cmd.Stderr (Demo.builder None) <> Some ErrorLevel
  /\ Cmd.Stdout (Demo.builder None) = None.
Proof.
  split; [| split; [reflexivity | split; [discriminate | reflexivity]]].
  vm_compute. tauto.
Qed.

Lemma dockerlessBuild_streams_witness :
  In (EExec (Demo.builder (Some DebugLevel)))
    (trace (after (@dockerlessBuild _ Demo.ex Demo.sys (Demo.setupInfo None)
                     Demo.dockerless true)
              (Demo.start (Demo.fresh Demo.nothingFails))))
  /\ Cmd.Stderr (Demo.builder (Some DebugLevel)) = Some InfoLevel
  /\ Cmd.Stdout (Demo.builder (Some DebugLevel)) = Some DebugLevel.
Proof.
  assert (Hin : In (EExec (Demo.builder (Some DebugLevel)))
                  (trace (after (@dockerlessBuild _ Demo.ex Demo.sys (Demo.setupInfo None)
                                   Demo.dockerless true)
                            (Demo.start (Demo.fresh Demo.nothingFails)))))
    by (vm_compute; tauto).
  split; [exact Hin |].
  destruct (@dockerlessBuild_streams _ Demo.ex Demo.sys (Demo.setupInfo None)
              Demo.dockerless true (Demo.start (Demo.fresh Demo.nothingFails)))
    as (evs & Htrace & Hall).
  rewrite Htrace in Hin.
  destruct (Hall _ Hin) as (_ & Herr & Hout). split; assumption.
Defined.

(** ** The orchestrator *)

Section Orchestrator.
Context {W : Type} `{Extern} `{Sys W}.

Lemma failFast2_pair {A B} (step : Act W (Result A * B))
    (k : B -> Act W (Result unit)) :
  failFast2 step
    (bind step (fun r => match r with
                         | (Err err, _) => ret (Err err)
                         | (Ok _, b) => k b
                         end)).
Proof.
  intros st err b st' Hstep. unfold bind. rewrite Hstep. reflexivity.
Qed.

(** The loop stops at the first transfer that fails. *)
Lemma syncMounts_fails workspaceInfo m rest (st : State W) err st' :
  CLIOptions.Reset (WorkspaceInfo.CLIOptions workspaceInfo) = true
  \/ targetNotEmpty (sys_ReadDir (Mount.Target m) (world st)) = false ->
  streamMount workspaceInfo m st = (Err err, st') ->
  syncMounts workspaceInfo (m :: rest) st = (Err err, st').
Proof.
  intros Hskip Hstream. cbn [syncMounts]. unfold bind at 1.
  destruct (CLIOptions.Reset (WorkspaceInfo.CLIOptions workspaceInfo)).
  - unfold ret. apply try_err. exact Hstream.
  - destruct Hskip as [Hreset | Hempty]; [discriminate |].
    unfold bind, read, ret. rewrite Hempty. apply try_err. exact Hstream.
Qed.

(** [Run] at a stage is what is left of it there. *)
Lemma defer_ret {A} (body : Act W A) (s : State W) : defer (ret tt) body s = body s.
Proof. unfold defer, ret. destruct (body s). reflexivity. Qed.

Lemma defer_defer {A} (first last : Act W unit) (body : Act W A) (s : State W) :
  defer last (defer first body) s = defer (first;; last) body s.
Proof.
  unfold defer, bind. destruct (body s) as [a s1]. destruct (first s1) as [[] s2].
  reflexivity.
Qed.

Lemma defer_returns {A} (deferred : Act W unit) (body : Act W A) (s : State W) a s' :
  body s = (a, s') -> defer deferred body s = (a, after deferred s').
Proof.
  intros Hbody. unfold defer, after. rewrite Hbody. destruct (deferred s'). reflexivity.
Qed.

Lemma Run_InjectGitCredentials_unauthenticated cmd workspaceInfo setupInfo
    (s : State W) err s1 :
  SetupContainerCmd.InjectGitCredentials cmd = true ->
  configureSystemGitCredentials s = (Err err, s1) ->
  Run_InjectGitCredentials cmd workspaceInfo setupInfo s
  = defer (effect_ ECancel sys_Cancel) (Run_CloneRepository cmd workspaceInfo setupInfo)
      (after (logf ErrorLevel "Error configuring git credentials: %v" [LErr err]) s1).
Proof.
  intros Hinject Hconf. unfold Run_InjectGitCredentials. rewrite Hinject.
  unfold defer at 1 3. unfold bind at 1. rewrite Hconf.
  unfold bind at 1. rewrite logf_eq, after_logf. reflexivity.
Qed.

Lemma Run_InjectGitCredentials_authenticated cmd workspaceInfo setupInfo
    (s : State W) cleanupFunc s1 :
  SetupContainerCmd.InjectGitCredentials cmd = true ->
  configureSystemGitCredentials s = (Ok cleanupFunc, s1) ->
  Run_InjectGitCredentials cmd workspaceInfo setupInfo s
  = defer (cleanupFunc;; effect_ ECancel sys_Cancel)
      (Run_CloneRepository cmd workspaceInfo setupInfo) s1.
Proof.
  intros Hinject Hconf. rewrite <- defer_defer.
  unfold Run_InjectGitCredentials. rewrite Hinject.
  unfold defer at 1 3. unfold bind at 1. rewrite Hconf. reflexivity.
Qed.

Lemma reaches_rest cmd (st : State W) stage s :
  reaches cmd st stage s -> Run cmd st = rest cmd stage s.
Proof.
  induction 1 as
    [ st1 Hclient
    | s s1 _ IH Hping
    | s workspaceInfo decompressed setupInfo _ IH Hdecode Hdecompress Hunmarshal
    | s workspaceInfo setupInfo s1 _ IH Hmounts
    | s workspaceInfo setupInfo s1 _ IH Hbuild
    | s workspaceInfo setupInfo setupInfo' s1 _ IH Henv
    | s workspaceInfo setupInfo _ IH Hinject
    | s workspaceInfo setupInfo err s1 _ IH Hinject Hconf
    | s workspaceInfo setupInfo cleanupFunc s1 _ IH Hinject Hconf
    | s workspaceInfo setupInfo deferred s1 _ IH Hclone
    | s workspaceInfo setupInfo deferred setupInfo' s1 _ IH Hsetup
    | s workspaceInfo setupInfo deferred s1 _ IH Hide
    | s workspaceInfo setupInfo deferred s1 _ IH Hdaemon ];
    try (rewrite IH; clear IH); cbn [rest].
  - unfold Run.
    rewrite (try_ok _ _ st tt st1) by (apply wrapErr_ok; exact Hclient).
    unfold bind at 1. rewrite logf_eq, after_logf. reflexivity.
  - unfold Run_Ping.
    rewrite (try_ok _ _ s tt s1) by (apply wrapErr_ok; exact Hping).
    unfold Run_DecodeInputs, bind at 1. rewrite logf_eq, after_logf. reflexivity.
  - unfold try_ at 1, ret at 1. rewrite Hdecode.
    unfold try_ at 1, ret at 1. rewrite Hdecompress.
    unfold try_ at 1, ret at 1. rewrite Hunmarshal. reflexivity.
  - unfold Run_StreamMounts. rewrite (try_ok _ _ _ _ _ Hmounts). reflexivity.
  - unfold Run_DockerlessBuild.
    rewrite (try_ok _ _ s tt s1) by (apply wrapErr_ok; exact Hbuild). reflexivity.
  - unfold Run_MergeEnv, bind. rewrite Henv. reflexivity.
  - rewrite defer_ret. unfold Run_InjectGitCredentials. rewrite Hinject. reflexivity.
  - apply Run_InjectGitCredentials_unauthenticated; assumption.
  - apply Run_InjectGitCredentials_authenticated; assumption.
  - unfold defer, Run_CloneRepository. rewrite (try_ok _ _ _ _ _ Hclone). reflexivity.
  - unfold defer, Run_ContainerSetup, bind. rewrite Hsetup. reflexivity.
  - unfold defer, Run_InstallIDE. rewrite (try_ok _ _ _ _ _ Hide). reflexivity.
  - unfold defer, Run_StartDaemon. rewrite (try_ok _ _ _ _ _ Hdaemon). reflexivity.
Qed.

(** C3. [Run], from its call to its return.  When the tunnel client
    cannot be created, [Run] returns that error.  At every stage that
    the run reaches, the failure of the step of that stage makes [Run]
    return that error, wrapped where the code wraps it, in the state
    that the step left, followed by the deferred calls of the
    credentials only: no later step is attempted.  The one exception is
    the injection of the git credentials: when it is requested and
    [configureSystemGitCredentials] fails, [Run] logs the error at the
    error level and goes on with the remaining steps (the clone, the
    container setup, the IDE install, the daemon, the report of the
    result), and returns what they return: a run that reaches the report
    and sends the result returns [nil].  The loop over the mounts stops
    at the first transfer that fails. *)
Theorem Run_fail_fast_but_credentials (cmd : SetupContainerCmd.t) (st : State W) :
  (forall err st',
     effect ENewTunnelClient sys_NewTunnelClient st = (Err err, st') ->
     Run cmd st = (Err (errWrap "error creating tunnel client" err), st'))
  /\ (forall workspaceInfo m mounts s err s',
        CLIOptions.Reset (WorkspaceInfo.CLIOptions workspaceInfo) = true
        \/ targetNotEmpty (sys_ReadDir (Mount.Target m) (world s)) = false ->
        streamMount workspaceInfo m s = (Err err, s') ->
        syncMounts workspaceInfo (m :: mounts) s = (Err err, s'))
  /\ forall stage s,
       reaches cmd st stage s ->
       match stage with
       | AtPing =>
           forall err s',
             effect EPing sys_Ping s = (Err err, s') ->
             Run cmd st = (Err (errWrap "ping client" err), s')
       | AtDecodeInputs =>
           forall err, decodeFails cmd err -> Run cmd st = (Err err, s)
       | AtStreamMounts workspaceInfo setupInfo =>
           forall err s',
             streamMounts cmd workspaceInfo setupInfo s = (Err err, s') ->
             Run cmd st = (Err err, s')
       | AtDockerlessBuild workspaceInfo setupInfo =>
           forall err s',
             dockerlessBuild setupInfo (WorkspaceInfo.Dockerless workspaceInfo)
               (SetupContainerCmd.Debug cmd) s
             = (Err err, s') ->
             Run cmd st = (Err (errWrap "dockerless build" err), s')
       | AtMergeEnv workspaceInfo setupInfo =>
           forall err setupInfo' s',
             fillContainerEnv setupInfo s = (Err err, setupInfo', s') ->
             Run cmd st = (Err err, s')
       | AtInjectGitCredentials workspaceInfo setupInfo =>
           SetupContainerCmd.InjectGitCredentials cmd = true ->
           forall err s1,
             configureSystemGitCredentials s = (Err err, s1) ->
             let logged :=
               after (logf ErrorLevel "Error configuring git credentials: %v"
                        [LErr err]) s1 in
             Run cmd st
             = defer (effect_ ECancel sys_Cancel)
                 (Run_CloneRepository cmd workspaceInfo setupInfo) logged
             /\ result (Run cmd) st
                = result (Run_CloneRepository cmd workspaceInfo setupInfo) logged
       | AtCloneRepository workspaceInfo setupInfo deferred =>
           forall err s',
             cloneRepository workspaceInfo setupInfo s = (Err err, s') ->
             Run cmd st = (Err err, after deferred s')
       | AtContainerSetup workspaceInfo setupInfo deferred =>
           forall err setupInfo' s',
             SetupContainer cmd workspaceInfo setupInfo s = (Err err, setupInfo', s') ->
             Run cmd st = (Err err, after deferred s')
       | AtInstallIDE workspaceInfo setupInfo deferred =>
           forall err s',
             installIDE cmd setupInfo (WorkspaceInfo.IDE workspaceInfo) s = (Err err, s') ->
             Run cmd st = (Err err, after deferred s')
       | AtStartDaemon workspaceInfo setupInfo deferred =>
           forall err s',
             startDaemon workspaceInfo s = (Err err, s') ->
             Run cmd st = (Err err, after deferred s')
       | AtReportResult workspaceInfo setupInfo deferred =>
           (forall err,
              Marshal_SetupInfo setupInfo = Err err ->
              Run cmd st = (Err (errWrap "marshal setup info" err), after deferred s))
           /\ (forall out,
                 Marshal_SetupInfo setupInfo = Ok out ->
                 (forall err s',
                    effect (ESendResult out) (sys_SendResult out) s = (Err err, s') ->
                    Run cmd st = (Err (errWrap "send result" err), after deferred s'))
                 /\ (forall s',
                       effect (ESendResult out) (sys_SendResult out) s = (Ok tt, s') ->
                       Run cmd st = (Ok tt, after deferred s')))
       end.
Proof.
  split; [| split].
  - intros err st' Hclient. unfold Run. apply try_err, wrapErr_err. exact Hclient.
  - intros workspaceInfo m mounts s err s'. apply syncMounts_fails.
  - intros stage s Hreaches. pose proof (reaches_rest cmd st stage s Hreaches) as Hrun.
    destruct stage as
      [ | | workspaceInfo setupInfo | workspaceInfo setupInfo | workspaceInfo setupInfo
      | workspaceInfo setupInfo | workspaceInfo setupInfo deferred
      | workspaceInfo setupInfo deferred | workspaceInfo setupInfo deferred
      | workspaceInfo setupInfo deferred | workspaceInfo setupInfo deferred ];
      cbn [rest] in Hrun.
    + intros err s' Hping. rewrite Hrun. unfold Run_Ping.
      apply try_err, wrapErr_err. exact Hping.
    + intros err Hfail. rewrite Hrun. unfold try_ at 1, ret at 1.
      destruct Hfail as [Hdecode | [[Hdecode Hdecompress] | [Hdecode Hunmarshal]]].
      * rewrite Hdecode. reflexivity.
      * destruct (DecodeContainerWorkspaceInfo _) as [wi |]; [| discriminate].
        unfold try_ at 1, ret at 1. rewrite Hdecompress. reflexivity.
      * destruct (DecodeContainerWorkspaceInfo _) as [wi |]; [| discriminate].
        destruct Hunmarshal as (decompressed & Hdecompress & Hunmarshal).
        unfold try_ at 1, ret at 1. rewrite Hdecompress.
        unfold try_ at 1, ret at 1. rewrite Hunmarshal. reflexivity.
    + intros err s' Hmounts. rewrite Hrun. unfold Run_StreamMounts.
      apply try_err. exact Hmounts.
    + intros err s' Hbuild. rewrite Hrun. unfold Run_DockerlessBuild.
      apply try_err, wrapErr_err. exact Hbuild.
    + intros err setupInfo' s' Henv. rewrite Hrun. unfold Run_MergeEnv, bind.
      rewrite Henv. reflexivity.
    + intros Hinject err s1 Hconf logged.
      assert (Hgoes : Run cmd st
                      = defer (effect_ ECancel sys_Cancel)
                          (Run_CloneRepository cmd workspaceInfo setupInfo) logged).
      { rewrite Hrun. apply Run_InjectGitCredentials_unauthenticated; assumption. }
      split; [exact Hgoes |].
      unfold result. rewrite Hgoes. unfold defer.
      destruct (Run_CloneRepository cmd workspaceInfo setupInfo logged) as [r s2].
      reflexivity.
    + intros err s' Hclone. rewrite Hrun. apply defer_returns.
      unfold Run_CloneRepository. apply try_err. exact Hclone.
    + intros err setupInfo' s' Hsetup. rewrite Hrun. apply defer_returns.
      unfold Run_ContainerSetup, bind. rewrite Hsetup. reflexivity.
    + intros err s' Hide. rewrite Hrun. apply defer_returns.
      unfold Run_InstallIDE. apply try_err. exact Hide.
    + intros err s' Hdaemon. rewrite Hrun. apply defer_returns.
      unfold Run_StartDaemon. apply try_err. exact Hdaemon.
    + split.
      * intros err Hmarshal. rewrite Hrun. apply defer_returns.
        unfold Run_ReportResult. apply try_err, wrapErr_err. unfold ret.
        rewrite Hmarshal. reflexivity.
      * intros out Hmarshal.
        assert (Hout : Run_ReportResult setupInfo s
                       = try_ (wrapErr "send result"
                                 (effect (ESendResult out) (sys_SendResult out)))
                           (fun _ => nil_) s).
        { unfold Run_ReportResult.
          rewrite (try_ok _ _ s out s)
            by (apply wrapErr_ok; unfold ret; rewrite Hmarshal; reflexivity).
          reflexivity. }
        split.
        -- intros err s' Hsend. rewrite Hrun. apply defer_returns. rewrite Hout.
           apply try_err, wrapErr_err. exact Hsend.
        -- intros s' Hsend. rewrite Hrun. apply defer_returns. rewrite Hout.
           rewrite (try_ok _ _ s tt s') by (apply wrapErr_ok; exact Hsend).
           reflexivity.
Qed.

(** C7. When the pull from inside the container is enabled: if the
    stat of [.git] in the workspace folder succeeds and the run is not a
    recreate, the clone is skipped, and the run goes on with the
    container setup after one debug message; in every other case the
    repository is cloned, and the failure of the clone is the error the
    run returns, with nothing done after it. *)
Theorem cloneRepository_skip_or_clone
    (cmd : SetupContainerCmd.t) (workspaceInfo : WorkspaceInfo.t)
    (setupInfo : SetupInfo.t) (st : State W) :
  let folder := SetupInfo.ContainerWorkspaceFolder setupInfo in
  let found := sys_Stat (filepath_Join [folder; ".git"]) (world st) in
  let recreate := CLIOptions.Recreate (WorkspaceInfo.CLIOptions workspaceInfo) in
  let skipped :=
    after (logf DebugLevel "Workspace repository already checked out %s, skipping clone"
             [LStr folder]) st in
  StrBool_Bool (WorkspaceInfo.PullFromInsideContainer workspaceInfo) = Ok true ->
  (found = Ok tt /\ recreate = false ->
   cloneRepository workspaceInfo setupInfo st = (Ok tt, skipped)
   /\ Run_CloneRepository cmd workspaceInfo setupInfo st
      = Run_ContainerSetup cmd workspaceInfo setupInfo skipped)
  /\ (found <> Ok tt \/ recreate = true ->
      cloneRepository workspaceInfo setupInfo st
      = CloneRepositoryForWorkspace workspaceInfo setupInfo st
      /\ emitted (CloneRepositoryForWorkspace workspaceInfo setupInfo) st
           [ECloneRepository (WorkspaceInfo.Source workspaceInfo)
              (WorkspaceInfo.Agent workspaceInfo) folder
              (WorkspaceInfo.CLIOptions workspaceInfo)]
      /\ forall err st',
           CloneRepositoryForWorkspace workspaceInfo setupInfo st = (Err err, st') ->
           Run_CloneRepository cmd workspaceInfo setupInfo st = (Err err, st')).
Proof.
  intros folder found recreate skipped Hpull. split.
  - intros [Hfound Hrecreate].
    assert (Hskip : cloneRepository workspaceInfo setupInfo st = (Ok tt, skipped)).
    { unfold cloneRepository. rewrite Hpull. unfold bind at 1, read at 1.
      fold folder found recreate. rewrite Hfound, Hrecreate. reflexivity. }
    split; [exact Hskip |].
    unfold Run_CloneRepository. rewrite (try_ok _ _ _ _ _ Hskip). reflexivity.
  - intros Hclone.
    assert (Hsame : cloneRepository workspaceInfo setupInfo st
                    = CloneRepositoryForWorkspace workspaceInfo setupInfo st).
    { unfold cloneRepository. rewrite Hpull. unfold bind at 1, read at 1.
      fold folder found recreate.
      destruct Hclone as [Hfound | Hrecreate].
      - destruct found as [[] | e]; [contradiction | reflexivity].
      - rewrite Hrecreate. rewrite andb_false_r. reflexivity. }
    split; [exact Hsame |]. split.
    + unfold emitted, after, CloneRepositoryForWorkspace, effect.
      destruct (sys_CloneRepository _ _ _ _ _). reflexivity.
    + intros err st' Hfail. unfold Run_CloneRepository. apply try_err.
      rewrite Hsame. exact Hfail.
Qed.

End Orchestrator.

(** The stage that a run in a concrete world has reached, one step
    further: the state is that which the step leaves. *)
Ltac stage_of R := lazymatch type of R with reaches _ _ _ ?s => s end.

Ltac evaluated := vm_compute; reflexivity.

Ltac reach_clone cmd start workspaceInfo setupInfo R :=
  let R1 := fresh "R" in
  pose proof (reaches_Ping (H := Demo.ex) (H0 := Demo.sys) cmd start
                (snd (effect ENewTunnelClient (@sys_NewTunnelClient _ Demo.sys) start))
                ltac:(evaluated)) as R1;
  let s1 := stage_of R1 in
  let R2 := fresh "R" in
  pose proof (reaches_DecodeInputs cmd start s1
                (snd (effect EPing (@sys_Ping _ Demo.sys) s1)) R1 ltac:(evaluated)) as R2;
  let R3 := fresh "R" in
  pose proof (reaches_StreamMounts cmd start _ workspaceInfo "setup-info"
                (Demo.setupInfo None) R2 eq_refl eq_refl eq_refl) as R3;
  let s3 := stage_of R3 in
  let R4 := fresh "R" in
  pose proof (reaches_DockerlessBuild cmd start s3 workspaceInfo (Demo.setupInfo None)
                (snd (@streamMounts _ Demo.ex Demo.sys cmd workspaceInfo
                        (Demo.setupInfo None) s3))
                R3 ltac:(evaluated)) as R4;
  let s4 := stage_of R4 in
  let R5 := fresh "R" in
  pose proof (reaches_MergeEnv cmd start s4 workspaceInfo (Demo.setupInfo None)
                (snd (@dockerlessBuild _ Demo.ex Demo.sys (Demo.setupInfo None)
                        (WorkspaceInfo.Dockerless workspaceInfo)
                        (SetupContainerCmd.Debug cmd) s4))
                R4 ltac:(evaluated)) as R5;
  let s5 := stage_of R5 in
  let R6 := fresh "R" in
  pose proof (reaches_InjectGitCredentials cmd start s5 workspaceInfo
                (Demo.setupInfo None) setupInfo s5 R5 ltac:(evaluated)) as R6;
  pose proof (reaches_CloneRepository_unauthenticated cmd start s5 workspaceInfo
                setupInfo (errNew "git not found") s5 R6 eq_refl ltac:(evaluated)) as R;
  clear R1 R2 R3 R4 R5 R6.

(** A fresh container without git, whose host refuses the clone: the
    credentials cannot be configured, the error is logged and the run
    goes on to the clone, whose error it returns after the deferred
    cancel; the same container with a host that accepts the clone: the
    run goes on to the report and returns [nil]; and a host that does
    not answer the ping. *)
Lemma Run_fail_fast_but_credentials_witness :
  let cmd := Demo.cmd false false true in
  let run := @Run _ Demo.ex Demo.sys cmd in
  let refused := Demo.start (Demo.fresh Demo.cloneFails) in
  let st := Demo.start (Demo.fresh Demo.nothingFails) in
  let down := Demo.start (Demo.fresh Demo.pingFails) in
  let built :=
    [ENewTunnelClient;
     ELog DebugLevel "Created logger" [];
     EPing;
     ELog DebugLevel "Start setting up container..." [];
     EWriter InfoLevel;
     ELog InfoLevel "Start dockerless building %s %s"
       [LStr "/.dockerless/dockerless";
        LStr (GoStrings.Join (Cmd.Args (Demo.builder None)) " ")];
     EExec (Demo.builder None);
     EMergeAndApply ∅;
     ERemoveAll "/workspaces/.dockerless/.devpod-internal";
     ERenameDirectory "/workspaces/.dockerless/.devpod-internal"
       "/workspaces/.dockerless/.devpod-internal";
     EWriterClose InfoLevel;
     ELog ErrorLevel "Error configuring git credentials: %v"
       [LErr (errNew "git not found")];
     ECloneRepository "git:https://example.com/project.git" ""
       "/workspaces/project" (Demo.options false false)] in
  (result run refused = Err Demo.failed
   /\ trace (after run refused) = built ++ [ECancel])
  /\ (result run st = Ok tt
      /\ trace (after run st)
         = built
           ++ [ESetupContainer
                 (Demo.setupInfo (Some {[ "PATH" := "${containerEnv:PATH}" ]})) false;
               ESendResult "{}";
               ECancel])
  /\ run down
     = (Err (errWrap "ping client" Demo.failed),
        mkState (world down) [ENewTunnelClient; ELog DebugLevel "Created logger" []; EPing]).
Proof.
  intros cmd run refused st down built.
  pose (workspaceInfo := Demo.workspaceInfo false false IDENone).
  pose (setupInfo := Demo.setupInfo (Some {[ "PATH" := "${containerEnv:PATH}" ]})).
  pose (cancel := effect_ ECancel (@sys_Cancel _ Demo.sys)).
  pose proof (@Run_fail_fast_but_credentials _ Demo.ex Demo.sys cmd) as Hrun.
  split; [| split].
  - reach_clone cmd refused workspaceInfo setupInfo R7.
    pose proof (proj2 (proj2 (Hrun refused)) _ _ R7 Demo.failed
                  (snd (@cloneRepository _ Demo.ex Demo.sys workspaceInfo setupInfo
                          ltac:(let s := stage_of R7 in exact s)))
                  ltac:(evaluated)) as Hreturn.
    unfold result, after, run. rewrite Hreturn. split; evaluated.
  - reach_clone cmd st workspaceInfo setupInfo R7.
    pose proof (reaches_ContainerSetup cmd st
                  ltac:(let s := stage_of R7 in exact s) workspaceInfo setupInfo cancel
                  (snd (@cloneRepository _ Demo.ex Demo.sys workspaceInfo setupInfo
                          ltac:(let s := stage_of R7 in exact s)))
                  R7 ltac:(evaluated)) as R8.
    pose proof (reaches_InstallIDE cmd st
                  ltac:(let s := stage_of R8 in exact s) workspaceInfo setupInfo cancel
                  setupInfo
                  (snd (@SetupContainer _ Demo.sys cmd workspaceInfo setupInfo
                          ltac:(let s := stage_of R8 in exact s)))
                  R8 ltac:(evaluated)) as R9.
    pose proof (reaches_StartDaemon cmd st
                  ltac:(let s := stage_of R9 in exact s) workspaceInfo setupInfo cancel
                  ltac:(let s := stage_of R9 in exact s) R9 ltac:(evaluated)) as R10.
    pose proof (reaches_ReportResult cmd st
                  ltac:(let s := stage_of R10 in exact s) workspaceInfo setupInfo cancel
                  ltac:(let s := stage_of R10 in exact s) R10 ltac:(evaluated)) as R11.
    pose proof (proj2 (proj2 (proj2 (proj2 (Hrun st)) _ _ R11) "{}" eq_refl)
                  (snd (effect (ESendResult "{}") (@sys_SendResult _ Demo.sys "{}")
                          ltac:(let s := stage_of R11 in exact s)))
                  ltac:(evaluated)) as Hreturn.
    unfold result, after, run. rewrite Hreturn. split; evaluated.
  - pose proof (reaches_Ping (H := Demo.ex) (H0 := Demo.sys) cmd down
                  (mkState (world down) [ENewTunnelClient]) ltac:(evaluated)) as R1.
    exact (proj2 (proj2 (Hrun down)) _ _ R1 Demo.failed
             (mkState (world down)
                [ENewTunnelClient; ELog DebugLevel "Created logger" []; EPing])
             ltac:(evaluated)).
Defined.

(** The whole run in that container: the error of the credentials is
    logged, and the clone, the container setup and the report follow. *)
Example Run_without_git :
  let cmd := Demo.cmd false false true in
  let st := Demo.start (Demo.fresh Demo.nothingFails) in
  let run := @Run _ Demo.ex Demo.sys cmd in
  result run st = Ok tt
  /\ trace (after run st)
     = [ENewTunnelClient;
        ELog DebugLevel "Created logger" [];
        EPing;
        ELog DebugLevel "Start setting up container..." [];
        EWriter InfoLevel;
        ELog InfoLevel "Start dockerless building %s %s"
          [LStr "/.dockerless/dockerless";
           LStr (GoStrings.Join (Cmd.Args (Demo.builder None)) " ")];
        EExec (Demo.builder None);
        EMergeAndApply ∅;
        ERemoveAll "/workspaces/.dockerless/.devpod-internal";
        ERenameDirectory "/workspaces/.dockerless/.devpod-internal"
          "/workspaces/.dockerless/.devpod-internal";
        EWriterClose InfoLevel;
        ELog ErrorLevel "Error configuring git credentials: %v"
          [LErr (errNew "git not found")];
        ECloneRepository "git:https://example.com/project.git" ""
          "/workspaces/project" (Demo.options false false);
        ESetupContainer
          (Demo.setupInfo (Some {[ "PATH" := "${containerEnv:PATH}" ]})) false;
        ESendResult "{}";
        ECancel].
Proof. split; vm_compute; reflexivity. Qed.

(** A container that is set up already, and the same with a recreate
    whose clone fails. *)
Lemma cloneRepository_skip_or_clone_witness :
  let cmd := Demo.cmd false false false in
  let st := Demo.start (Demo.settled Demo.cloneFails) in
  let clone := ECloneRepository "git:https://example.com/project.git" ""
                 "/workspaces/project" (Demo.options false true) in
  @cloneRepository _ Demo.ex Demo.sys (Demo.workspaceInfo false false IDENone)
    (Demo.setupInfo None) st
  = (Ok tt,
     mkState (world st)
       [ELog DebugLevel "Workspace repository already checked out %s, skipping clone"
          [LStr "/workspaces/project"]])
  /\ @Run_CloneRepository _ Demo.ex Demo.sys cmd (Demo.workspaceInfo false true IDENone)
       (Demo.setupInfo None) st
     = (Err Demo.failed, mkState (world st) [clone]).
Proof.
  intros cmd st clone. split.
  - exact (proj1 (proj1 (@cloneRepository_skip_or_clone _ Demo.ex Demo.sys cmd
                           (Demo.workspaceInfo false false IDENone) (Demo.setupInfo None)
                           st eq_refl)
                    (conj eq_refl eq_refl))).
  - exact (proj2 (proj2 (proj2 (@cloneRepository_skip_or_clone _ Demo.ex Demo.sys cmd
                                  (Demo.workspaceInfo false true IDENone)
                                  (Demo.setupInfo None) st eq_refl)
                           (or_intror eq_refl)))
             Demo.failed (mkState (world st) [clone]) eq_refl).
Defined.

(** ** The IDE dispatch *)

Section IDEDispatch.
Context {W : Type} `{Extern} `{Sys W}.

Lemma length_eqb_0 {A} (l : list A) : (length l =? 0)%nat = true <-> l = [].
Proof. destruct l; cbn; split; intros Heq; congruence. Qed.

(** The guard on the background install of the extensions: what it
    does, case by case. *)
Lemma single_Single_vscodeAsync cmd extensions flavor (st : State W) :
  let name := flavor +:+ "-async.pid" in
  let logged :=
    after (logf InfoLevel "Install extensions '%s' in the background"
             [LStr (GoStrings.Join extensions ",")]) st in
  single_Single name (vscodeAsync cmd extensions flavor) st
  = if sys_LockAlive name (world st) then (Ok tt, st)
    else match sys_Executable (world logged) with
         | Err err => (Err err, logged)
         | Ok binaryPath =>
             let background :=
               Cmd.Command binaryPath
                 ["agent"; "container"; "vscode-async";
                  "--setup-info"; SetupContainerCmd.SetupInfo cmd;
                  "--release-channel"; flavor] in
             effect (ESpawn name background) (sys_Spawn name background) logged
         end.
Proof.
  intros name logged. unfold single_Single, bind at 1, read at 1.
  destruct (sys_LockAlive name (world st)); [reflexivity |].
  unfold try_ at 1, vscodeAsync, bind at 1. rewrite logf_eq.
  change (mkState _ _) with logged.
  unfold try_ at 1, read. destruct (sys_Executable (world logged)); reflexivity.
Qed.

(** The start of [setupVSCode] and of [setupOpenVSCode]: the debug
    message, then the settings. *)
Lemma setup_start format args (vsCodeConfiguration : VSCodeConfiguration.t) settings
    (k : string -> Act W (Result unit)) (st : State W) :
  marshalSettings vsCodeConfiguration = Ok settings ->
  bind (logf DebugLevel format args)
    (fun _ => try_ (ret (marshalSettings vsCodeConfiguration)) k) st
  = k settings (after (logf DebugLevel format args) st).
Proof.
  intros Hsettings. unfold bind at 1. rewrite logf_eq.
  unfold try_ at 1, ret at 1. rewrite Hsettings. reflexivity.
Qed.

Lemma setupVSCode_install_fails cmd setupInfo ideOptions flavor (st : State W)
    settings err failed :
  let vsCodeConfiguration := GetVSCodeConfiguration (SetupInfo.MergedConfig setupInfo) in
  marshalSettings vsCodeConfiguration = Ok settings ->
  install (VSCodeServer (VSCodeConfiguration.Extensions vsCodeConfiguration) settings
             (GetRemoteUser setupInfo) ideOptions flavor)
    (after (logf DebugLevel "Setup %s..." [LStr (Flavor_DisplayName flavor)]) st)
  = (Err err, failed) ->
  setupVSCode cmd setupInfo ideOptions flavor st = (Err err, failed).
Proof.
  intros vsCodeConfiguration Hsettings Hinstall.
  unfold setupVSCode. fold vsCodeConfiguration.
  rewrite (setup_start _ _ _ settings _ _ Hsettings).
  unfold install in Hinstall. apply try_err. exact Hinstall.
Qed.

(** C4, as the code has it. For every flavor: when the settings are
    marshalled and the install succeeds, [setupVSCode] calls the
    single-instance guard once, under the lock name [<flavor>-async.pid],
    if there are extensions.  The guard does nothing when a live process
    holds that lock; otherwise it spawns the background install once,
    unless the path of the executable of the agent cannot be determined:
    that error is then returned, and nothing is spawned.  If there are
    no extensions, [setupVSCode] returns [nil] after the install, with
    no background task, whether there are settings or not.  When the
    install fails, its error is returned and nothing is spawned. *)
Theorem setupVSCode_background
    (cmd : SetupContainerCmd.t) (setupInfo : SetupInfo.t) (ideOptions : Options)
    (flavor : Flavor) (st : State W) :
  let vsCodeConfiguration := GetVSCodeConfiguration (SetupInfo.MergedConfig setupInfo) in
  let extensions := VSCodeConfiguration.Extensions vsCodeConfiguration in
  let started :=
    after (logf DebugLevel "Setup %s..." [LStr (Flavor_DisplayName flavor)]) st in
  let name := flavor +:+ "-async.pid" in
  forall settings,
    marshalSettings vsCodeConfiguration = Ok settings ->
    let server :=
      VSCodeServer extensions settings (GetRemoteUser setupInfo) ideOptions flavor in
    (forall installed,
       install server started = (Ok tt, installed) ->
       (extensions <> [] ->
        let logged :=
          after (logf InfoLevel "Install extensions '%s' in the background"
                   [LStr (GoStrings.Join extensions ",")]) installed in
        setupVSCode cmd setupInfo ideOptions flavor st
        = single_Single name (vscodeAsync cmd extensions flavor) installed
        /\ (sys_LockAlive name (world installed) = true ->
            setupVSCode cmd setupInfo ideOptions flavor st = (Ok tt, installed))
        /\ (sys_LockAlive name (world installed) = false ->
            (forall binaryPath,
               sys_Executable (world logged) = Ok binaryPath ->
               let background :=
                 Cmd.Command binaryPath
                   ["agent"; "container"; "vscode-async";
                    "--setup-info"; SetupContainerCmd.SetupInfo cmd;
                    "--release-channel"; flavor] in
               setupVSCode cmd setupInfo ideOptions flavor st
               = effect (ESpawn name background) (sys_Spawn name background) logged)
            /\ (forall err,
                  sys_Executable (world logged) = Err err ->
                  setupVSCode cmd setupInfo ideOptions flavor st = (Err err, logged))))
       /\ (extensions = [] ->
           setupVSCode cmd setupInfo ideOptions flavor st = (Ok tt, installed)))
    /\ (forall err failed,
          install server started = (Err err, failed) ->
          setupVSCode cmd setupInfo ideOptions flavor st = (Err err, failed)).
Proof.
  intros vsCodeConfiguration extensions started name settings Hsettings server.
  split.
  - intros installed Hinstall.
    assert (Hrun : setupVSCode cmd setupInfo ideOptions flavor st
                   = if ((size (VSCodeConfiguration.Settings vsCodeConfiguration) =? 0)
                         && (length extensions =? 0))%nat
                     then (Ok tt, installed)
                     else if (length extensions =? 0)%nat then (Ok tt, installed)
                     else single_Single name (vscodeAsync cmd extensions flavor)
                            installed).
    { unfold setupVSCode. fold vsCodeConfiguration extensions.
      rewrite (setup_start _ _ _ settings _ _ Hsettings). fold started.
      fold server. unfold install in Hinstall.
      rewrite (try_ok _ _ _ _ _ Hinstall). fold name.
      destruct ((size _ =? 0)%nat && _); [reflexivity |].
      destruct (length extensions =? 0)%nat; reflexivity. }
    split.
    + intros Hext logged.
      assert (Hlen : (length extensions =? 0)%nat = false).
      { destruct (length extensions =? 0)%nat eqn:Hlen; [| reflexivity].
        apply length_eqb_0 in Hlen. contradiction. }
      rewrite Hlen, andb_false_r in Hrun.
      split; [exact Hrun |]. rewrite Hrun.
      pose proof (single_Single_vscodeAsync cmd extensions flavor installed) as Hguard.
      cbv zeta in Hguard. fold name in Hguard. fold logged in Hguard. rewrite Hguard.
      split.
      * intros Halive. rewrite Halive. reflexivity.
      * intros Halive. rewrite Halive. split.
        -- intros binaryPath Hexe. rewrite Hexe. reflexivity.
        -- intros err Hexe. rewrite Hexe. reflexivity.
    + intros Hext. rewrite Hrun.
      rewrite (proj2 (length_eqb_0 extensions) Hext).
      destruct ((size _ =? 0)%nat && true); reflexivity.
  - intros err failed Hinstall.
    exact (setupVSCode_install_fails cmd setupInfo ideOptions flavor st settings err
             failed Hsettings Hinstall).
Qed.

(** C5. In the dispatch: the kind none returns [nil] and does nothing;
    a failure of the install of RStudio is logged and [installIDE]
    returns [nil]; for every JetBrains kind, Fleet and Jupyter,
    [installIDE] is the install of that server, so that a failure of the
    install is its error; and for every VSCode flavor and OpenVSCode a
    failure of the install is returned as the error of [installIDE]. *)
Theorem installIDE_errors
    (cmd : SetupContainerCmd.t) (setupInfo : SetupInfo.t) (options : Options)
    (st : State W) :
  let user := GetRemoteUser setupInfo in
  let folder := SetupInfo.ContainerWorkspaceFolder setupInfo in
  let vsCodeConfiguration := GetVSCodeConfiguration (SetupInfo.MergedConfig setupInfo) in
  let extensions := VSCodeConfiguration.Extensions vsCodeConfiguration in
  let ide name := {| IDEConfig.Name := name; IDEConfig.Options := options |} in
  installIDE cmd setupInfo (ide IDENone) st = (Ok tt, st)
  /\ (forall err st',
        install (RStudioServer folder user options) st = (Err err, st') ->
        installIDE cmd setupInfo (ide IDERStudio) st
        = (Ok tt,
           after (logf ErrorLevel "could not install rstudio with error: %w" [LErr err])
             st'))
  /\ Forall (fun kind =>
               installIDE cmd setupInfo (ide (fst kind)) st
               = install (JetBrainsServer (snd kind) user options) st)
       [(IDEGoland, Goland); (IDERustRover, RustRover); (IDEPyCharm, PyCharm);
        (IDEPhpStorm, PhpStorm); (IDEIntellij, Intellij); (IDECLion, CLion);
        (IDERider, Rider); (IDERubyMine, RubyMine); (IDEWebStorm, WebStorm);
        (IDEDataSpell, DataSpell)]
  /\ installIDE cmd setupInfo (ide IDEFleet) st
     = install (FleetServer user options folder) st
  /\ installIDE cmd setupInfo (ide IDEJupyterNotebook) st
     = install (JupyterNotebookServer folder user options) st
  /\ Forall (fun kind =>
               installIDE cmd setupInfo (ide (fst kind)) st
               = setupVSCode cmd setupInfo options (snd kind) st
               /\ forall settings err st',
                    marshalSettings vsCodeConfiguration = Ok settings ->
                    install (VSCodeServer extensions settings user options (snd kind))
                      (after (logf DebugLevel "Setup %s..."
                                [LStr (Flavor_DisplayName (snd kind))]) st)
                    = (Err err, st') ->
                    installIDE cmd setupInfo (ide (fst kind)) st = (Err err, st'))
       [(IDEVSCode, FlavorStable); (IDEVSCodeInsiders, FlavorInsiders);
        (IDECursor, FlavorCursor); (IDEPositron, FlavorPositron);
        (IDECodium, FlavorCodium); (IDEWindsurf, FlavorWindsurf)]
  /\ (forall settings err st',
        marshalSettings vsCodeConfiguration = Ok settings ->
        install (OpenVSCodeServer extensions settings user "0.0.0.0"
                   (Itoa DefaultVSCodePort) options)
          (after (logf DebugLevel "Setup openvscode..." []) st)
        = (Err err, st') ->
        installIDE cmd setupInfo (ide IDEOpenVSCode) st = (Err err, st')).
Proof.
  intros user folder vsCodeConfiguration extensions ide.
  repeat match goal with |- _ /\ _ => split end.
  - reflexivity.
  - intros err st' Hinstall. unfold installIDE. cbn [ide IDEConfig.Name IDEConfig.Options].
    fold user folder. unfold bind at 1. rewrite Hinstall. reflexivity.
  - repeat constructor.
  - reflexivity.
  - reflexivity.
  - repeat (constructor;
            [split; [reflexivity |];
             intros settings err st' Hsettings Hinstall;
             cbn [fst snd] in *;
             exact (setupVSCode_install_fails cmd setupInfo options _ st settings err st'
                      Hsettings Hinstall) |]).
    constructor.
  - intros settings err st' Hsettings Hinstall.
    unfold installIDE. cbn [ide IDEConfig.Name IDEConfig.Options].
    unfold setupOpenVSCode. fold vsCodeConfiguration extensions user.
    rewrite (setup_start _ _ _ settings _ _ Hsettings).
    apply try_err. exact Hinstall.
Qed.

End IDEDispatch.

(** There are extensions and no live process holds the lock, and yet
    no background task is spawned: when the install fails,
    [setupVSCode] returns the error of the install; and when the
    install succeeds but the path of the executable of the agent cannot
    be determined, it returns that error. *)
Lemma setupVSCode_extensions_spawn_nothing :
  let ex := Demo.withVSCode ∅ ["golang.go"] in
  let run := @setupVSCode _ ex Demo.sys (Demo.cmd false false false)
               (Demo.setupInfo None) ∅ "cursor" in
  let failing := Demo.start (Demo.fresh Demo.installFails) in
  let lost := Demo.start Fixtures.noExecutable in
  VSCodeConfiguration.Extensions
    (@GetVSCodeConfiguration ex (SetupInfo.MergedConfig (Demo.setupInfo None)))
  = ["golang.go"]
  /\ @sys_LockAlive _ Demo.sys "cursor-async.pid" (world failing) = false
  /\ run failing
     = (Err Demo.failed,
        mkState (world failing)
          [ELog DebugLevel "Setup %s..." [LStr "cursor"];
           EInstall (VSCodeServer ["golang.go"] "" "root" ∅ "cursor")])
  /\ filter isSpawn (trace (after run failing)) = []
  /\ @sys_LockAlive _ Demo.sys "cursor-async.pid" (world lost) = false
  /\ run lost
     = (Err Demo.notFound,
        mkState (world lost)
          [ELog DebugLevel "Setup %s..." [LStr "cursor"];
           EInstall (VSCodeServer ["golang.go"] "" "root" ∅ "cursor");
           ELog InfoLevel "Install extensions '%s' in the background"
             [LStr "golang.go"]])
  /\ filter isSpawn (trace (after run lost)) = [].
Proof. intros ex run failing lost. repeat split. Qed.

(** With extensions and nothing failing, the background install is
    spawned once; with settings and no extension, nothing is spawned;
    and without the path of the agent, the error is returned. *)
Lemma setupVSCode_background_witness :
  let st := Demo.start (Demo.fresh Demo.nothingFails) in
  let lost := Demo.start Fixtures.noExecutable in
  let server settings extensions :=
    VSCodeServer extensions settings "root" ∅ "cursor" in
  let background :=
    Cmd.Command "/usr/local/bin/devpod"
      ["agent"; "container"; "vscode-async"; "--setup-info"; "setup-info";
       "--release-channel"; "cursor"] in
  @setupVSCode _ (Demo.withVSCode ∅ ["golang.go"]) Demo.sys (Demo.cmd false false false)
    (Demo.setupInfo None) ∅ "cursor" st
  = (Ok tt,
     mkState (world st)
       [ELog DebugLevel "Setup %s..." [LStr "cursor"];
        EInstall (server "" ["golang.go"]);
        ELog InfoLevel "Install extensions '%s' in the background" [LStr "golang.go"];
        ESpawn "cursor-async.pid" background])
  /\ @setupVSCode _ (Demo.withVSCode {[ "editor.tabSize" := "2" ]} []) Demo.sys
       (Demo.cmd false false false) (Demo.setupInfo None) ∅ "cursor" st
     = (Ok tt,
        mkState (world st)
          [ELog DebugLevel "Setup %s..." [LStr "cursor"];
           EInstall (server "{}" [])])
  /\ @setupVSCode _ (Demo.withVSCode ∅ ["golang.go"]) Demo.sys
       (Demo.cmd false false false) (Demo.setupInfo None) ∅ "cursor" lost
     = (Err Demo.notFound,
        mkState (world lost)
          [ELog DebugLevel "Setup %s..." [LStr "cursor"];
           EInstall (server "" ["golang.go"]);
           ELog InfoLevel "Install extensions '%s' in the background"
             [LStr "golang.go"]]).
Proof.
  intros st lost server background.
  assert (Hne : ["golang.go"] <> @nil string) by discriminate.
  split; [| split].
  - pose proof (@setupVSCode_background _ (Demo.withVSCode ∅ ["golang.go"]) Demo.sys
                  (Demo.cmd false false false) (Demo.setupInfo None) ∅ "cursor" st
                  "" eq_refl) as [Hok _].
    destruct (Hok _ eq_refl) as [Hext _].
    destruct (Hext Hne) as (_ & _ & Hspawn).
    rewrite (proj1 (Hspawn eq_refl) "/usr/local/bin/devpod" eq_refl). reflexivity.
  - pose proof (@setupVSCode_background _ (Demo.withVSCode {[ "editor.tabSize" := "2" ]} [])
                  Demo.sys (Demo.cmd false false false) (Demo.setupInfo None) ∅ "cursor"
                  st "{}" eq_refl) as [Hok _].
    destruct (Hok _ eq_refl) as [_ Hnone].
    exact (Hnone eq_refl).
  - pose proof (@setupVSCode_background _ (Demo.withVSCode ∅ ["golang.go"]) Demo.sys
                  (Demo.cmd false false false) (Demo.setupInfo None) ∅ "cursor" lost
                  "" eq_refl) as [Hok _].
    destruct (Hok _ eq_refl) as [Hext _].
    destruct (Hext Hne) as (_ & _ & Hspawn).
    exact (proj2 (Hspawn eq_refl) Demo.notFound eq_refl).
Defined.

(** The install of RStudio fails and is logged; the install of GoLand
    fails and is the error of the dispatch. *)
Lemma installIDE_errors_witness :
  let st := Demo.start (Demo.fresh Demo.installFails) in
  let ide name := {| IDEConfig.Name := name; IDEConfig.Options := ∅ |} in
  let run name := @installIDE _ Demo.ex Demo.sys (Demo.cmd false false false)
                    (Demo.setupInfo None) (ide name) st in
  run IDERStudio
  = (Ok tt,
     mkState (world st)
       [EInstall (RStudioServer "/workspaces/project" "root" ∅);
        ELog ErrorLevel "could not install rstudio with error: %w" [LErr Demo.failed]])
  /\ run IDEGoland
     = (Err Demo.failed,
        mkState (world st) [EInstall (JetBrainsServer Goland "root" ∅)])
  /\ run IDENone = (Ok tt, st).
Proof.
  intros st ide run.
  pose proof (@installIDE_errors _ Demo.ex Demo.sys (Demo.cmd false false false)
                (Demo.setupInfo None) ∅ st) as (Hnone & Hrstudio & Hjetbrains & _).
  split; [| split].
  - exact (Hrstudio Demo.failed
             (mkState (world st) [EInstall (RStudioServer "/workspaces/project" "root" ∅)])
             eq_refl).
  - apply Forall_inv in Hjetbrains. cbn [fst snd] in Hjetbrains.
    unfold run, ide. rewrite Hjetbrains. reflexivity.
  - exact Hnone.
Defined.

(** ** fillContainerEnv *)

Section MergeEnv.
Context {W : Type} `{Extern} `{Sys W}.

Lemma setRemoteEnv_PATH remoteEnv : is_Some (setRemoteEnv remoteEnv !! "PATH").
Proof.
  unfold setRemoteEnv. cbv zeta.
  set (env := match remoteEnv with Some env => env | None => ∅ end).
  destruct (env !! "PATH") as [v |] eqn:Hpath; [rewrite Hpath; eauto |].
  rewrite lookup_insert_eq. eauto.
Qed.


End MergeEnv.


(** ** progressReader *)

Section ProgressProperties.
Context {W : Type} `{Progress.Under W}.

Lemma wrap64_small z : Progress.inInt64 z -> Progress.wrap64 z = z.
Proof.
  unfold Progress.inInt64, Progress.wrap64. intros Hz.
  rewrite Z.mod_small by lia. lia.
Qed.

Lemma wrap64_add z n : Progress.wrap64 (Progress.wrap64 z + n) = Progress.wrap64 (z + n).
Proof.
  unfold Progress.wrap64.
  replace ((z + 2 ^ 63) mod 2 ^ 64 - 2 ^ 63 + n + 2 ^ 63)
    with ((z + 2 ^ 63) mod 2 ^ 64 + n) by lia.
  rewrite Zplus_mod_idemp_l. f_equal. f_equal. lia.
Qed.

Lemma Read_eq p b w :
  exists p' w',
    Progress.Read p b w = (fst (Progress.Reader_Read b w), p', w')
    /\ Progress.bytesRead p'
       = Progress.wrap64 (Progress.bytesRead p + snd (fst (fst (Progress.Reader_Read b w)))).
Proof.
  unfold Progress.Read.
  destruct (Progress.Reader_Read b w) as [[[b' n] err] w1]. cbn [fst snd].
  destruct (Progress.time_Now w1) as [now w2].
  destruct (Progress.Second * 4 <? Progress.Sub now (Progress.lastMessage p)).
  - destruct (Progress.time_Now _) as [now' w3]. eexists _, _. split; reflexivity.
  - eexists _, _. split; reflexivity.
Qed.

Lemma Reads_bytesRead p bs w :
  Progress.inInt64 (Progress.bytesRead p) ->
  Progress.bytesRead (snd (fst (Progress.Reads p bs w)))
  = Progress.wrap64
      (Progress.bytesRead p + Progress.total (fst (fst (Progress.Reads p bs w)))).
Proof.
  revert p w. induction bs as [| b bs IH]; intros p w Hp; cbn [Progress.Reads].
  - cbn. rewrite Z.add_0_r. symmetry. apply wrap64_small. exact Hp.
  - destruct (Read_eq p b w) as (p1 & w1 & Hread & Hbytes). rewrite Hread.
    destruct (Progress.Reader_Read b w) as [[[b' n] err] w0]. cbn [fst snd] in *.
    assert (Hp1 : Progress.inInt64 (Progress.bytesRead p1)).
    { rewrite Hbytes. unfold Progress.inInt64, Progress.wrap64.
      pose proof (Z.mod_pos_bound (Progress.bytesRead p + n + 2 ^ 63) (2 ^ 64)). lia. }
    specialize (IH p1 w1 Hp1).
    destruct (Progress.Reads p1 bs w1) as [[rs p2] w2]. cbn [fst snd] in *.
    rewrite IH, Hbytes. unfold Progress.total. cbn [map fold_right fst].
    rewrite wrap64_add. f_equal. lia.
Qed.

(** C10, as the code has it. [Read] returns the buffer, the byte count
    and the error of the [Read] of the wrapped reader, as they are; and
    after any sequence of reads of a new progress reader, [bytesRead]
    is the sum of the byte counts returned so far in [int64]: the sum
    wrapped around, which is the sum itself as long as it is less than
    2^63 (and not less than -2^63). *)
Theorem Read_transparent_and_counts :
  (forall p b w,
     fst (fst (Progress.Read p b w)) = fst (Progress.Reader_Read b w))
  /\ (forall bs w,
        Progress.bytesRead (snd (fst (Progress.Reads Progress.new bs w)))
        = Progress.wrap64 (Progress.total (fst (fst (Progress.Reads Progress.new bs w)))))
  /\ (forall bs w,
        Progress.inInt64 (Progress.total (fst (fst (Progress.Reads Progress.new bs w)))) ->
        Progress.bytesRead (snd (fst (Progress.Reads Progress.new bs w)))
        = Progress.total (fst (fst (Progress.Reads Progress.new bs w)))).
Proof.
  assert (Hnew : Progress.inInt64 (Progress.bytesRead Progress.new))
    by (unfold Progress.inInt64; cbn; lia).
  split; [| split].
  - intros p b w. destruct (Read_eq p b w) as (p' & w' & Hread & _).
    rewrite Hread. reflexivity.
  - intros bs w. rewrite (Reads_bytesRead _ _ _ Hnew). reflexivity.
  - intros bs w Hsum. rewrite (Reads_bytesRead _ _ _ Hnew).
    apply wrap64_small. exact Hsum.
Qed.

End ProgressProperties.

(** Two reads of a reader that answers 2^62 each time: the sum of the
    byte counts is 2^63, and [bytesRead] is -2^63. *)
Lemma bytesRead_wraps_around :
  let reads := @Progress.Reads unit (Progress.stub (2 ^ 62)) Progress.new [[]; []] tt in
  fst (fst reads) = [(2 ^ 62, None); (2 ^ 62, None)]
  /\ Progress.total (fst (fst reads)) = 2 ^ 63
  /\ Progress.bytesRead (snd (fst reads)) = - 2 ^ 63
  /\ Progress.bytesRead (snd (fst reads)) <> Progress.total (fst (fst reads)).
Proof.
  intros reads. vm_compute. repeat split; discriminate.
Qed.

(** Three reads of 4096 bytes each. *)
Lemma Read_transparent_and_counts_witness :
  let reads := @Progress.Reads unit (Progress.stub 4096) Progress.new [[]; []; []] tt in
  Progress.inInt64 (Progress.total (fst (fst reads)))
  /\ Progress.bytesRead (snd (fst reads)) = 12288.
Proof.
  intros reads.
  assert (Hsum : Progress.inInt64 (Progress.total (fst (fst reads))))
    by (vm_compute; split; [discriminate | reflexivity]).
  split; [exact Hsum |].
  unfold reads in *.
  rewrite (proj2 (proj2 (@Read_transparent_and_counts unit (Progress.stub 4096)))
             [[]; []; []] tt Hsum).
  reflexivity.
Defined.

(** * More properties of the code *)

(** ** streamMount *)

Section StreamMount.
Context {W : Type} `{Extern} `{Sys W}.

(** X1. Through the tunnel (the workspace is not of a platform),
    [streamMount] opens the stream of the mount and extracts it into the
    target of the mount: when the stream cannot be opened, the error is
    returned as "init stream mount <mount>" and nothing is extracted;
    otherwise the result is that of the extraction, an error of which is
    returned as "stream mount <mount>".  No HTTP request is made. *)
Theorem streamMount_tunnel (workspaceInfo : WorkspaceInfo.t) (m : Mount.t)
    (st : State W) :
  Platform.Enabled (CLIOptions.Platform (WorkspaceInfo.CLIOptions workspaceInfo))
  = false ->
  let mount := Mount_String m in
  let copy :=
    ELog InfoLevel "Copy %s into DevContainer %s"
      [LStr (Mount.Source m); LStr (Mount.Target m)] in
  let started :=
    after (logf InfoLevel "Copy %s into DevContainer %s"
             [LStr (Mount.Source m); LStr (Mount.Target m)]) st in
  let opened := effect (EStreamMount mount) (sys_StreamMount mount) started in
  let extracted :=
    effect (EExtract TunnelStreamReader (Mount.Target m))
      (sys_Extract TunnelStreamReader (Mount.Target m)) (snd opened) in
  (forall err,
     fst opened = Err err ->
     streamMount workspaceInfo m st
     = (Err (errWrap ("init stream mount " +:+ mount) err), snd opened)
     /\ emitted (streamMount workspaceInfo m) st [copy; EStreamMount mount])
  /\ (fst opened = Ok tt ->
      streamMount workspaceInfo m st
      = (match fst extracted with
         | Ok _ => Ok tt
         | Err err => Err (errWrap ("stream mount " +:+ mount) err)
         end, snd extracted)
      /\ emitted (streamMount workspaceInfo m) st
           [copy; EStreamMount mount; EExtract TunnelStreamReader (Mount.Target m)]).
Proof.
  intros Hplatform mount copy started opened extracted.
  assert (Hrun : streamMount workspaceInfo m st
                 = try_ (wrapErr ("init stream mount " +:+ mount)
                           (effect (EStreamMount mount) (sys_StreamMount mount)))
                     (fun _ => wrapErr ("stream mount " +:+ mount)
                                 (effect (EExtract TunnelStreamReader (Mount.Target m))
                                    (sys_Extract TunnelStreamReader (Mount.Target m))))
                     started).
  { unfold streamMount. rewrite Hplatform. reflexivity. }
  assert (Htrace : trace (snd opened) = trace st ++ [copy; EStreamMount mount]).
  { unfold opened, effect. destruct (sys_StreamMount mount (world started)).
    cbn. rewrite <- app_assoc. reflexivity. }
  split.
  - intros err Hopen.
    assert (Hfail : streamMount workspaceInfo m st
                    = (Err (errWrap ("init stream mount " +:+ mount) err), snd opened)).
    { rewrite Hrun. apply try_err. apply wrapErr_err.
      rewrite <- Hopen. apply surjective_pairing. }
    split; [exact Hfail |].
    unfold emitted, after. rewrite Hfail. exact Htrace.
  - intros Hopen.
    assert (Hok : streamMount workspaceInfo m st
                  = (match fst extracted with
                     | Ok _ => Ok tt
                     | Err err => Err (errWrap ("stream mount " +:+ mount) err)
                     end, snd extracted)).
    { rewrite Hrun.
      rewrite (try_ok _ _ started tt (snd opened))
        by (apply wrapErr_ok; rewrite <- Hopen; apply surjective_pairing).
      unfold wrapErr. fold extracted.
      destruct extracted as [[[] | err] st2]; reflexivity. }
    split; [exact Hok |].
    unfold emitted, after. rewrite Hok. cbn [snd].
    unfold extracted, effect.
    destruct (sys_Extract TunnelStreamReader (Mount.Target m) (world (snd opened))).
    cbn [snd trace]. rewrite Htrace, <- app_assoc. reflexivity.
Qed.

(** X2. For a workspace of a platform, [streamMount] downloads the
    mount over HTTPS, with the access key as bearer token, and never
    uses the tunnel.  When the request cannot be created or sent,
    nothing else is done.  Once there is a response its body is closed
    on every path: a status other than 200 is an error that carries the
    body and the status, and nothing is extracted; with status 200 the
    download is extracted into the target of the mount, the result
    being that of the extraction. *)
Theorem streamMount_platform (workspaceInfo : WorkspaceInfo.t) (m : Mount.t)
    (st : State W) :
  let platform := CLIOptions.Platform (WorkspaceInfo.CLIOptions workspaceInfo) in
  Platform.Enabled platform = true ->
  let url :=
    "https://" +:+ ts_RemoveProtocol (Platform.PlatformHost platform)
    +:+ "/kubernetes/management/apis/management.loft.sh/v1/namespaces/"
    +:+ Platform.InstanceNamespace platform
    +:+ "/devpodworkspaceinstances/" +:+ Platform.InstanceName platform
    +:+ "/download?path=" +:+ url_QueryEscape (Mount.Source m) in
  let authorization := "Bearer " +:+ Platform.AccessKey platform in
  let started :=
    after (logf InfoLevel "Download %s into DevContainer %s"
             [LStr (Mount.Source m); LStr (Mount.Target m)]) st in
  let sent := effect (EHTTPDo url authorization true) (sys_HTTPDo url authorization)
                started in
  let close := after (effect_ EBodyClose sys_BodyClose) in
  (forall err,
     http_NewRequest "GET" url = Err err ->
     streamMount workspaceInfo m st = (Err (errWrap "create request" err), started))
  /\ (http_NewRequest "GET" url = Ok tt ->
      (forall err,
         fst sent = Err err ->
         streamMount workspaceInfo m st
         = (Err (errWrap "download workspace" err), snd sent))
      /\ (forall resp,
            fst sent = Ok resp ->
            (Response.StatusCode resp <> 200 ->
             let body := effect EReadAll sys_ReadAll (snd sent) in
             streamMount workspaceInfo m st
             = (Err (errNew ("download workspace: body = " +:+ fst body
                             +:+ ", status = " +:+ Response.Status resp)),
                close (snd body)))
            /\ (Response.StatusCode resp = 200 ->
                let extracted :=
                  effect (EExtract ProgressReader (Mount.Target m))
                    (sys_Extract ProgressReader (Mount.Target m)) (snd sent) in
                streamMount workspaceInfo m st
                = (match fst extracted with
                   | Ok _ => Ok tt
                   | Err err => Err (errWrap ("stream mount " +:+ Mount_String m) err)
                   end, close (snd extracted))))).
Proof.
  intros platform Hplatform url authorization started sent close.
  pose proof (eq_refl (streamMount workspaceInfo m st)) as Hrun.
  unfold streamMount at 2 in Hrun. fold platform in Hrun. rewrite Hplatform in Hrun.
  unfold bind at 1 in Hrun. rewrite logf_eq in Hrun. fold url authorization in Hrun.
  change (mkState _ _) with started in Hrun.
  split.
  - intros err Hreq. rewrite Hrun. apply try_err. apply wrapErr_err. unfold ret.
    rewrite Hreq. reflexivity.
  - intros Hreq.
    rewrite (try_ok _ _ started tt started) in Hrun
      by (apply wrapErr_ok; unfold ret; rewrite Hreq; reflexivity).
    split.
    + intros err Hsent. rewrite Hrun. apply try_err. apply wrapErr_err.
      rewrite <- Hsent. apply surjective_pairing.
    + intros resp Hsent.
      rewrite (try_ok _ _ started resp (snd sent)) in Hrun
        by (apply wrapErr_ok; rewrite <- Hsent; apply surjective_pairing).
      split.
      * intros Hstatus body. rewrite Hrun. unfold defer.
        destruct (decide (Response.StatusCode resp = 200)); [contradiction |].
        unfold bind, ret. fold body. destruct body as [text st2]. reflexivity.
      * intros Hstatus extracted. rewrite Hrun. unfold defer.
        destruct (decide (Response.StatusCode resp = 200)); [| contradiction].
        unfold wrapErr. fold extracted.
        destruct extracted as [[[] | err] st2]; reflexivity.
Qed.

End StreamMount.

(** ** The footprint of the steps *)

Section StepFootprints.
Context {W : Type} `{Extern} `{Sys W}.

Lemma emits_weaken {A} (P Q : Event -> Prop) (m : Act W A) :
  (forall ev, P ev -> Q ev) -> emits P m -> emits Q m.
Proof.
  intros HPQ Hm st. destruct (Hm st) as (evs & Htrace & Hall).
  exists evs. split; [exact Htrace |]. eapply Forall_impl; eassumption.
Qed.

(** The continuation is only run on what the first action returns. *)
Lemma emits_bind_res {A B} P (m : Act W A) (k : A -> Act W B) :
  emits P m ->
  (forall a, (exists st st', m st = (a, st')) -> emits P (k a)) ->
  emits P (bind m k).
Proof.
  intros Hm Hk st. destruct (Hm st) as (evs1 & Htr1 & HP1).
  unfold emitted, after in *. unfold bind.
  destruct (m st) as [a st1] eqn:Hrun. cbn [snd] in Htr1.
  destruct (Hk a (ex_intro _ st (ex_intro _ st1 Hrun)) st1) as (evs2 & Htr2 & HP2).
  unfold emitted, after in Htr2.
  exists (evs1 ++ evs2). split; [| apply Forall_app; split; assumption].
  rewrite Htr2, Htr1. symmetry. apply app_assoc.
Qed.

Lemma emits_streamMount P workspaceInfo m :
  (forall ev, isLogEvent ev || isTransfer ev = true -> P ev) ->
  emits P (streamMount workspaceInfo m).
Proof.
  intros HP. unfold streamMount. repeat emits_step; apply HP; reflexivity.
Qed.

Lemma emits_syncMounts P workspaceInfo mounts :
  (forall ev, isLogEvent ev || isTransfer ev = true -> P ev) ->
  emits P (syncMounts workspaceInfo mounts).
Proof.
  intros HP. induction mounts as [| m rest IH]; cbn [syncMounts].
  - apply emits_ret.
  - apply emits_bind.
    + destruct (CLIOptions.Reset _); repeat emits_step.
    + intros skip. destruct skip.
      * apply emits_bind; [apply emits_logf; apply HP; reflexivity | intros _; exact IH].
      * apply emits_try; [apply emits_streamMount; exact HP | intros _; exact IH].
Qed.

Lemma emits_streamMounts P cmd workspaceInfo setupInfo :
  (forall ev, isLogEvent ev = true -> P ev) ->
  (SetupContainerCmd.StreamMounts cmd = true ->
   forall ev, isTransfer ev = true -> P ev) ->
  emits P (streamMounts cmd workspaceInfo setupInfo).
Proof.
  intros Hlog Htransfer. unfold streamMounts.
  destruct (SetupContainerCmd.StreamMounts cmd) eqn:Hflag; [| apply emits_ret].
  apply emits_bind; [apply emits_logf; apply Hlog; reflexivity |].
  intros _. apply emits_syncMounts. intros ev Hev.
  apply orb_true_iff in Hev as [Hev | Hev]; [apply Hlog | apply Htransfer]; auto.
Qed.

Lemma emits_ignoreMounts_any P mounts args : emits P (ignoreMounts mounts args).
Proof.
  revert args. induction mounts as [| m mounts IH]; intros args; cbn [ignoreMounts].
  - apply emits_ret.
  - apply emits_bind; [apply emits_read |]. intros files.
    destruct (targetNotEmpty files); apply IH.
Qed.

Lemma emits_dockerlessBuild P setupInfo dockerlessOptions debug :
  (forall ev, isBuildEvent ev = true -> P ev) ->
  emits P (dockerlessBuild setupInfo dockerlessOptions debug).
Proof.
  intros HP.
  unfold dockerlessBuild, findBuildInfo, withDockerCredentials, runDockerless,
    withDebugWriter, configureDockerCredentials.
  repeat first [apply emits_ignoreMounts_any | emits_step]; apply HP; reflexivity.
Qed.

Lemma emits_fillContainerEnv P setupInfo : emits P (fillContainerEnv setupInfo).
Proof. unfold fillContainerEnv. repeat emits_step. Qed.

Lemma emits_configureSystemGitCredentials P :
  (forall ev, isLogEvent ev || isGitSetup ev || isStartCredentialsServer ev = true -> P ev) ->
  emits P configureSystemGitCredentials.
Proof.
  intros HP. unfold configureSystemGitCredentials.
  repeat emits_step; apply HP; reflexivity.
Qed.

Lemma emits_unsetSystemGitCredentials P :
  (forall ev, isLogEvent ev || isGitSetup ev = true -> P ev) ->
  emits P unsetSystemGitCredentials.
Proof.
  intros HP. unfold unsetSystemGitCredentials.
  repeat emits_step; apply HP; reflexivity.
Qed.

(** The cleanup that [configureSystemGitCredentials] returns is the
    unset of the helper. *)
Lemma configureSystemGitCredentials_cleanup (st : State W) cleanupFunc st' :
  configureSystemGitCredentials st = (Ok cleanupFunc, st') ->
  cleanupFunc = unsetSystemGitCredentials.
Proof.
  unfold configureSystemGitCredentials, bind, try_, read, ret, wrapErr, effect, effect_.
  destruct (sys_CommandExists "git" (world st)); cbn [negb]; [| discriminate].
  destruct (sys_StartCredentialsServer (world st)) as [[port | err] w1];
    [| discriminate].
  cbn [world trace]. destruct (sys_Executable w1) as [path | err]; [| discriminate].
  cbn [world trace]. destruct (sys_Git _ _) as [[[] | err] w2]; [| discriminate].
  intros Hrun. injection Hrun as <- _. reflexivity.
Qed.

Lemma emits_cloneRepository P workspaceInfo setupInfo :
  (forall ev, isLogEvent ev = true -> P ev) ->
  (StrBool_Bool (WorkspaceInfo.PullFromInsideContainer workspaceInfo) = Ok true ->
   forall ev, isClone ev = true -> P ev) ->
  emits P (cloneRepository workspaceInfo setupInfo).
Proof.
  intros Hlog Hclone. unfold cloneRepository, CloneRepositoryForWorkspace.
  destruct (StrBool_Bool _) as [[|] |] eqn:Hpull; [| apply emits_ret..].
  repeat emits_step; [apply Hlog | apply Hclone]; reflexivity.
Qed.

Lemma emits_SetupContainer P cmd workspaceInfo setupInfo :
  (forall ev, isSetupContainer ev = true -> P ev) ->
  emits P (SetupContainer cmd workspaceInfo setupInfo).
Proof. intros HP. unfold SetupContainer. apply emits_effect. apply HP. reflexivity. Qed.

Lemma emits_installIDE P cmd setupInfo ide :
  (forall ev, isIDEEvent ev = true -> P ev) ->
  emits P (installIDE cmd setupInfo ide).
Proof.
  intros HP.
  unfold installIDE, setupVSCode, setupOpenVSCode, install, single_Single,
    vscodeAsync, openvscodeAsync.
  destruct (IDEConfig.Name ide); repeat emits_step; apply HP; reflexivity.
Qed.

Lemma emits_startDaemon P workspaceInfo :
  (forall ev, isIDEEvent ev = true -> P ev) ->
  emits P (startDaemon workspaceInfo).
Proof.
  intros HP. unfold startDaemon, single_Single, daemonCommand.
  repeat emits_step; apply HP; reflexivity.
Qed.

End StepFootprints.

(** ** The mount loop: whose streams, whose targets *)

Section MountsOfTheList.
Context {W : Type} `{Extern} `{Sys W}.

Lemma ofMounts_one m mounts ev : In m mounts -> ofMounts [m] ev -> ofMounts mounts ev.
Proof.
  intros Hin [Hstream Hextract]. split.
  - intros mount Hev. destruct (Hstream mount Hev) as (m' & [<- | []] & ->). eauto.
  - intros from target Hev.
    destruct (Hextract from target Hev) as (m' & [<- | []] & ->). eauto.
Qed.

Lemma ofMounts_more m mounts ev : ofMounts mounts ev -> ofMounts (m :: mounts) ev.
Proof.
  intros [Hstream Hextract]. split.
  - intros mount Hev. destruct (Hstream mount Hev) as (m' & Hin & ->).
    exists m'. split; [right; exact Hin | reflexivity].
  - intros from target Hev. destruct (Hextract from target Hev) as (m' & Hin & ->).
    exists m'. split; [right; exact Hin | reflexivity].
Qed.

Lemma streamMount_ofMounts workspaceInfo m :
  emits (ofMounts [m]) (streamMount workspaceInfo m).
Proof.
  unfold streamMount. repeat emits_step.
  all: split.
  all: try (intros mount Hev; first [discriminate Hev | injection Hev as <-]).
  all: try (intros from target Hev; first [discriminate Hev | injection Hev as <- <-]).
  all: exists m; split; [left; reflexivity | reflexivity].
Qed.

(** X3. Whatever the world answers, the loop over the mounts opens
    streams of mounts of the list only, and extracts into targets of
    mounts of the list only; so does the mount step of [Run], for the
    mounts of the setup result. *)
Theorem syncMounts_ofMounts
    (cmd : SetupContainerCmd.t) (workspaceInfo : WorkspaceInfo.t)
    (setupInfo : SetupInfo.t) (mounts : list Mount.t) (st : State W) :
  (exists evs,
     trace (after (syncMounts workspaceInfo mounts) st) = trace st ++ evs
     /\ Forall (ofMounts mounts) evs)
  /\ (exists evs,
        trace (after (streamMounts cmd workspaceInfo setupInfo) st) = trace st ++ evs
        /\ Forall (ofMounts (GetMounts setupInfo)) evs).
Proof.
  assert (Hloop : forall mounts, emits (ofMounts mounts) (syncMounts workspaceInfo mounts)).
  { clear mounts. intros mounts.
    induction mounts as [| m rest IH]; cbn [syncMounts]; [apply emits_ret |].
    apply emits_bind.
    - destruct (CLIOptions.Reset _); repeat emits_step.
    - intros skip. destruct skip.
      + apply emits_bind.
        * apply emits_logf. split; intros; discriminate.
        * intros _. eapply emits_weaken; [| exact IH].
          intros ev. apply ofMounts_more.
      + apply emits_try.
        * eapply emits_weaken; [| apply streamMount_ofMounts].
          intros ev. apply ofMounts_one. left. reflexivity.
        * intros _. eapply emits_weaken; [| exact IH].
          intros ev. apply ofMounts_more. }
  split; [exact (Hloop mounts st) |].
  assert (Hstep : emits (ofMounts (GetMounts setupInfo))
                    (streamMounts cmd workspaceInfo setupInfo)).
  { unfold streamMounts. destruct (SetupContainerCmd.StreamMounts cmd);
      [| apply emits_ret].
    apply emits_bind; [| intros _; apply Hloop].
    apply emits_logf. split; intros; discriminate. }
  exact (Hstep st).
Qed.

End MountsOfTheList.

(** ** The run: what the flags gate *)

Section Gates.
Context {W : Type} `{Extern} `{Sys W}.

Lemma ungated_build ev : isBuildEvent ev = true -> isUngated ev = true.
Proof. destruct ev; cbn; congruence. Qed.

Lemma ungated_ide ev : isIDEEvent ev = true -> isUngated ev = true.
Proof. destruct ev; cbn; congruence. Qed.

Lemma ungated_log ev : isLogEvent ev = true -> isUngated ev = true.
Proof. destruct ev; cbn; congruence. Qed.

Lemma ungated_setup ev : isSetupContainer ev = true -> isUngated ev = true.
Proof. destruct ev; cbn; congruence. Qed.

(** The run from the clone on. *)
Lemma emits_Run_CloneRepository P cmd workspaceInfo setupInfo :
  (forall ev, isUngated ev = true -> P ev) ->
  (StrBool_Bool (WorkspaceInfo.PullFromInsideContainer workspaceInfo) = Ok true ->
   forall ev, isClone ev = true -> P ev) ->
  emits P (Run_CloneRepository cmd workspaceInfo setupInfo).
Proof.
  intros Hfree Hclone.
  unfold Run_CloneRepository, Run_ContainerSetup, Run_InstallIDE, Run_StartDaemon,
    Run_ReportResult.
  apply emits_try.
  { apply emits_cloneRepository; [intros ev Hev; apply Hfree, ungated_log, Hev |].
    exact Hclone. }
  intros _. apply emits_bind.
  { apply emits_SetupContainer. intros ev Hev. apply Hfree, ungated_setup, Hev. }
  intros [[[] | err] setupInfo']; [| apply emits_ret].
  apply emits_try.
  { apply emits_installIDE. intros ev Hev. apply Hfree, ungated_ide, Hev. }
  intros _. apply emits_try.
  { apply emits_startDaemon. intros ev Hev. apply Hfree, ungated_ide, Hev. }
  intros _. repeat emits_step. apply Hfree. reflexivity.
Qed.

Lemma emits_Run_InjectGitCredentials P cmd workspaceInfo setupInfo :
  (forall ev, isUngated ev = true -> P ev) ->
  (SetupContainerCmd.InjectGitCredentials cmd = true ->
   forall ev, isGitSetup ev = true -> P ev) ->
  (StrBool_Bool (WorkspaceInfo.PullFromInsideContainer workspaceInfo) = Ok true ->
   forall ev, isClone ev = true -> P ev) ->
  emits P (Run_InjectGitCredentials cmd workspaceInfo setupInfo).
Proof.
  intros Hfree Hgit Hclone. unfold Run_InjectGitCredentials.
  pose proof (emits_Run_CloneRepository P cmd workspaceInfo setupInfo Hfree Hclone)
    as Hrest.
  destruct (SetupContainerCmd.InjectGitCredentials cmd) eqn:Hinject; [| exact Hrest].
  specialize (Hgit eq_refl).
  assert (Hgitlog : forall ev, isLogEvent ev || isGitSetup ev = true -> P ev).
  { intros ev Hev. apply orb_true_iff in Hev as [Hev | Hev];
      [apply Hfree, ungated_log, Hev | apply Hgit, Hev]. }
  apply emits_defer; [apply emits_effect_; apply Hfree; reflexivity |].
  apply emits_bind_res.
  - apply emits_configureSystemGitCredentials. intros ev Hev.
    apply orb_true_iff in Hev as [Hev | Hev]; [apply Hgitlog, Hev |].
    apply Hfree. destruct ev; cbn in *; congruence.
  - intros [cleanupFunc | err] (st & st' & Hrun).
    + apply configureSystemGitCredentials_cleanup in Hrun as ->.
      apply emits_defer; [apply emits_unsetSystemGitCredentials, Hgitlog | exact Hrest].
    + apply emits_bind; [apply emits_logf, Hfree; reflexivity | intros _; exact Hrest].
Qed.

(** X4. Whatever the world answers, a run transfers a mount (opens a
    stream, downloads, extracts) only if the flag of the mount streaming
    is set, touches the git configuration and the variable of the helper
    port only if the flag of the git credentials is set, and clones the
    repository only if the workspace it decoded is pulled from inside
    the container. *)
Theorem Run_gated (cmd : SetupContainerCmd.t) (st : State W) :
  exists evs,
    trace (after (Run cmd) st) = trace st ++ evs /\ Forall (gated cmd) evs.
Proof.
  assert (Hfree : forall ev, isUngated ev = true -> gated cmd ev).
  { intros ev Hev. unfold isUngated in Hev.
    apply andb_true_iff in Hev as [Hev Hclone].
    apply andb_true_iff in Hev as [Htransfer Hgit].
    apply negb_true_iff in Hclone, Htransfer, Hgit.
    repeat split; intros Hkind; congruence. }
  assert (Hrun : emits (gated cmd) (Run cmd)).
  { unfold Run, Run_Ping, Run_DecodeInputs.
    apply emits_try;
      [apply emits_wrapErr, emits_effect, Hfree; reflexivity | intros _].
    apply emits_bind; [apply emits_logf, Hfree; reflexivity | intros _].
    apply emits_try;
      [apply emits_wrapErr, emits_effect, Hfree; reflexivity | intros _].
    apply emits_bind; [apply emits_logf, Hfree; reflexivity | intros _].
    unfold try_ at 1, ret at 1.
    destruct (DecodeContainerWorkspaceInfo _) as [workspaceInfo | err] eqn:Hdecode;
      [| apply (emits_ret (gated cmd) (Err err))].
    apply emits_try; [apply emits_ret | intros decompressed].
    apply emits_try; [apply emits_ret | intros setupInfo].
    unfold Run_StreamMounts, Run_DockerlessBuild, Run_MergeEnv.
    apply emits_try.
    { apply emits_streamMounts; [intros ev Hev; apply Hfree, ungated_log, Hev |].
      intros Hflag ev Hev. repeat split; intros Hkind;
        [exact Hflag | destruct ev; discriminate | destruct ev; discriminate]. }
    intros _. apply emits_try.
    { apply emits_wrapErr, emits_dockerlessBuild.
      intros ev Hev. apply Hfree, ungated_build, Hev. }
    intros _. apply emits_bind; [apply emits_fillContainerEnv |].
    intros [[[] | err] setupInfo']; [| apply emits_ret].
    apply emits_Run_InjectGitCredentials; [exact Hfree | |].
    - intros Hflag ev Hev. repeat split; intros Hkind;
        [destruct ev; discriminate | exact Hflag | destruct ev; discriminate].
    - intros Hpull ev Hev. repeat split; intros Hkind;
        [destruct ev; discriminate | destruct ev; discriminate |].
      exists workspaceInfo. split; assumption. }
  exact (Hrun st).
Qed.

End Gates.

(** ** A property of the core events of a run, framed by the others *)

Section PostLaws.
Context {W : Type} `{Sys W}.
Variable P : Event -> Prop.
Variable Q : Result unit -> list Event -> Prop.

(** [Q] does not see the events of [P] around the others, and holds of
    an error with events of [P] only. *)
Hypothesis Q_framed :
  forall r pre evs suf, Forall P pre -> Forall P suf -> Q r evs -> Q r (pre ++ evs ++ suf).
Hypothesis Q_failed : forall err evs, Forall P evs -> Q (Err err) evs.

Lemma post_failed err : post Q (ret (W := W) (Err err)).
Proof.
  intros st. exists []. split.
  - unfold emitted, after, ret. cbn. symmetry. apply app_nil_r.
  - apply Q_failed. constructor.
Qed.

Lemma post_bind_res {A} (m : Act W A) (k : A -> Act W (Result unit)) :
  emits P m ->
  (forall a, (exists st st', m st = (a, st')) -> post Q (k a)) ->
  post Q (bind m k).
Proof.
  intros Hm Hk st. destruct (Hm st) as (evs1 & Htr1 & HP1).
  unfold emitted, after, result in *. unfold bind.
  destruct (m st) as [a st1] eqn:Hrun. cbn [snd] in Htr1.
  destruct (Hk a (ex_intro _ st (ex_intro _ st1 Hrun)) st1) as (evs2 & Htr2 & HQ).
  unfold emitted, after, result in Htr2, HQ.
  exists (evs1 ++ evs2). split.
  - rewrite Htr2, Htr1. symmetry. apply app_assoc.
  - rewrite <- (app_nil_r evs2). apply Q_framed; [exact HP1 | constructor | exact HQ].
Qed.

Lemma post_bind {A} (m : Act W A) (k : A -> Act W (Result unit)) :
  emits P m -> (forall a, post Q (k a)) -> post Q (bind m k).
Proof. intros Hm Hk. apply post_bind_res; [exact Hm | intros a _; apply Hk]. Qed.

Lemma post_try {A} (m : Act W (Result A)) (k : A -> Act W (Result unit)) :
  emits P m -> (forall a, post Q (k a)) -> post Q (try_ m k).
Proof.
  intros Hm Hk st. destruct (Hm st) as (evs1 & Htr1 & HP1).
  unfold emitted, after, result in *. unfold try_.
  destruct (m st) as [[a | err] st1]; cbn [snd] in Htr1.
  - destruct (Hk a st1) as (evs2 & Htr2 & HQ).
    unfold emitted, after, result in Htr2, HQ.
    exists (evs1 ++ evs2). split.
    + rewrite Htr2, Htr1. symmetry. apply app_assoc.
    + rewrite <- (app_nil_r evs2). apply Q_framed; [exact HP1 | constructor | exact HQ].
  - exists evs1. split; [exact Htr1 |]. cbn [fst]. apply Q_failed. exact HP1.
Qed.

Lemma post_defer (cleanup : Act W unit) (body : Act W (Result unit)) :
  emits P cleanup -> post Q body -> post Q (defer cleanup body).
Proof.
  intros Hc Hb st. destruct (Hb st) as (evs1 & Htr1 & HQ).
  unfold emitted, after, result in *. unfold defer.
  destruct (body st) as [r st1]. cbn [fst snd] in *.
  destruct (Hc st1) as (evs2 & Htr2 & HP2). unfold emitted, after in Htr2.
  destruct (cleanup st1) as [u st2]. cbn [fst snd] in *.
  exists (evs1 ++ evs2). split.
  - rewrite Htr2, Htr1. symmetry. apply app_assoc.
  - change (evs1 ++ evs2) with ([] ++ evs1 ++ evs2).
    apply Q_framed; [constructor | exact HP2 | exact HQ].
Qed.

End PostLaws.

Lemma countEvents_app p evs1 evs2 :
  countEvents p (evs1 ++ evs2) = (countEvents p evs1 + countEvents p evs2)%nat.
Proof. unfold countEvents. rewrite List.filter_app. apply length_app. Qed.

Lemma countEvents_none p evs :
  Forall (fun ev => p ev = false) evs -> countEvents p evs = 0%nat.
Proof.
  unfold countEvents. induction 1 as [| ev evs Hev _ IH]; [reflexivity |].
  cbn [List.filter]. rewrite Hev. exact IH.
Qed.

Lemma countEvents_framed p pre evs suf :
  Forall (fun ev => p ev = false) pre ->
  Forall (fun ev => p ev = false) suf ->
  countEvents p (pre ++ evs ++ suf) = countEvents p evs.
Proof.
  intros Hpre Hsuf. rewrite !countEvents_app.
  rewrite (countEvents_none p pre Hpre), (countEvents_none p suf Hsuf). lia.
Qed.

(** ** The run: the report of the result *)

Section Report.
Context {W : Type} `{Extern} `{Sys W}.

Local Abbreviation quiet := (fun ev : Event => isSendResult ev = false).

Lemma reported_framed r pre evs suf :
  Forall quiet pre -> Forall quiet suf -> reported r evs -> reported r (pre ++ evs ++ suf).
Proof.
  intros Hpre Hsuf. unfold reported.
  rewrite (countEvents_framed isSendResult pre evs suf Hpre Hsuf). trivial.
Qed.

Lemma reported_failed err evs : Forall quiet evs -> reported (Err err) evs.
Proof.
  intros Hevs. unfold reported. rewrite (countEvents_none _ _ Hevs).
  repeat split; [lia | discriminate | discriminate].
Qed.

Lemma post_Run_ReportResult setupInfo : post reported (Run_ReportResult setupInfo).
Proof.
  intros st. unfold Run_ReportResult, emitted, after, result, try_, wrapErr, ret, nil_.
  destruct (Marshal_SetupInfo setupInfo) as [out | err].
  - unfold effect. destruct (sys_SendResult out (world st)) as [[[] | err] w];
      cbn [fst snd trace]; exists [ESendResult out];
      (split; [reflexivity |]); unfold reported; cbn;
      repeat split; try lia; try discriminate; eauto.
  - exists []. cbn [fst snd]. split; [symmetry; apply app_nil_r |].
    apply reported_failed. constructor.
Qed.

Ltac quiet_kinds := intros ev Hev; destruct ev; cbn in *; congruence.

Lemma post_Run_CloneRepository cmd workspaceInfo setupInfo :
  post reported (Run_CloneRepository cmd workspaceInfo setupInfo).
Proof.
  unfold Run_CloneRepository, Run_ContainerSetup, Run_InstallIDE, Run_StartDaemon.
  apply (post_try quiet reported reported_framed reported_failed).
  { apply emits_cloneRepository; [quiet_kinds | intros _; quiet_kinds]. }
  intros _. apply (post_bind quiet reported reported_framed).
  { apply emits_SetupContainer. quiet_kinds. }
  intros [[[] | err] setupInfo'];
    [| apply (post_failed quiet reported reported_failed)].
  apply (post_try quiet reported reported_framed reported_failed).
  { apply emits_installIDE. quiet_kinds. }
  intros _. apply (post_try quiet reported reported_framed reported_failed).
  { apply emits_startDaemon. quiet_kinds. }
  intros _. apply post_Run_ReportResult.
Qed.

(** X5. Whatever the world answers, a run sends the result at most
    once; when it returns [nil] it has sent the result, once; and when
    the result was sent, the run returns [nil] or the error of the send
    itself: no step that fails is followed by a report. *)
Theorem Run_reported (cmd : SetupContainerCmd.t) (st : State W) :
  exists evs,
    trace (after (Run cmd) st) = trace st ++ evs
    /\ (countEvents isSendResult evs <= 1)%nat
    /\ (result (Run cmd) st = Ok tt -> countEvents isSendResult evs = 1%nat)
    /\ (countEvents isSendResult evs = 1%nat ->
        result (Run cmd) st = Ok tt
        \/ exists err, result (Run cmd) st = Err (errWrap "send result" err)).
Proof.
  assert (Hrun : post reported (Run cmd)).
  { unfold Run, Run_Ping, Run_DecodeInputs, Run_StreamMounts, Run_DockerlessBuild,
      Run_MergeEnv.
    apply (post_try quiet reported reported_framed reported_failed);
      [apply emits_wrapErr, emits_effect; reflexivity | intros _].
    apply (post_bind quiet reported reported_framed);
      [apply emits_logf; reflexivity | intros _].
    apply (post_try quiet reported reported_framed reported_failed);
      [apply emits_wrapErr, emits_effect; reflexivity | intros _].
    apply (post_bind quiet reported reported_framed);
      [apply emits_logf; reflexivity | intros _].
    apply (post_try quiet reported reported_framed reported_failed);
      [apply emits_ret | intros workspaceInfo].
    apply (post_try quiet reported reported_framed reported_failed);
      [apply emits_ret | intros decompressed].
    apply (post_try quiet reported reported_framed reported_failed);
      [apply emits_ret | intros setupInfo].
    apply (post_try quiet reported reported_framed reported_failed).
    { apply emits_streamMounts; [quiet_kinds | intros _; quiet_kinds]. }
    intros _. apply (post_try quiet reported reported_framed reported_failed).
    { apply emits_wrapErr, emits_dockerlessBuild. quiet_kinds. }
    intros _. apply (post_bind quiet reported reported_framed).
    { apply emits_fillContainerEnv. }
    intros [[[] | err] setupInfo'];
      [| apply (post_failed quiet reported reported_failed)].
    unfold Run_InjectGitCredentials.
    destruct (SetupContainerCmd.InjectGitCredentials cmd);
      [| apply post_Run_CloneRepository].
    apply (post_defer quiet reported reported_framed);
      [apply emits_effect_; reflexivity |].
    apply (post_bind_res quiet reported reported_framed).
    { apply emits_configureSystemGitCredentials. quiet_kinds. }
    intros [cleanupFunc | err] (st0 & st1 & Hconf).
    - apply configureSystemGitCredentials_cleanup in Hconf as ->.
      apply (post_defer quiet reported reported_framed);
        [apply emits_unsetSystemGitCredentials; quiet_kinds |].
      apply post_Run_CloneRepository.
    - apply (post_bind quiet reported reported_framed);
        [apply emits_logf; reflexivity | intros _; apply post_Run_CloneRepository]. }
  destruct (Hrun st) as (evs & Htrace & Hcount & Hok & Hsent).
  exists evs. repeat split; assumption.
Qed.

End Report.

(** ** The git credentials *)

Section GitCredentials.
Context {W : Type} `{Extern} `{Sys W}.

(** X6. [configureSystemGitCredentials] fails with "git not found",
    and does nothing, when git is not installed.  When it succeeds, it
    has started the credentials server, set DEVPOD_GIT_HELPER_PORT to
    the port that the server returned and added to the system
    configuration of git the helper that calls the executable of the
    agent, as the system gave it after the start of the server, with
    that port, in that order, and the cleanup it returns is the unset of
    that helper.  When it fails
    after the server was started, nothing was configured, unless the
    failure is that of the git command, which is returned as "add git
    credential helper". *)
Theorem configureSystemGitCredentials_outcomes (st : State W) :
  let helper binaryPath port :=
    "!'" +:+ binaryPath +:+ "' agent git-credentials --port " +:+ Itoa port in
  let configured binaryPath port :=
    [EStartCredentialsServer;
     ESetenv "DEVPOD_GIT_HELPER_PORT" (Itoa port);
     EGit ["config"; "--system"; "--add"; "credential.helper"; helper binaryPath port]] in
  (sys_CommandExists "git" (world st) = false ->
   configureSystemGitCredentials st = (Err (errNew "git not found"), st))
  /\ (forall cleanupFunc st',
        configureSystemGitCredentials st = (Ok cleanupFunc, st') ->
        cleanupFunc = unsetSystemGitCredentials
        /\ exists binaryPath port w1,
             sys_StartCredentialsServer (world st) = (Ok port, w1)
             /\ sys_Executable w1 = Ok binaryPath
             /\ trace st' = trace st ++ configured binaryPath port)
  /\ (forall err st',
        configureSystemGitCredentials st = (Err err, st') ->
        (err = errNew "git not found" /\ st' = st)
        \/ trace st' = trace st ++ [EStartCredentialsServer]
        \/ exists binaryPath port w1 cause,
             sys_StartCredentialsServer (world st) = (Ok port, w1)
             /\ sys_Executable w1 = Ok binaryPath
             /\ err = errWrap "add git credential helper" cause
             /\ trace st' = trace st ++ configured binaryPath port).
Proof.
  intros helper configured. split; [| split].
  - intros Hgit. unfold configureSystemGitCredentials, bind, read. rewrite Hgit.
    reflexivity.
  - intros cleanupFunc st' Hrun.
    split; [exact (configureSystemGitCredentials_cleanup st cleanupFunc st' Hrun) |].
    revert Hrun.
    unfold configureSystemGitCredentials, bind, try_, read, ret, wrapErr, effect, effect_.
    destruct (sys_CommandExists "git" (world st)); cbn [negb]; [| discriminate].
    destruct (sys_StartCredentialsServer (world st)) as [[port | err] w1];
      [| discriminate].
    cbn [world trace].
    destruct (sys_Executable w1) as [path | err] eqn:Hself; [| discriminate].
    cbn [world trace]. destruct (sys_Git _ _) as [[[] | err] w2]; [| discriminate].
    intros Hrun. injection Hrun as _ <-. exists path, port, w1. cbn [trace].
    split; [reflexivity |]. split; [exact Hself |].
    rewrite <- ?app_assoc. reflexivity.
  - intros err st'.
    unfold configureSystemGitCredentials, bind, try_, read, ret, wrapErr, effect, effect_.
    destruct (sys_CommandExists "git" (world st)); cbn [negb].
    2: { intros Hrun. injection Hrun as <- <-. left. split; reflexivity. }
    destruct (sys_StartCredentialsServer (world st)) as [[port | err0] w1].
    2: { intros Hrun. injection Hrun as _ <-. right. left. reflexivity. }
    cbn [world trace]. destruct (sys_Executable w1) as [path | err0] eqn:Hself.
    2: { intros Hrun. injection Hrun as _ <-. right. left. reflexivity. }
    cbn [world trace]. destruct (sys_Git _ _) as [[[] | err0] w2]; [discriminate |].
    intros Hrun. injection Hrun as <- <-. right. right.
    exists path, port, w1, err0. split; [reflexivity |]. split; [exact Hself |].
    split; [reflexivity |]. cbn [trace].
    rewrite <- ?app_assoc. reflexivity.
Qed.


End GitCredentials.

(** A container with git: the credentials are configured. *)
Lemma configureSystemGitCredentials_outcomes_witness :
  let st := Demo.start (Fixtures.withGit Demo.nothingFails) in
  let bare := Demo.start (Demo.fresh Demo.nothingFails) in
  let configured :=
    mkState (world st)
      [EStartCredentialsServer;
       ESetenv "DEVPOD_GIT_HELPER_PORT" "12049";
       EGit ["config"; "--system"; "--add"; "credential.helper";
             "!'/usr/local/bin/devpod' agent git-credentials --port 12049"]] in
  @sys_CommandExists _ Demo.sys "git" (world bare) = false
  /\ @configureSystemGitCredentials _ Demo.sys bare = (Err (errNew "git not found"), bare)
  /\ @configureSystemGitCredentials _ Demo.sys st
     = (Ok (@unsetSystemGitCredentials _ Demo.sys), configured)
  /\ exists binaryPath port w1,
       @sys_StartCredentialsServer _ Demo.sys (world st) = (Ok port, w1)
       /\ @sys_Executable _ Demo.sys w1 = Ok binaryPath
       /\ trace configured
          = [EStartCredentialsServer;
             ESetenv "DEVPOD_GIT_HELPER_PORT" (Itoa port);
             EGit ["config"; "--system"; "--add"; "credential.helper";
                   "!'" +:+ binaryPath +:+ "' agent git-credentials --port "
                   +:+ Itoa port]].
Proof.
  intros st bare configured.
  assert (Hrun : @configureSystemGitCredentials _ Demo.sys st
                 = (Ok (@unsetSystemGitCredentials _ Demo.sys), configured))
    by reflexivity.
  split; [reflexivity |]. split; [| split; [exact Hrun |]].
  - exact (proj1 (@configureSystemGitCredentials_outcomes _ Demo.sys bare) eq_refl).
  - exact (proj2 (proj1 (proj2 (@configureSystemGitCredentials_outcomes _ Demo.sys st))
                    _ _ Hrun)).
Defined.


(** ** The resources of the dockerless build *)

Section Weights.
Context {W : Type} `{Sys W}.
Variable w : Event -> Z.

Lemma weigh_app evs1 evs2 : weigh w (evs1 ++ evs2) = weigh w evs1 + weigh w evs2.
Proof.
  unfold weigh. induction evs1 as [| ev evs1 IH]; cbn [app map fold_right]; lia.
Qed.

Lemma weight_ret {A} (a : A) n : n = 0 -> emitsWeight w n (ret (W := W) a).
Proof.
  intros -> st. exists []. split; [| reflexivity].
  unfold emitted, after, ret. cbn. symmetry. apply app_nil_r.
Qed.

Lemma weight_read {A} (f : W -> A) n : n = 0 -> emitsWeight w n (read f).
Proof.
  intros -> st. exists []. split; [| reflexivity].
  unfold emitted, after, read. cbn. symmetry. apply app_nil_r.
Qed.

Lemma weight_effect {A} ev (op : W -> A * W) n : n = w ev -> emitsWeight w n (effect ev op).
Proof.
  intros -> st. exists [ev]. split; [| unfold weigh; cbn; lia].
  unfold emitted, after, effect. destruct (op (world st)). reflexivity.
Qed.

Lemma weight_effect_ ev (op : W -> W) n : n = w ev -> emitsWeight w n (effect_ ev op).
Proof. intros -> st. exists [ev]. split; [reflexivity | unfold weigh; cbn; lia]. Qed.

Lemma weight_bind {A B} (m : Act W A) (k : A -> Act W B) n1 n2 n :
  emitsWeight w n1 m -> (forall a, emitsWeight w n2 (k a)) -> n = n1 + n2 ->
  emitsWeight w n (bind m k).
Proof.
  intros Hm Hk -> st. destruct (Hm st) as (evs1 & Htr1 & Hw1).
  unfold emitted, after in *. unfold bind.
  destruct (m st) as [a st1]. cbn [snd] in Htr1.
  destruct (Hk a st1) as (evs2 & Htr2 & Hw2). unfold emitted, after in Htr2.
  exists (evs1 ++ evs2). split; [| rewrite weigh_app; lia].
  rewrite Htr2, Htr1. symmetry. apply app_assoc.
Qed.

Lemma weight_try {A B} (m : Act W (Result A)) (k : A -> Act W (Result B)) n1 n :
  emitsWeight w n1 m -> (forall a, emitsWeight w 0 (k a)) -> n = n1 ->
  emitsWeight w n (try_ m k).
Proof.
  intros Hm Hk -> st. destruct (Hm st) as (evs1 & Htr1 & Hw1).
  unfold emitted, after in *. unfold try_.
  destruct (m st) as [[a | err] st1]; cbn [snd] in Htr1.
  - destruct (Hk a st1) as (evs2 & Htr2 & Hw2). unfold emitted, after in Htr2.
    exists (evs1 ++ evs2). split; [| rewrite weigh_app; lia].
    rewrite Htr2, Htr1. symmetry. apply app_assoc.
  - exists evs1. split; assumption.
Qed.

Lemma weight_wrapErr {A} msg (m : Act W (Result A)) n :
  emitsWeight w n m -> emitsWeight w n (wrapErr msg m).
Proof.
  intros Hm st. destruct (Hm st) as (evs & Htr & Hw).
  exists evs. split; [| exact Hw].
  unfold emitted, after, wrapErr in *. destruct (m st) as [[a | err] st1]; exact Htr.
Qed.

Lemma weight_defer {A} (cleanup : Act W unit) (body : Act W A) nb nc n :
  emitsWeight w nc cleanup -> emitsWeight w nb body -> n = nb + nc ->
  emitsWeight w n (defer cleanup body).
Proof.
  intros Hc Hb -> st. destruct (Hb st) as (evs1 & Htr1 & Hw1).
  unfold emitted, after in *. unfold defer.
  destruct (body st) as [a st1]. cbn [snd] in Htr1.
  destruct (Hc st1) as (evs2 & Htr2 & Hw2). unfold emitted, after in Htr2.
  destruct (cleanup st1) as [u st2]. cbn [snd] in *.
  exists (evs1 ++ evs2). split; [| rewrite weigh_app; lia].
  rewrite Htr2, Htr1. symmetry. apply app_assoc.
Qed.

End Weights.

Lemma weigh_balance opens closes evs :
  weigh (balance opens closes) evs
  = Z.of_nat (countEvents opens evs) - Z.of_nat (countEvents closes evs).
Proof.
  unfold weigh, countEvents, balance.
  induction evs as [| ev evs IH]; cbn [map fold_right List.filter]; [reflexivity |].
  destruct (opens ev), (closes ev); cbn [length]; lia.
Qed.

Section DockerlessResources.
Context {W : Type} `{Extern} `{Sys W}.

Lemma weight_ignoreMounts (w : Event -> Z) mounts args :
  emitsWeight w 0 (ignoreMounts mounts args).
Proof.
  revert args. induction mounts as [| m mounts IH]; intros args; cbn [ignoreMounts].
  - apply weight_ret. reflexivity.
  - eapply weight_bind; [apply weight_read; reflexivity | | reflexivity].
    intros files. destruct (targetNotEmpty files); apply IH.
Qed.

Lemma weight_dockerlessBuild (w : Event -> Z) setupInfo dockerlessOptions debug :
  (forall ev, isWriter InfoLevel ev || isWriterClose InfoLevel ev
              || isWriter DebugLevel ev || isWriterClose DebugLevel ev
              || isStartCredentialsServer ev || isCancel ev = false -> w ev = 0) ->
  w (EWriter InfoLevel) + w (EWriterClose InfoLevel) = 0 ->
  w (EWriter DebugLevel) + w (EWriterClose DebugLevel) = 0 ->
  w EStartCredentialsServer + w ECancel = 0 ->
  emitsWeight w 0 (dockerlessBuild setupInfo dockerlessOptions debug).
Proof.
  intros Hother Hinfo Hdebug Hsession.
  assert (Hbuild : forall binaryPath fallbackDir buildInfoDir,
            emitsWeight w 0
              (runDockerless setupInfo dockerlessOptions debug binaryPath fallbackDir
                 buildInfoDir)).
  { intros binaryPath fallbackDir buildInfoDir. unfold runDockerless.
    eapply weight_bind with (n1 := 0) (n2 := 0); [| intros args | reflexivity].
    { destruct (negb _); [| apply weight_ret; reflexivity].
      eapply weight_bind with (n1 := 0) (n2 := 0);
        [apply weight_effect_; symmetry; apply Hother; reflexivity
        | intros _; apply weight_ret; reflexivity | reflexivity]. }
    eapply weight_bind with (n1 := 0) (n2 := 0);
      [apply weight_ignoreMounts | intros args' | reflexivity].
    eapply weight_bind with (n1 := w (EWriter InfoLevel))
                            (n2 := w (EWriterClose InfoLevel));
      [apply weight_effect_; reflexivity | intros _ | lia].
    eapply weight_defer with (nb := 0) (nc := w (EWriterClose InfoLevel));
      [apply weight_effect_; reflexivity | | lia].
    eapply weight_bind with (n1 := 0) (n2 := 0);
      [apply weight_effect_; symmetry; apply Hother; reflexivity | intros _
      | reflexivity].
    assert (Hrun : forall stdout,
              emitsWeight w 0
                (bind (read sys_Environ) (fun environ =>
                   let cmd := {| Cmd.Path := "/.dockerless/dockerless";
                                 Cmd.Args := args';
                                 Cmd.Env := Some environ;
                                 Cmd.Stdout := stdout;
                                 Cmd.Stderr := Some InfoLevel |} in
                   try_ (effect (EExec cmd) (sys_Exec cmd)) (fun _ =>
                   try_ (read (sys_ReadFile DockerlessImageConfigOutput))
                     (fun rawConfig =>
                   try_ (wrapErr "parse container config"
                           (ret (Unmarshal_ConfigFile rawConfig))) (fun configFile =>
                   bind (effect_ (EMergeAndApply (ListToObject (ConfigFile.Env configFile)))
                           (sys_MergeAndApply
                              (ListToObject (ConfigFile.Env configFile)))) (fun _ =>
                   bind (effect_ (ERemoveAll fallbackDir) (sys_RemoveAll fallbackDir))
                     (fun _ =>
                   bind (effect (ERenameDirectory buildInfoDir fallbackDir)
                           (sys_RenameDirectory buildInfoDir fallbackDir))
                     (fun renamed =>
                        match renamed with
                        | Err err =>
                            bind (logf DebugLevel "Error renaming dir %s: %v"
                                    [LStr buildInfoDir; LErr err]) (fun _ => nil_)
                        | Ok _ => nil_
                        end))))))))).
    { intros stdout.
      eapply weight_bind with (n1 := 0) (n2 := 0);
        [apply weight_read; reflexivity | intros environ | reflexivity].
      cbv zeta.
      eapply weight_try with (n1 := 0);
        [apply weight_effect; symmetry; apply Hother; reflexivity | intros _
        | reflexivity].
      eapply weight_try with (n1 := 0);
        [apply weight_read; reflexivity | intros rawConfig | reflexivity].
      eapply weight_try with (n1 := 0);
        [apply weight_wrapErr, weight_ret; reflexivity | intros configFile
        | reflexivity].
      eapply weight_bind with (n1 := 0) (n2 := 0);
        [apply weight_effect_; symmetry; apply Hother; reflexivity | intros _
        | reflexivity].
      eapply weight_bind with (n1 := 0) (n2 := 0);
        [apply weight_effect_; symmetry; apply Hother; reflexivity | intros _
        | reflexivity].
      eapply weight_bind with (n1 := 0) (n2 := 0);
        [apply weight_effect; symmetry; apply Hother; reflexivity | intros renamed
        | reflexivity].
      destruct renamed; [apply weight_ret; reflexivity |].
      eapply weight_bind with (n1 := 0) (n2 := 0);
        [apply weight_effect_; symmetry; apply Hother; reflexivity
        | intros _; apply weight_ret; reflexivity | reflexivity]. }
    unfold withDebugWriter. destruct debug; [| apply Hrun].
    eapply weight_bind with (n1 := w (EWriter DebugLevel))
                            (n2 := w (EWriterClose DebugLevel));
      [apply weight_effect_; reflexivity | intros _ | lia].
    eapply weight_defer with (nb := 0) (nc := w (EWriterClose DebugLevel));
      [apply weight_effect_; reflexivity | apply Hrun | lia]. }
  assert (Hcredentials : forall build,
            emitsWeight w 0 build ->
            emitsWeight w 0 (withDockerCredentials dockerlessOptions build)).
  { intros build Hb. unfold withDockerCredentials.
    destruct (negb _); [| exact Hb].
    eapply weight_defer with (nb := w EStartCredentialsServer) (nc := w ECancel);
      [apply weight_effect_; reflexivity | | lia].
    eapply weight_bind with (n1 := w EStartCredentialsServer) (n2 := 0);
      [| intros dir | lia].
    { unfold configureDockerCredentials.
      eapply weight_try with (n1 := w EStartCredentialsServer);
        [apply weight_effect; reflexivity | intros port | reflexivity].
      eapply weight_try with (n1 := 0);
        [apply weight_effect; symmetry; apply Hother; reflexivity
        | intros dir; apply weight_ret; reflexivity | reflexivity]. }
    destruct dir as [dir | err].
    - eapply weight_defer with (nb := 0) (nc := 0); [| exact Hb | reflexivity].
      eapply weight_bind with (n1 := 0) (n2 := 0);
        [apply weight_effect_; symmetry; apply Hother; reflexivity
        | intros _; apply weight_effect_; symmetry; apply Hother; reflexivity
        | reflexivity].
    - eapply weight_bind with (n1 := 0) (n2 := 0);
        [apply weight_effect_; symmetry; apply Hother; reflexivity
        | intros _; exact Hb | reflexivity]. }
  unfold dockerlessBuild.
  eapply weight_bind with (n1 := 0) (n2 := 0);
    [apply weight_read; reflexivity | intros dockerless | reflexivity].
  destruct (negb _); [apply weight_ret; reflexivity |].
  eapply weight_bind with (n1 := 0) (n2 := 0);
    [apply weight_read; reflexivity | intros built | reflexivity].
  destruct built as [[] | err0].
  { eapply weight_bind with (n1 := 0) (n2 := 0);
      [apply weight_effect_; symmetry; apply Hother; reflexivity
      | intros _; apply weight_ret; reflexivity | reflexivity]. }
  eapply weight_bind with (n1 := 0) (n2 := 0);
    [apply weight_read; reflexivity | intros buildContext | reflexivity].
  destruct (String.eqb buildContext "").
  { eapply weight_bind with (n1 := 0) (n2 := 0);
      [apply weight_effect_; symmetry; apply Hother; reflexivity
      | intros _; apply weight_ret; reflexivity | reflexivity]. }
  cbv zeta.
  eapply weight_try with (n1 := 0); [| intros _ | reflexivity].
  { unfold findBuildInfo.
    eapply weight_bind with (n1 := 0) (n2 := 0);
      [apply weight_read; reflexivity | intros found | reflexivity].
    destruct found; [apply weight_ret; reflexivity |].
    eapply weight_try with (n1 := 0);
      [apply weight_wrapErr, weight_effect; symmetry; apply Hother; reflexivity
      | intros _; apply weight_wrapErr, weight_read; reflexivity | reflexivity]. }
  eapply weight_try with (n1 := 0);
    [apply weight_read; reflexivity | intros binaryPath | reflexivity].
  apply Hcredentials, Hbuild.
Qed.

(** X8. Whatever the world answers and however the build ends,
    [dockerlessBuild] has closed every writer of the logger that it
    opened, at each level, and has cancelled the context of every
    credentials server that it started. *)
Theorem dockerlessBuild_releases
    (setupInfo : SetupInfo.t) (dockerlessOptions : Dockerless.t) (debug : bool)
    (st : State W) :
  exists evs,
    trace (after (dockerlessBuild setupInfo dockerlessOptions debug) st) = trace st ++ evs
    /\ countEvents (isWriter InfoLevel) evs = countEvents (isWriterClose InfoLevel) evs
    /\ countEvents (isWriter DebugLevel) evs = countEvents (isWriterClose DebugLevel) evs
    /\ countEvents isStartCredentialsServer evs = countEvents isCancel evs.
Proof.
  pose (build := dockerlessBuild setupInfo dockerlessOptions debug).
  assert (Hinfo : emitsWeight (balance (isWriter InfoLevel) (isWriterClose InfoLevel)) 0
                    build).
  { apply weight_dockerlessBuild; [| reflexivity..].
    intros ev Hev. destruct ev; try reflexivity;
      match goal with l : Level |- _ => destruct l end;
      cbn in *; first [reflexivity | congruence]. }
  assert (Hdebug : emitsWeight (balance (isWriter DebugLevel) (isWriterClose DebugLevel)) 0
                     build).
  { apply weight_dockerlessBuild; [| reflexivity..].
    intros ev Hev. destruct ev; try reflexivity;
      match goal with l : Level |- _ => destruct l end;
      cbn in *; first [reflexivity | congruence]. }
  assert (Hsession : emitsWeight (balance isStartCredentialsServer isCancel) 0 build).
  { apply weight_dockerlessBuild; [| reflexivity..].
    intros ev Hev. destruct ev; try reflexivity; cbn in *;
      rewrite ?orb_true_r in Hev; congruence. }
  destruct (Hinfo st) as (evs & Htrace & Hw1).
  destruct (Hdebug st) as (evs2 & Htrace2 & Hw2).
  destruct (Hsession st) as (evs3 & Htrace3 & Hw3).
  unfold emitted in *. fold build.
  assert (evs2 = evs) as -> by (eapply app_inv_head; rewrite <- Htrace2; exact Htrace).
  assert (evs3 = evs) as -> by (eapply app_inv_head; rewrite <- Htrace3; exact Htrace).
  exists evs. rewrite weigh_balance in Hw1, Hw2, Hw3.
  repeat split; [exact Htrace | lia..].
Qed.

End DockerlessResources.

(** ** The dockerless build: the environment of the image *)

Section DockerlessApplied.
Context {W : Type} `{Extern} `{Sys W}.

Local Abbreviation idle := (fun ev : Event => isExec ev || isMergeAndApply ev = false).

Lemma idle_counts evs :
  Forall idle evs ->
  countEvents isExec evs = 0%nat /\ countEvents isMergeAndApply evs = 0%nat.
Proof.
  intros Hevs. split; apply countEvents_none; eapply Forall_impl; try exact Hevs;
    intros ev Hev; apply orb_false_iff in Hev as [Hexec Hmerge]; assumption.
Qed.

Lemma applied_framed r pre evs suf :
  Forall idle pre -> Forall idle suf -> applied r evs -> applied r (pre ++ evs ++ suf).
Proof.
  intros Hpre Hsuf. unfold applied.
  destruct (idle_counts pre Hpre) as [Hpre1 Hpre2].
  destruct (idle_counts suf Hsuf) as [Hsuf1 Hsuf2].
  rewrite !countEvents_app, Hpre1, Hpre2, Hsuf1, Hsuf2, !Nat.add_0_r. trivial.
Qed.

Lemma applied_idle r evs : Forall idle evs -> applied r evs.
Proof.
  intros Hevs. unfold applied. destruct (idle_counts evs Hevs) as [-> ->].
  repeat split; [lia | lia | discriminate].
Qed.

Lemma applied_failed err evs : Forall idle evs -> applied (Err err) evs.
Proof. apply applied_idle. Qed.

Lemma post_applied_idle (m : Act W (Result unit)) : emits idle m -> post applied m.
Proof.
  intros Hm st. destruct (Hm st) as (evs & Htrace & Hall).
  exists evs. split; [exact Htrace | apply applied_idle; exact Hall].
Qed.

(** The run of the builder and what follows it (lines 411-440). *)
Lemma post_exec cmd fallbackDir buildInfoDir :
  post applied
    (try_ (effect (EExec cmd) (sys_Exec cmd)) (fun _ =>
     try_ (read (sys_ReadFile DockerlessImageConfigOutput)) (fun rawConfig =>
     try_ (wrapErr "parse container config" (ret (Unmarshal_ConfigFile rawConfig)))
       (fun configFile =>
     bind (effect_ (EMergeAndApply (ListToObject (ConfigFile.Env configFile)))
             (sys_MergeAndApply (ListToObject (ConfigFile.Env configFile)))) (fun _ =>
     bind (effect_ (ERemoveAll fallbackDir) (sys_RemoveAll fallbackDir)) (fun _ =>
     bind (effect (ERenameDirectory buildInfoDir fallbackDir)
             (sys_RenameDirectory buildInfoDir fallbackDir)) (fun renamed =>
       match renamed with
       | Err err =>
           bind (logf DebugLevel "Error renaming dir %s: %v"
                   [LStr buildInfoDir; LErr err]) (fun _ => nil_)
       | Ok _ => nil_
       end))))))).
Proof.
  intros st.
  unfold emitted, after, result, try_, bind, read, wrapErr, ret, effect, effect_, logf,
    nil_.
  destruct (sys_Exec cmd (world st)) as [[[] | err] w1]; cbn [world trace fst snd].
  2: { exists [EExec cmd]. split; [reflexivity |].
       unfold applied, countEvents. cbn. repeat split; [lia | lia | discriminate]. }
  destruct (sys_ReadFile DockerlessImageConfigOutput w1) as [rawConfig | err];
    cbn [world trace fst snd].
  2: { exists [EExec cmd]. split; [reflexivity |].
       unfold applied, countEvents. cbn. repeat split; [lia | lia | discriminate]. }
  destruct (Unmarshal_ConfigFile rawConfig) as [configFile | err];
    cbn [world trace fst snd].
  2: { exists [EExec cmd]. split; [reflexivity |].
       unfold applied, countEvents. cbn. repeat split; [lia | lia | discriminate]. }
  destruct (sys_RenameDirectory _ _ _) as [[[] | err] w2];
    unfold effect_, ret; cbn [world trace fst snd].
  - exists [EExec cmd; EMergeAndApply (ListToObject (ConfigFile.Env configFile));
            ERemoveAll fallbackDir; ERenameDirectory buildInfoDir fallbackDir].
    split; [rewrite <- ?app_assoc; reflexivity |].
    unfold applied, countEvents. cbn. repeat split; lia.
  - exists [EExec cmd; EMergeAndApply (ListToObject (ConfigFile.Env configFile));
            ERemoveAll fallbackDir; ERenameDirectory buildInfoDir fallbackDir;
            ELog DebugLevel "Error renaming dir %s: %v" [LStr buildInfoDir; LErr err]].
    split; [rewrite <- ?app_assoc; reflexivity |].
    unfold applied, countEvents. cbn. repeat split; lia.
Qed.

Ltac applied_step :=
  lazymatch goal with
  | |- post applied (try_ (effect (EExec _) _) _) => apply post_exec
  | |- post applied (ret (Ok tt)) => apply post_applied_idle, emits_ret
  | |- post applied nil_ => apply post_applied_idle, emits_ret
  | |- post applied (bind _ _) =>
      apply (post_bind idle applied applied_framed); [| intros ?]
  | |- post applied (try_ _ _) =>
      apply (post_try idle applied applied_framed applied_failed); [| intros ?]
  | |- post applied (defer _ _) =>
      apply (post_defer idle applied applied_framed)
  | |- post applied (if ?b then _ else _) => destruct b
  | |- post applied (match ?x with _ => _ end) => destruct x
  | |- emits _ (ignoreMounts _ _) => apply emits_ignoreMounts_any
  | |- emits _ _ => emits_step
  end.

(** X9. Whatever the world answers, [dockerlessBuild] runs the builder
    at most once, applies the environment of the built image at most
    once and only after it ran the builder, and, once it has applied the
    environment, returns [nil]: what fails after that point is not an
    error of the build. *)
Theorem dockerlessBuild_applied
    (setupInfo : SetupInfo.t) (dockerlessOptions : Dockerless.t) (debug : bool)
    (st : State W) :
  exists evs,
    trace (after (dockerlessBuild setupInfo dockerlessOptions debug) st) = trace st ++ evs
    /\ (countEvents isMergeAndApply evs <= countEvents isExec evs)%nat
    /\ (countEvents isExec evs <= 1)%nat
    /\ (countEvents isMergeAndApply evs = 1%nat ->
        result (dockerlessBuild setupInfo dockerlessOptions debug) st = Ok tt).
Proof.
  assert (Hbuild : post applied (dockerlessBuild setupInfo dockerlessOptions debug)).
  { unfold dockerlessBuild, findBuildInfo, withDockerCredentials, runDockerless,
      withDebugWriter, configureDockerCredentials.
    repeat applied_step; reflexivity. }
  destruct (Hbuild st) as (evs & Htrace & Hle & Hone & Hok).
  exists evs. repeat split; assumption.
Qed.

End DockerlessApplied.

(** ** The dockerless build: the build information and the credentials *)

Section DockerlessSteps.
Context {W : Type} `{Extern} `{Sys W}.

(** X10. When the mode is set, the image is not built yet and the
    build context is given, but the build information is not in the
    build context: [dockerlessBuild] renames the fallback directory to
    it.  When the rename fails, the error is returned as "rename dir";
    when the directory is still not found after the rename, as
    "couldn't find build dir <dir>".  In both cases nothing else was
    done: no credentials server, no writer, no builder. *)
Theorem dockerlessBuild_recovery
    (setupInfo : SetupInfo.t) (dockerlessOptions : Dockerless.t) (debug : bool)
    (st : State W) :
  let w := world st in
  let build := dockerlessBuild setupInfo dockerlessOptions debug in
  let fallbackDir :=
    filepath_Join [DevPodDockerlessBuildInfoFolder; DevPodContextFeatureFolder] in
  let buildInfoDir :=
    filepath_Join [sys_Getenv "DOCKERLESS_CONTEXT" w; DevPodContextFeatureFolder] in
  let renamed :=
    effect (ERenameDirectory fallbackDir buildInfoDir)
      (sys_RenameDirectory fallbackDir buildInfoDir) st in
  sys_Getenv "DOCKERLESS" w = "true" ->
  sys_Stat DockerlessImageConfigOutput w <> Ok tt ->
  sys_Getenv "DOCKERLESS_CONTEXT" w <> "" ->
  sys_Stat buildInfoDir w <> Ok tt ->
  trace (snd renamed) = trace st ++ [ERenameDirectory fallbackDir buildInfoDir]
  /\ (forall err,
        fst renamed = Err err ->
        build st = (Err (errWrap "rename dir" err), snd renamed))
  /\ (fst renamed = Ok tt ->
      forall err,
        sys_Stat buildInfoDir (world (snd renamed)) = Err err ->
        build st
        = (Err (errWrap ("couldn't find build dir " +:+ buildInfoDir) err), snd renamed)).
Proof.
  intros w build fallbackDir buildInfoDir renamed Hmode Hbuilt Hctx Hinfo.
  assert (Hrun : build st
                 = try_ (findBuildInfo fallbackDir buildInfoDir)
                     (fun _ =>
                        try_ (read sys_Executable) (fun binaryPath =>
                          withDockerCredentials dockerlessOptions
                            (runDockerless setupInfo dockerlessOptions debug binaryPath
                               fallbackDir buildInfoDir))) st).
  { unfold build, dockerlessBuild. unfold bind at 1, read at 1. fold w. rewrite Hmode.
    cbn [String.eqb Ascii.eqb Bool.eqb negb]. unfold bind at 1, read at 1. fold w.
    destruct (sys_Stat DockerlessImageConfigOutput w) as [[] | e0]; [contradiction |].
    unfold bind at 1, read at 1. fold w.
    apply String.eqb_neq in Hctx. rewrite Hctx. reflexivity. }
  assert (Hfind : findBuildInfo fallbackDir buildInfoDir st
                  = try_ (wrapErr "rename dir"
                            (effect (ERenameDirectory fallbackDir buildInfoDir)
                               (sys_RenameDirectory fallbackDir buildInfoDir)))
                      (fun _ => wrapErr ("couldn't find build dir " +:+ buildInfoDir)
                                  (read (sys_Stat buildInfoDir))) st).
  { unfold findBuildInfo, bind at 1, read at 1. fold w.
    destruct (sys_Stat buildInfoDir w) as [[] | e0]; [contradiction | reflexivity]. }
  split; [| split].
  - unfold renamed, effect. destruct (sys_RenameDirectory _ _ _). reflexivity.
  - intros err Hrename. rewrite Hrun. apply try_err. rewrite Hfind.
    apply try_err, wrapErr_err. rewrite <- Hrename. apply surjective_pairing.
  - intros Hrename err Hstat. rewrite Hrun. apply try_err. rewrite Hfind.
    rewrite (try_ok _ _ st tt (snd renamed))
      by (apply wrapErr_ok; rewrite <- Hrename; apply surjective_pairing).
    apply wrapErr_err. unfold read. rewrite Hstat. reflexivity.
Qed.

Lemma withDockerCredentials_disabled dockerlessOptions (build : Act W (Result unit)) :
  Dockerless.DisableDockerCredentials dockerlessOptions = "true" ->
  withDockerCredentials dockerlessOptions build = build.
Proof. intros Hdisabled. unfold withDockerCredentials. rewrite Hdisabled. reflexivity. Qed.

Lemma emits_runDockerless P setupInfo dockerlessOptions debug binaryPath fallbackDir
    buildInfoDir :
  (forall ev, isBuildEvent ev = true -> isCredentials ev = false -> P ev) ->
  emits P (runDockerless setupInfo dockerlessOptions debug binaryPath fallbackDir
             buildInfoDir).
Proof.
  intros HP. unfold runDockerless, withDebugWriter.
  repeat first [apply emits_ignoreMounts_any | emits_step]; apply HP; reflexivity.
Qed.

Lemma withDockerCredentials_enabled dockerlessOptions (build : Act W (Result unit))
    (st : State W) :
  Dockerless.DisableDockerCredentials dockerlessOptions <> "true" ->
  (forall err st1,
     configureDockerCredentials st = (Err err, st1) ->
     let logged :=
       after (logf ErrorLevel "Error configuring docker credentials: %v" [LErr err]) st1 in
     withDockerCredentials dockerlessOptions build st
     = (fst (build logged), after (effect_ ECancel sys_Cancel) (snd (build logged))))
  /\ (forall dockerCredentialsDir st1,
        configureDockerCredentials st = (Ok dockerCredentialsDir, st1) ->
        let unset := after (effect_ (EUnsetenv "DOCKER_CONFIG")
                              (sys_Unsetenv "DOCKER_CONFIG")) in
        let remove := after (effect_ (ERemoveAll dockerCredentialsDir)
                               (sys_RemoveAll dockerCredentialsDir)) in
        withDockerCredentials dockerlessOptions build st
        = (fst (build st1),
           after (effect_ ECancel sys_Cancel) (remove (unset (snd (build st1)))))).
Proof.
  intros Henabled. apply String.eqb_neq in Henabled.
  split.
  - intros err st1 Hconf logged. unfold withDockerCredentials. rewrite Henabled.
    cbn [negb]. unfold defer at 1. unfold bind at 1. rewrite Hconf.
    unfold bind at 1. rewrite logf_eq. change (mkState _ _) with logged.
    destruct (build logged) as [r st2]. reflexivity.
  - intros dir st1 Hconf unset remove. unfold withDockerCredentials.
    rewrite Henabled. cbn [negb]. unfold defer at 1. unfold bind at 1. rewrite Hconf.
    unfold defer at 1. destruct (build st1) as [r st2]. reflexivity.
Qed.

(** The build, once the mode is set, the image is not built and the
    build context is given. *)
Lemma dockerlessBuild_started setupInfo dockerlessOptions debug (st : State W) :
  let w := world st in
  let fallbackDir :=
    filepath_Join [DevPodDockerlessBuildInfoFolder; DevPodContextFeatureFolder] in
  let buildInfoDir :=
    filepath_Join [sys_Getenv "DOCKERLESS_CONTEXT" w; DevPodContextFeatureFolder] in
  sys_Getenv "DOCKERLESS" w = "true" ->
  sys_Stat DockerlessImageConfigOutput w <> Ok tt ->
  sys_Getenv "DOCKERLESS_CONTEXT" w <> "" ->
  dockerlessBuild setupInfo dockerlessOptions debug st
  = try_ (findBuildInfo fallbackDir buildInfoDir)
      (fun _ =>
         try_ (read sys_Executable) (fun binaryPath =>
           withDockerCredentials dockerlessOptions
             (runDockerless setupInfo dockerlessOptions debug binaryPath
                fallbackDir buildInfoDir))) st.
Proof.
  intros w fallbackDir buildInfoDir Hmode Hbuilt Hctx.
  unfold dockerlessBuild. unfold bind at 1, read at 1. fold w. rewrite Hmode.
  cbn [String.eqb Ascii.eqb Bool.eqb negb]. unfold bind at 1, read at 1. fold w.
  destruct (sys_Stat DockerlessImageConfigOutput w) as [[] | e0]; [contradiction |].
  unfold bind at 1, read at 1. fold w.
  apply String.eqb_neq in Hctx. rewrite Hctx. reflexivity.
Qed.

(** X11. The docker credentials of the build.  When they are disabled,
    [dockerlessBuild] starts no credentials server, configures no
    credentials, unsets no variable and cancels nothing.  When they are
    enabled and [dockerlessBuild] has found the build information and
    the path of the agent, it configures the credentials and runs the
    builder whether they could be configured or not: a failure to
    configure them is logged at the error level and the builder runs
    without them; and the context is cancelled when the builder has
    returned, after the variable DOCKER_CONFIG was unset and the
    directory of the credentials removed if they were configured;
    [dockerlessBuild] returns what the run of the builder returns. *)
Theorem dockerlessBuild_credentials
    (setupInfo : SetupInfo.t) (dockerlessOptions : Dockerless.t) (debug : bool)
    (st : State W) :
  let w := world st in
  let fallbackDir :=
    filepath_Join [DevPodDockerlessBuildInfoFolder; DevPodContextFeatureFolder] in
  let buildInfoDir :=
    filepath_Join [sys_Getenv "DOCKERLESS_CONTEXT" w; DevPodContextFeatureFolder] in
  let cancel := after (effect_ ECancel sys_Cancel) in
  (Dockerless.DisableDockerCredentials dockerlessOptions = "true" ->
   exists evs,
     trace (after (dockerlessBuild setupInfo dockerlessOptions debug) st) = trace st ++ evs
     /\ Forall (fun ev => isCredentials ev = false) evs)
  /\ (Dockerless.DisableDockerCredentials dockerlessOptions <> "true" ->
      sys_Getenv "DOCKERLESS" w = "true" ->
      sys_Stat DockerlessImageConfigOutput w <> Ok tt ->
      sys_Getenv "DOCKERLESS_CONTEXT" w <> "" ->
      forall found binaryPath,
        findBuildInfo fallbackDir buildInfoDir st = (Ok tt, found) ->
        sys_Executable (world found) = Ok binaryPath ->
        let builder :=
          runDockerless setupInfo dockerlessOptions debug binaryPath fallbackDir
            buildInfoDir in
        (forall err st1,
           configureDockerCredentials found = (Err err, st1) ->
           let logged :=
             after (logf ErrorLevel "Error configuring docker credentials: %v"
                      [LErr err]) st1 in
           dockerlessBuild setupInfo dockerlessOptions debug st
           = (fst (builder logged), cancel (snd (builder logged))))
        /\ (forall dockerCredentialsDir st1,
              configureDockerCredentials found = (Ok dockerCredentialsDir, st1) ->
              let unset := after (effect_ (EUnsetenv "DOCKER_CONFIG")
                                    (sys_Unsetenv "DOCKER_CONFIG")) in
              let remove := after (effect_ (ERemoveAll dockerCredentialsDir)
                                     (sys_RemoveAll dockerCredentialsDir)) in
              dockerlessBuild setupInfo dockerlessOptions debug st
              = (fst (builder st1), cancel (remove (unset (snd (builder st1))))))).
Proof.
  intros w fallbackDir buildInfoDir cancel. split.
  - intros Hdisabled.
    assert (Hemits : emits (fun ev => isCredentials ev = false)
                       (dockerlessBuild setupInfo dockerlessOptions debug)).
    { unfold dockerlessBuild, findBuildInfo.
      repeat first
        [ rewrite (withDockerCredentials_disabled _ _ Hdisabled);
          apply emits_runDockerless; intros ev _ Hev; exact Hev
        | emits_step ];
        reflexivity. }
    exact (Hemits st).
  - intros Henabled Hmode Hbuilt Hctx found binaryPath Hfound Hself builder.
    assert (Hrun : dockerlessBuild setupInfo dockerlessOptions debug st
                   = withDockerCredentials dockerlessOptions builder found).
    { rewrite (dockerlessBuild_started _ _ _ st Hmode Hbuilt Hctx).
      fold w fallbackDir buildInfoDir.
      rewrite (try_ok _ _ st tt found Hfound).
      unfold try_ at 1, read. rewrite Hself. reflexivity. }
    rewrite Hrun.
    exact (withDockerCredentials_enabled dockerlessOptions builder found Henabled).
Qed.


Lemma emits_try_res {A B} P (m : Act W (Result A)) (k : A -> Act W (Result B)) :
  emits P m ->
  (forall a, (exists st st', m st = (Ok a, st')) -> emits P (k a)) ->
  emits P (try_ m k).
Proof.
  intros Hm Hk st. destruct (Hm st) as (evs1 & Htr1 & HP1).
  unfold emitted, after in *. unfold try_.
  destruct (m st) as [[a | err] st1] eqn:Hrun; cbn [snd] in Htr1.
  - destruct (Hk a (ex_intro _ st (ex_intro _ st1 Hrun)) st1) as (evs2 & Htr2 & HP2).
    unfold emitted, after in Htr2.
    exists (evs1 ++ evs2). split; [| apply Forall_app; split; assumption].
    rewrite Htr2, Htr1. symmetry. apply app_assoc.
  - exists evs1. split; assumption.
Qed.



End DockerlessSteps.

(** ** The properties at work *)

(** The tunnel refuses the stream of the mount: nothing is extracted. *)
Lemma streamMount_tunnel_witness :
  let workspaceInfo := Demo.workspaceInfo true false IDENone in
  let st := Demo.start (Demo.fresh Fixtures.streamFails) in
  Platform.Enabled (CLIOptions.Platform (WorkspaceInfo.CLIOptions workspaceInfo)) = false
  /\ @streamMount _ Demo.ex Demo.sys workspaceInfo Demo.mount st
     = (Err (errWrap "init stream mount /home/user/project:/workspaces/project"
               Demo.failed),
        mkState (world st)
          [ELog InfoLevel "Copy %s into DevContainer %s"
             [LStr "/home/user/project"; LStr "/workspaces/project"];
           EStreamMount "/home/user/project:/workspaces/project"]).
Proof.
  intros workspaceInfo st. split; [reflexivity |].
  exact (proj1 (proj1 (@streamMount_tunnel _ Demo.ex Demo.sys workspaceInfo Demo.mount st
                         eq_refl) Demo.failed eq_refl)).
Defined.

(** The download of a mount of a managed workspace. *)
Lemma streamMount_platform_witness :
  let st := Demo.start (Demo.fresh Demo.nothingFails) in
  let url :=
    "https://platform.example.com/kubernetes/management/apis/management.loft.sh/v1/namespaces/team/devpodworkspaceinstances/ws1/download?path=/home/user/project" in
  Platform.Enabled (CLIOptions.Platform (WorkspaceInfo.CLIOptions Fixtures.managed))
  = true
  /\ @streamMount _ Demo.ex Demo.sys Fixtures.managed Demo.mount st
     = (Ok tt,
        mkState (world st)
          [ELog InfoLevel "Download %s into DevContainer %s"
             [LStr "/home/user/project"; LStr "/workspaces/project"];
           EHTTPDo url "Bearer secret" true;
           EExtract ProgressReader "/workspaces/project";
           EBodyClose]).
Proof.
  intros st url. split; [reflexivity |].
  exact (proj2 (proj2 (proj2 (@streamMount_platform _ Demo.ex Demo.sys Fixtures.managed
                                Demo.mount st eq_refl) eq_refl)
                  {| Response.StatusCode := 200; Response.Status := "200 OK" |} eq_refl)
           eq_refl).
Defined.

(** A container without build information: the rename fails, or it
    succeeds and the directory is still not there. *)
Lemma dockerlessBuild_recovery_witness :
  let refused := Demo.start (Fixtures.noBuildInfo Fixtures.renameFails) in
  let missing := Demo.start (Fixtures.noBuildInfo Demo.nothingFails) in
  let rename :=
    ERenameDirectory "/workspaces/.dockerless/.devpod-internal"
      "/workspaces/.dockerless/.devpod-internal" in
  @dockerlessBuild _ Demo.ex Demo.sys (Demo.setupInfo None) Demo.dockerless false refused
  = (Err (errWrap "rename dir" Demo.failed), mkState (world refused) [rename])
  /\ @dockerlessBuild _ Demo.ex Demo.sys (Demo.setupInfo None) Demo.dockerless false missing
     = (Err (errWrap "couldn't find build dir /workspaces/.dockerless/.devpod-internal"
               Demo.notFound),
        mkState (world missing) [rename]).
Proof.
  intros refused missing rename. split.
  - destruct (@dockerlessBuild_recovery _ Demo.ex Demo.sys (Demo.setupInfo None)
                Demo.dockerless false refused) as (_ & Hrename & _);
      [reflexivity | discriminate | vm_compute; discriminate | discriminate |].
    exact (Hrename Demo.failed eq_refl).
  - destruct (@dockerlessBuild_recovery _ Demo.ex Demo.sys (Demo.setupInfo None)
                Demo.dockerless false missing) as (_ & _ & Hstat);
      [reflexivity | discriminate | vm_compute; discriminate | discriminate |].
    exact (Hstat eq_refl Demo.notFound eq_refl).
Defined.

(** The build of a fresh container with the credentials enabled.  The
    credentials server does not start: the failure is logged, the
    builder runs, and the context is cancelled.  The builder fails with
    the credentials configured: they are torn down and the context is
    cancelled all the same. *)
Lemma dockerlessBuild_credentials_witness :
  let build :=
    @dockerlessBuild _ Demo.ex Demo.sys (Demo.setupInfo None) Fixtures.withCredentials
      false in
  let refused := Demo.start (Demo.fresh Fixtures.serverFails) in
  let broken := Demo.start (Demo.fresh Fixtures.execFails) in
  let builder :=
    {| Cmd.Path := "/.dockerless/dockerless";
       Cmd.Args :=
         ["build"; "--ignore-path"; "/usr/local/bin/devpod";
          "--build-arg"; "TARGETOS=linux"; "--build-arg"; "TARGETARCH=amd64";
          "--registry-cache"; "registry.example.com/cache";
          "--ignore-path"; "/workspaces/project"];
       Cmd.Env := Some ["DOCKERLESS_CONTEXT=/workspaces/.dockerless"; "DOCKERLESS=true"];
       Cmd.Stdout := None;
       Cmd.Stderr := Some InfoLevel |} in
  let started :=
    [ELog DebugLevel ""
       [LStr "Appending registry cache to dockerless build arguments ";
        LStr "registry.example.com/cache"];
     EWriter InfoLevel;
     ELog InfoLevel "Start dockerless building %s %s"
       [LStr "/.dockerless/dockerless"; LStr (GoStrings.Join (Cmd.Args builder) " ")];
     EExec builder] in
  Dockerless.DisableDockerCredentials Fixtures.withCredentials <> "true"
  /\ result build refused = Ok tt
  /\ trace (after build refused)
     = [EStartCredentialsServer;
        ELog ErrorLevel "Error configuring docker credentials: %v" [LErr Demo.failed]]
       ++ started
       ++ [EMergeAndApply ∅;
           ERemoveAll "/workspaces/.dockerless/.devpod-internal";
           ERenameDirectory "/workspaces/.dockerless/.devpod-internal"
             "/workspaces/.dockerless/.devpod-internal";
           EWriterClose InfoLevel;
           ECancel]
  /\ result build broken = Err Demo.failed
  /\ trace (after build broken)
     = [EStartCredentialsServer;
        EConfigureCredentialsDockerless "/.dockerless/.docker" 12049]
       ++ started
       ++ [EWriterClose InfoLevel;
           EUnsetenv "DOCKER_CONFIG";
           ERemoveAll "/.dockerless/.docker";
           ECancel].
Proof.
  intros build refused broken builder started.
  assert (Henabled : Dockerless.DisableDockerCredentials Fixtures.withCredentials
                     <> "true") by discriminate.
  assert (Hbuilt : forall fails,
            @sys_Stat _ Demo.sys DockerlessImageConfigOutput
              (world (Demo.start (Demo.fresh fails))) <> Ok tt)
    by (intros fails; vm_compute; discriminate).
  assert (Hctx : forall fails,
            @sys_Getenv _ Demo.sys "DOCKERLESS_CONTEXT"
              (world (Demo.start (Demo.fresh fails))) <> "")
    by (intros fails; vm_compute; discriminate).
  pose proof (proj1 (proj2 (@dockerlessBuild_credentials _ Demo.ex Demo.sys
                              (Demo.setupInfo None) Fixtures.withCredentials false
                              refused)
                       Henabled eq_refl (Hbuilt _) (Hctx _) refused
                       "/usr/local/bin/devpod" eq_refl eq_refl)
                Demo.failed (mkState (world refused) [EStartCredentialsServer]) eq_refl)
    as Hrefused.
  pose proof (proj2 (proj2 (@dockerlessBuild_credentials _ Demo.ex Demo.sys
                              (Demo.setupInfo None) Fixtures.withCredentials false
                              broken)
                       Henabled eq_refl (Hbuilt _) (Hctx _) broken
                       "/usr/local/bin/devpod" eq_refl eq_refl)
                "/.dockerless/.docker"
                (mkState (world broken)
                   [EStartCredentialsServer;
                    EConfigureCredentialsDockerless "/.dockerless/.docker" 12049])
                eq_refl)
    as Hbroken.
  split; [exact Henabled |].
  unfold result, after, build. rewrite Hrefused, Hbroken.
  repeat split; vm_compute; reflexivity.
Defined.

(** ** parseIgnorePaths: the commas *)

Lemma asciiSpace_comma c : GoStrings.asciiSpace c = true -> Ascii.eqb c "," = false.
Proof. destruct (Ascii.eqb_spec c ","); [subst; discriminate | reflexivity]. Qed.

Lemma lead_comma c k :
  (nat_of_ascii c =? k)%nat = true -> k <> 44%nat -> Ascii.eqb c "," = false.
Proof.
  intros Hc Hk. destruct (Ascii.eqb_spec c ","); [subst | reflexivity].
  apply Nat.eqb_eq in Hc. subst k. exfalso. apply Hk. reflexivity.
Qed.

Lemma space2_comma d : GoStrings.space2 d = true -> Ascii.eqb d "," = false.
Proof. destruct (Ascii.eqb_spec d ","); [subst; discriminate | reflexivity]. Qed.

Lemma space3_comma c d e :
  GoStrings.space3 c d e = true ->
  Ascii.eqb c "," = false /\ Ascii.eqb d "," = false /\ Ascii.eqb e "," = false.
Proof.
  intros Hs. repeat split.
  - destruct (Ascii.eqb_spec c ","); [subst; discriminate | reflexivity].
  - destruct (Ascii.eqb_spec d ","); [subst | reflexivity].
    unfold GoStrings.space3 in Hs. cbn in Hs.
    rewrite ?andb_false_r in Hs. cbn in Hs. rewrite ?andb_false_r in Hs.
    discriminate.
  - destruct (Ascii.eqb_spec e ","); [subst | reflexivity].
    unfold GoStrings.space3 in Hs. cbn in Hs.
    rewrite ?andb_false_r in Hs. cbn in Hs. rewrite ?andb_false_r in Hs.
    discriminate.
Qed.

Lemma trimLeft_keeps n : forall s,
  (String.length s <= n)%nat ->
  hasByte "," s = true -> hasByte "," (GoStrings.trimLeft s) = true.
Proof.
  induction n as [| n IH]; intros s Hlen Hc.
  - destruct s; [discriminate | cbn in Hlen; lia].
  - destruct s as [| c r]; [discriminate |]. cbn [GoStrings.trimLeft].
    destruct (GoStrings.asciiSpace c) eqn:Hspace.
    { apply IH; [cbn in Hlen; lia |]. cbn [hasByte] in Hc.
      rewrite (asciiSpace_comma _ Hspace) in Hc. exact Hc. }
    destruct r as [| d r']; [exact Hc |].
    destruct ((nat_of_ascii c =? 194)%nat && GoStrings.space2 d) eqn:Htwo.
    { apply andb_true_iff in Htwo as [Hlead Hsecond].
      apply IH; [cbn in Hlen; lia |]. cbn [hasByte] in Hc.
      rewrite (lead_comma _ _ Hlead), (space2_comma _ Hsecond) in Hc by lia. exact Hc. }
    destruct r' as [| e r'']; [exact Hc |].
    destruct (GoStrings.space3 c d e) eqn:Hthree; [| exact Hc].
    destruct (space3_comma _ _ _ Hthree) as (Hc1 & Hc2 & Hc3).
    apply IH; [cbn in Hlen; lia |]. cbn [hasByte] in Hc.
    rewrite Hc1, Hc2, Hc3 in Hc. exact Hc.
Qed.

Lemma trimLeftRev_keeps n : forall s,
  (String.length s <= n)%nat ->
  hasByte "," s = true -> hasByte "," (GoStrings.trimLeftRev s) = true.
Proof.
  induction n as [| n IH]; intros s Hlen Hc.
  - destruct s; [discriminate | cbn in Hlen; lia].
  - destruct s as [| c r]; [discriminate |]. cbn [GoStrings.trimLeftRev].
    destruct (GoStrings.asciiSpace c) eqn:Hspace.
    { apply IH; [cbn in Hlen; lia |]. cbn [hasByte] in Hc.
      rewrite (asciiSpace_comma _ Hspace) in Hc. exact Hc. }
    destruct r as [| d r']; [exact Hc |].
    destruct ((nat_of_ascii d =? 194)%nat && GoStrings.space2 c) eqn:Htwo.
    { apply andb_true_iff in Htwo as [Hlead Hsecond].
      apply IH; [cbn in Hlen; lia |]. cbn [hasByte] in Hc.
      rewrite (lead_comma _ _ Hlead), (space2_comma _ Hsecond) in Hc by lia. exact Hc. }
    destruct r' as [| e r'']; [exact Hc |].
    destruct (GoStrings.space3 e d c) eqn:Hthree; [| exact Hc].
    destruct (space3_comma _ _ _ Hthree) as (Hc1 & Hc2 & Hc3).
    apply IH; [cbn in Hlen; lia |]. cbn [hasByte] in Hc.
    rewrite Hc1, Hc2, Hc3 in Hc. exact Hc.
Qed.

Lemma hasByte_rev_app c s acc :
  hasByte c (String.rev_app s acc) = hasByte c s || hasByte c acc.
Proof.
  revert acc. induction s as [| a s IH]; intros acc; cbn [String.rev_app hasByte];
    [reflexivity |].
  rewrite IH. cbn [hasByte]. destruct (Ascii.eqb a c), (hasByte c s); reflexivity.
Qed.

Lemma hasByte_rev c s : hasByte c (String.rev s) = hasByte c s.
Proof. unfold String.rev. rewrite hasByte_rev_app. apply orb_false_r. Qed.

Lemma hasByte_app c a b : hasByte c (a +:+ b) = hasByte c a || hasByte c b.
Proof.
  induction a as [| x a IH]; [reflexivity |].
  change (String x a +:+ b) with (String x (a +:+ b)). cbn [hasByte].
  rewrite IH. apply orb_assoc.
Qed.

(** A string with a comma is not blank. *)
Lemma TrimSpace_comma s : hasByte "," s = true -> GoStrings.TrimSpace s <> "".
Proof.
  intros Hc Hblank.
  assert (Hkept : hasByte "," (GoStrings.TrimSpace s) = true).
  { unfold GoStrings.TrimSpace, GoStrings.trimRight. rewrite hasByte_rev.
    apply (trimLeftRev_keeps _ _ (le_n _)). rewrite hasByte_rev.
    apply (trimLeft_keeps _ _ (le_n _)). exact Hc. }
  rewrite Hblank in Hkept. discriminate.
Qed.

Lemma Split_nonempty s sep : GoStrings.Split s sep <> [].
Proof.
  destruct s as [| c r]; cbn [GoStrings.Split]; [discriminate |].
  destruct (Ascii.eqb c sep); [discriminate |].
  destruct (GoStrings.Split r sep); discriminate.
Qed.

Lemma Split_app a b sep :
  GoStrings.Split (a +:+ String sep b) sep
  = GoStrings.Split a sep ++ GoStrings.Split b sep.
Proof.
  induction a as [| c a IH].
  - change ("" +:+ String sep b) with (String sep b). cbn [GoStrings.Split].
    rewrite Ascii.eqb_refl. reflexivity.
  - change (String c a +:+ String sep b) with (String c (a +:+ String sep b)).
    cbn [GoStrings.Split]. rewrite IH. destruct (Ascii.eqb c sep); [reflexivity |].
    pose proof (Split_nonempty a sep) as Hne.
    destruct (GoStrings.Split a sep) as [| piece pieces]; [contradiction | reflexivity].
Qed.

Lemma Split_whole s sep : hasByte sep s = false -> GoStrings.Split s sep = [s].
Proof.
  induction s as [| c r IH]; cbn [hasByte GoStrings.Split]; [reflexivity |].
  intros Hc. apply orb_false_iff in Hc as [Hhead Hrest].
  rewrite Hhead, (IH Hrest). reflexivity.
Qed.

Lemma Split_length s sep : length (GoStrings.Split s sep) = S (countByte sep s).
Proof.
  induction s as [| c r IH]; cbn [GoStrings.Split countByte]; [reflexivity |].
  destruct (Ascii.eqb c sep); cbn [length Nat.add]; [rewrite IH; reflexivity |].
  pose proof (Split_nonempty r sep) as Hne.
  destruct (GoStrings.Split r sep) as [| piece pieces]; [contradiction |].
  exact IH.
Qed.

Lemma parseIgnorePaths_pieces s :
  GoStrings.TrimSpace s <> "" ->
  parseIgnorePaths s
  = flat_map (fun piece => ["--ignore-path"; GoStrings.TrimSpace piece])
      (GoStrings.Split s ",").
Proof.
  intros Hs. unfold parseIgnorePaths.
  destruct (decide (GoStrings.TrimSpace s = "")) as [He | _]; [contradiction |].
  exact (fold_left_append
           (fun piece => ["--ignore-path"; GoStrings.TrimSpace piece]) _ []).
Qed.

Lemma ignoredPart_pieces part :
  ignoredPart part
  = flat_map (fun piece => ["--ignore-path"; GoStrings.TrimSpace piece])
      (GoStrings.Split part ",").
Proof.
  unfold ignoredPart.
  destruct (decide (GoStrings.TrimSpace part = "")) as [Hblank | Hpart];
    [| apply parseIgnorePaths_pieces, Hpart].
  destruct (hasByte "," part) eqn:Hc; [destruct (TrimSpace_comma _ Hc Hblank) |].
  rewrite (Split_whole _ _ Hc). cbn [flat_map app]. rewrite Hblank. reflexivity.
Qed.

(** X13. [parseIgnorePaths] drops nothing of a list with commas: the
    arguments for such a list are those for the part before a comma
    followed by those for the part after it, where a part that is blank
    (as after a trailing comma, or between two commas) gives one empty
    path; and the arguments for a list that is not blank are two for
    each comma and two more. *)
Theorem parseIgnorePaths_commas :
  (forall a b,
     parseIgnorePaths (a +:+ "," +:+ b) = ignoredPart a ++ ignoredPart b)
  /\ (forall s,
        GoStrings.TrimSpace s <> "" ->
        length (parseIgnorePaths s) = (2 * S (countByte "," s))%nat).
Proof.
  split.
  - intros a b. change (a +:+ "," +:+ b) with (a +:+ String "," b).
    assert (Hc : hasByte "," (a +:+ String "," b) = true).
    { rewrite hasByte_app. cbn [hasByte]. rewrite Ascii.eqb_refl. apply orb_true_r. }
    rewrite (parseIgnorePaths_pieces _ (TrimSpace_comma _ Hc)).
    rewrite Split_app, flat_map_app, !ignoredPart_pieces. reflexivity.
  - intros s Hs. rewrite (parseIgnorePaths_pieces _ Hs).
    rewrite <- Split_length.
    induction (GoStrings.Split s ",") as [| piece pieces IH]; [reflexivity |].
    cbn [flat_map app length]. rewrite IH. lia.
Qed.

(** ** The remote environment, the daemon and the open VSCode server *)

Section Remaining.
Context {W : Type} `{Extern} `{Sys W}.

Lemma setRemoteEnv_keeps (remoteEnv : gmap string string) k v :
  remoteEnv !! k = Some v -> setRemoteEnv (Some remoteEnv) !! k = Some v.
Proof.
  intros Hk. unfold setRemoteEnv.
  destruct (remoteEnv !! "PATH") as [path |] eqn:Hpath; [exact Hk |].
  rewrite lookup_insert_ne; [exact Hk |]. intros <-. congruence.
Qed.

Lemma setRemoteEnv_idem remoteEnv :
  setRemoteEnv (Some (setRemoteEnv remoteEnv)) = setRemoteEnv remoteEnv.
Proof.
  unfold setRemoteEnv at 1.
  destruct (setRemoteEnv remoteEnv !! "PATH") as [path |] eqn:Hpath; [reflexivity |].
  destruct (setRemoteEnv_PATH remoteEnv) as [path Hsome]. congruence.
Qed.

(** X14. [fillContainerEnv] changes nothing but the configuration of the
    setup result: the state and the workspace folder are as before.  The
    defaulting of the remote environment keeps every entry that is
    there, and doing it twice is doing it once.  When the substitution
    fails, the error is returned as "substitute container env", and the
    setup result that the caller holds has the remote environment with
    the default already: the defaulting is done in place, before the
    substitution. *)
Theorem fillContainerEnv_in_place (setupInfo : SetupInfo.t) (st : State W) :
  let defaulted := withRemoteEnv (SetupInfo.MergedConfig setupInfo) in
  let run := fillContainerEnv setupInfo st in
  snd run = st
  /\ SetupInfo.ContainerWorkspaceFolder (snd (fst run))
     = SetupInfo.ContainerWorkspaceFolder setupInfo
  /\ (forall (remoteEnv : gmap string string) k v,
        MergedConfig.RemoteEnv (SetupInfo.MergedConfig setupInfo) = Some remoteEnv ->
        remoteEnv !! k = Some v ->
        exists env, MergedConfig.RemoteEnv defaulted = Some env /\ env !! k = Some v)
  /\ withRemoteEnv defaulted = defaulted
  /\ (forall err,
        SubstituteContainerEnv (ListToObject (sys_Environ (world st))) defaulted = Err err ->
        fst run
        = (Err (errWrap "substitute container env" err),
           SetupInfo.withMergedConfig setupInfo defaulted)).
Proof.
  intros defaulted run.
  assert (Hrun : run
                 = match SubstituteContainerEnv (ListToObject (sys_Environ (world st)))
                           defaulted with
                   | Err err =>
                       (Err (errWrap "substitute container env" err),
                        SetupInfo.withMergedConfig setupInfo defaulted, st)
                   | Ok newMergedConfig =>
                       (Ok tt, SetupInfo.withMergedConfig setupInfo newMergedConfig, st)
                   end).
  { unfold run, fillContainerEnv, bind, read, ret. fold defaulted.
    destruct (SubstituteContainerEnv _ _); reflexivity. }
  split; [| split; [| split; [| split]]].
  - rewrite Hrun. destruct (SubstituteContainerEnv _ _); reflexivity.
  - rewrite Hrun. destruct (SubstituteContainerEnv _ _); reflexivity.
  - intros remoteEnv k v Henv Hk. exists (setRemoteEnv (Some remoteEnv)).
    split; [unfold defaulted, withRemoteEnv; cbn; rewrite Henv; reflexivity |].
    apply setRemoteEnv_keeps, Hk.
  - unfold defaulted, withRemoteEnv. cbn. rewrite setRemoteEnv_idem. reflexivity.
  - intros err Hsubst. rewrite Hrun, Hsubst. reflexivity.
Qed.


(** X16. [setupOpenVSCode] starts the server only after it installed
    it, as the last thing it does, and it is the server it installed:
    that of the extensions and settings of the configuration, on
    "0.0.0.0" and the default port.  It returns [nil] only when it
    started the server.  The installation of the extensions is handed to
    the guard only when there are extensions, under the lock
    "openvscode-async.pid": the executable of the agent, as the system
    gives it after the install and the message of the background
    install, called with "agent container openvscode-async --setup-info"
    and the setup result it was given. *)
Theorem setupOpenVSCode_order
    (cmd : SetupContainerCmd.t) (setupInfo : SetupInfo.t) (ideOptions : Options)
    (st : State W) :
  let vsCodeConfiguration := GetVSCodeConfiguration (SetupInfo.MergedConfig setupInfo) in
  let extensions := VSCodeConfiguration.Extensions vsCodeConfiguration in
  let server settings :=
    OpenVSCodeServer extensions settings (GetRemoteUser setupInfo) "0.0.0.0"
      (Itoa DefaultVSCodePort) ideOptions in
  let installed settings :=
    snd (sys_Install (server settings)
           (sys_Log DebugLevel "Setup openvscode..." [] (world st))) in
  let logged settings :=
    sys_Log InfoLevel "Install extensions '%s' in the background"
      [LStr (GoStrings.Join extensions ",")] (installed settings) in
  exists evs,
    trace (after (setupOpenVSCode cmd setupInfo ideOptions) st) = trace st ++ evs
    /\ (forall installer,
          In (EStart installer) evs ->
          exists settings pre,
            marshalSettings vsCodeConfiguration = Ok settings
            /\ installer = server settings
            /\ evs = pre ++ [EStart installer]
            /\ In (EInstall installer) pre)
    /\ (result (setupOpenVSCode cmd setupInfo ideOptions) st = Ok tt ->
        exists installer, In (EStart installer) evs)
    /\ (forall name c,
          In (ESpawn name c) evs ->
          extensions <> []
          /\ name = "openvscode-async.pid"
          /\ exists settings binaryPath,
               marshalSettings vsCodeConfiguration = Ok settings
               /\ sys_Executable (logged settings) = Ok binaryPath
               /\ c = Cmd.Command binaryPath
                        ["agent"; "container"; "openvscode-async";
                         "--setup-info"; SetupContainerCmd.SetupInfo cmd]).
Proof.
  intros vsCodeConfiguration extensions server installed logged.
  unfold after, result.
  destruct (setupOpenVSCode cmd setupInfo ideOptions st) as [res st'] eqn:Hrun.
  cbn [fst snd].
  unfold setupOpenVSCode in Hrun. fold vsCodeConfiguration extensions in Hrun.
  unfold bind at 1 in Hrun. rewrite logf_eq in Hrun.
  unfold try_ at 1, ret at 1 in Hrun.
  destruct (marshalSettings vsCodeConfiguration) as [settings | err] eqn:Hsettings.
  2: { injection Hrun as <- <-. cbn [trace]. eexists. split; [reflexivity |].
       split; [intros installer [Hev | []]; discriminate Hev |].
       split; [discriminate |].
       intros name c [Hev | []]. discriminate Hev. }
  fold (server settings) in Hrun.
  unfold try_ at 1, effect at 1 in Hrun. cbn [world trace] in Hrun.
  destruct (sys_Install (server settings)
              (sys_Log DebugLevel "Setup openvscode..." [] (world st)))
    as [[[] | err] w1] eqn:Hinstall.
  2: { injection Hrun as <- <-. cbn [trace].
       eexists. split; [rewrite <- app_assoc; reflexivity |].
       split; [intros installer [Hev | [Hev | []]]; discriminate Hev |].
       split; [discriminate |].
       intros name c [Hev | [Hev | []]]; discriminate Hev. }
  assert (Hstart : forall pre,
            In (EInstall (server settings)) pre ->
            (forall installer, ~ In (EStart installer) pre) ->
            forall installer,
              In (EStart installer) (pre ++ [EStart (server settings)]) ->
              exists settings' pre',
                Ok settings = Ok settings'
                /\ installer = server settings'
                /\ pre ++ [EStart (server settings)] = pre' ++ [EStart installer]
                /\ In (EInstall installer) pre').
  { intros pre Hinstalled Hnone installer Hin.
    apply in_app_or in Hin as [Hin | [Hin | []]]; [destruct (Hnone _ Hin) |].
    injection Hin as <-. exists settings, pre. repeat split. exact Hinstalled. }
  unfold try_ at 1 in Hrun.
  destruct (0 <? length extensions)%nat eqn:Hext.
  - assert (Hsome : extensions <> []).
    { intros Hnil. rewrite Hnil in Hext. discriminate Hext. }
    unfold wrapErr, single_Single, bind at 1, read at 1 in Hrun.
    cbn [world trace] in Hrun.
    destruct (sys_LockAlive "openvscode-async.pid" w1).
    + unfold nil_, ret, effect in Hrun. cbn [world trace] in Hrun.
      destruct (sys_Start (server settings) w1) as [r w2].
      injection Hrun as <- <-. cbn [trace].
      exists ([ELog DebugLevel "Setup openvscode..." []; EInstall (server settings)]
              ++ [EStart (server settings)]).
      split; [rewrite <- !app_assoc; reflexivity |].
      split; [| split].
      * apply Hstart; [right; left; reflexivity |].
        intros installer [Hev | [Hev | []]]; discriminate Hev.
      * intros _. exists (server settings). right. right. left. reflexivity.
      * intros name c [Hev | [Hev | [Hev | []]]]; discriminate Hev.
    + unfold try_ at 1, openvscodeAsync, bind at 1 in Hrun. rewrite logf_eq in Hrun.
      unfold try_ at 1, read, ret in Hrun. cbn [world trace] in Hrun.
      destruct (sys_Executable _) as [binaryPath | err] eqn:Hself.
      * unfold effect in Hrun. cbn [world trace] in Hrun.
        destruct (sys_Spawn _ _ _) as [[[] | err] w2]; cbn [world trace] in Hrun.
        -- destruct (sys_Start (server settings) w2) as [r w3].
           injection Hrun as <- <-. cbn [trace].
           eexists ([_; _; _; _] ++ [EStart (server settings)]).
           split; [rewrite <- !app_assoc; reflexivity |].
           split; [| split].
           ++ apply Hstart; [right; left; reflexivity |].
              intros installer [Hev | [Hev | [Hev | [Hev | []]]]]; discriminate Hev.
           ++ intros _. exists (server settings). do 4 right. left. reflexivity.
           ++ intros name c [Hev | [Hev | [Hev | [Hev | [Hev | []]]]]];
                try discriminate Hev.
              injection Hev as <- <-. repeat split; [exact Hsome |].
              exists settings, binaryPath. split; [reflexivity |].
              split; [| reflexivity].
              unfold logged, installed. rewrite Hinstall. exact Hself.
        -- injection Hrun as <- <-. cbn [trace].
           eexists. split; [rewrite <- !app_assoc; reflexivity |]. cbn [app].
           split; [| split].
           ++ intros installer [Hev | [Hev | [Hev | [Hev | []]]]]; discriminate Hev.
           ++ discriminate.
           ++ intros name c [Hev | [Hev | [Hev | [Hev | []]]]]; try discriminate Hev.
              injection Hev as <- <-. repeat split; [exact Hsome |].
              exists settings, binaryPath. split; [reflexivity |].
              split; [| reflexivity].
              unfold logged, installed. rewrite Hinstall. exact Hself.
      * injection Hrun as <- <-. cbn [trace].
        eexists. split; [rewrite <- !app_assoc; reflexivity |]. cbn [app].
        split; [| split].
        -- intros installer [Hev | [Hev | [Hev | []]]]; discriminate Hev.
        -- discriminate.
        -- intros name c [Hev | [Hev | [Hev | []]]]; discriminate Hev.
  - unfold nil_, ret, effect in Hrun. cbn [world trace] in Hrun.
    destruct (sys_Start (server settings) w1) as [r w2].
    injection Hrun as <- <-. cbn [trace].
    exists ([ELog DebugLevel "Setup openvscode..." []; EInstall (server settings)]
            ++ [EStart (server settings)]).
    split; [rewrite <- !app_assoc; reflexivity |].
    split; [| split].
    + apply Hstart; [right; left; reflexivity |].
      intros installer [Hev | [Hev | []]]; discriminate Hev.
    + intros _. exists (server settings). right. right. left. reflexivity.
    + intros name c [Hev | [Hev | [Hev | []]]]; discriminate Hev.
Qed.

End Remaining.

(** ** What the steps of a run are handed *)

Section HandedOver.
Context {W : Type} `{Extern} `{Sys W}.

(** X17. Whatever the world answers, [installIDE] does nothing but log,
    install, start and hand commands to the guard; what it installs is
    installed for the remote user of the setup result, with the options
    of the IDE; the only server it starts is that of OpenVSCode; and the
    only commands it hands to the guard are those of the VSCode flavors
    and of OpenVSCode, under the lock of the IDE.  For no IDE, and for
    an IDE it does not know, it does nothing. *)
Theorem installIDE_footprint
    (cmd : SetupContainerCmd.t) (setupInfo : SetupInfo.t) (ide : IDEConfig.t)
    (st : State W) :
  (exists evs,
     trace (after (installIDE cmd setupInfo ide) st) = trace st ++ evs
     /\ Forall (ofIDE setupInfo ide) evs)
  /\ (IDEConfig.Name ide = IDENone \/ (exists name, IDEConfig.Name ide = IDEOther name) ->
      installIDE cmd setupInfo ide st = (Ok tt, st)).
Proof.
  split.
  - assert (Hemits : emits (ofIDE setupInfo ide) (installIDE cmd setupInfo ide)).
    { unfold installIDE, setupVSCode, setupOpenVSCode, install, single_Single,
        vscodeAsync, openvscodeAsync.
      destruct (IDEConfig.Name ide) eqn:Hname; repeat emits_step;
        unfold ofIDE; rewrite ?Hname; cbn; auto. }
    exact (Hemits st).
  - intros [Hname | [name Hname]]; unfold installIDE; rewrite Hname; reflexivity.
Qed.

Local Abbreviation silent workspaceInfo setupInfo :=
  (fun ev : Event =>
     isSetupContainer ev = false /\ isSendResult ev = false
     /\ cloneOf workspaceInfo setupInfo ev).

Local Abbreviation handed cmd workspaceInfo setupInfo :=
  (fun (_ : Result unit) (evs : list Event) =>
     Forall (handedOver (W := W) cmd workspaceInfo setupInfo) evs
     /\ resultSent (W := W) cmd workspaceInfo evs).

Lemma silent_handedOver cmd workspaceInfo setupInfo ev :
  silent workspaceInfo setupInfo ev -> handedOver (W := W) cmd workspaceInfo setupInfo ev.
Proof.
  intros (Hsetup & _ & Hclone). split; [exact Hclone |].
  intros setupInfo' chown ->. discriminate Hsetup.
Qed.

Lemma silent_other workspaceInfo setupInfo ev :
  isSetupContainer ev = false -> isSendResult ev = false -> isClone ev = false ->
  silent workspaceInfo setupInfo ev.
Proof.
  intros Hsetup Hsend Hclone. split; [exact Hsetup | split; [exact Hsend |]].
  intros source agent folder options ->. discriminate Hclone.
Qed.

Lemma In_silent workspaceInfo setupInfo ev evs :
  Forall (silent workspaceInfo setupInfo) evs ->
  isSetupContainer ev || isSendResult ev = true -> ~ In ev evs.
Proof.
  intros Hall Hkind Hin. rewrite Forall_forall in Hall.
  destruct (Hall ev (proj2 (list_elem_of_In _ _) Hin)) as (Hsetup & Hsend & _).
  rewrite Hsetup, Hsend in Hkind. discriminate Hkind.
Qed.

Lemma handed_framed cmd workspaceInfo setupInfo r pre evs suf :
  Forall (silent workspaceInfo setupInfo) pre ->
  Forall (silent workspaceInfo setupInfo) suf ->
  handed cmd workspaceInfo setupInfo r evs ->
  handed cmd workspaceInfo setupInfo r (pre ++ evs ++ suf).
Proof.
  intros Hpre Hsuf [Hall Hsent]. split.
  - repeat apply Forall_app_2; [| exact Hall |];
      (eapply Forall_impl; [eassumption | apply silent_handedOver]).
  - intros out Hin.
    apply in_app_or in Hin as [Hin | Hin];
      [destruct (In_silent _ _ (ESendResult out) _ Hpre eq_refl Hin) |].
    apply in_app_or in Hin as [Hin | Hin];
      [| destruct (In_silent _ _ (ESendResult out) _ Hsuf eq_refl Hin)].
    destruct (Hsent out Hin) as (setupInfo1 & setupInfo2 & w & Hsetup & Hrun & Hout).
    exists setupInfo1, setupInfo2, w. split; [| split; assumption].
    apply in_or_app. right. apply in_or_app. left. exact Hsetup.
Qed.

Lemma handed_failed cmd workspaceInfo setupInfo err evs :
  Forall (silent workspaceInfo setupInfo) evs ->
  handed cmd workspaceInfo setupInfo (Err err) evs.
Proof.
  intros Hall. split.
  - eapply Forall_impl; [exact Hall | apply silent_handedOver].
  - intros out Hin. destruct (In_silent _ _ (ESendResult out) _ Hall eq_refl Hin).
Qed.

(** After the container setup: the IDE, the daemon and the report of
    the setup result as it is then. *)
Lemma emits_Run_InstallIDE cmd workspaceInfo setupInfo :
  emits (fun ev => isSetupContainer ev = false /\ isClone ev = false
                   /\ forall out, ev = ESendResult out ->
                        Marshal_SetupInfo setupInfo = Ok out)
    (Run_InstallIDE cmd workspaceInfo setupInfo).
Proof.
  unfold Run_InstallIDE, Run_StartDaemon, Run_ReportResult.
  apply emits_try.
  { apply emits_installIDE. intros ev Hev. destruct ev; try discriminate Hev;
      repeat split; intros; discriminate. }
  intros _. apply emits_try.
  { apply emits_startDaemon. intros ev Hev. destruct ev; try discriminate Hev;
      repeat split; intros; discriminate. }
  intros _. apply emits_try_res.
  { apply emits_wrapErr, emits_ret. }
  intros out (st & st' & Hout).
  assert (Hmarshal : Marshal_SetupInfo setupInfo = Ok out).
  { unfold wrapErr, ret in Hout.
    destruct (Marshal_SetupInfo setupInfo); [| discriminate Hout].
    injection Hout as -> _. reflexivity. }
  repeat emits_step. split; [reflexivity | split; [reflexivity |]].
  intros out' Hev. injection Hev as <-. exact Hmarshal.
Qed.

Lemma post_Run_ContainerSetup cmd workspaceInfo setupInfo setupInfo' :
  substituted (W := W) setupInfo setupInfo' ->
  post (handed cmd workspaceInfo setupInfo)
    (Run_ContainerSetup cmd workspaceInfo setupInfo').
Proof.
  intros Hsubst st.
  assert (Hsetup : handedOver (W := W) cmd workspaceInfo setupInfo
                     (ESetupContainer setupInfo'
                        (SetupContainerCmd.ChownWorkspace cmd))).
  { split; [intros source agent folder options Hev; discriminate Hev |].
    intros setupInfo1 chown Hev. injection Hev as <- <-. split; [reflexivity | exact Hsubst]. }
  unfold emitted, after, result, Run_ContainerSetup, bind, SetupContainer, effect.
  destruct (sys_SetupContainer _ _ _ _ (world st)) as [[r setupInfo2] w2] eqn:Hrun.
  destruct r as [[] | err].
  - destruct (emits_Run_InstallIDE cmd workspaceInfo setupInfo2
                (mkState w2
                   (trace st ++ [ESetupContainer setupInfo'
                                   (SetupContainerCmd.ChownWorkspace cmd)])))
      as (evs & Htrace & Hall).
    unfold emitted, after in Htrace. cbn [trace] in Htrace.
    exists (ESetupContainer setupInfo' (SetupContainerCmd.ChownWorkspace cmd) :: evs).
    split; [rewrite Htrace, <- app_assoc; reflexivity |].
    split.
    + constructor; [exact Hsetup |].
      eapply Forall_impl; [exact Hall |].
      intros ev (Hnosetup & Hnoclone & _). split.
      * intros source agent folder options ->. discriminate Hnoclone.
      * intros setupInfo1 chown ->. discriminate Hnosetup.
    + intros out [Hev | Hin]; [discriminate Hev |].
      rewrite Forall_forall in Hall.
      destruct (Hall _ (proj2 (list_elem_of_In _ _) Hin)) as (_ & _ & Hout).
      exists setupInfo', setupInfo2, (world st).
      split; [left; reflexivity |]. split; [rewrite Hrun; reflexivity |].
      exact (Hout out eq_refl).
  - exists [ESetupContainer setupInfo' (SetupContainerCmd.ChownWorkspace cmd)].
    split; [reflexivity |]. split.
    + constructor; [exact Hsetup | constructor].
    + intros out [Hev | []]. discriminate Hev.
Qed.

Lemma post_handed_Run_CloneRepository cmd workspaceInfo setupInfo setupInfo' :
  substituted (W := W) setupInfo setupInfo' ->
  post (handed cmd workspaceInfo setupInfo)
    (Run_CloneRepository cmd workspaceInfo setupInfo').
Proof.
  intros Hsubst. unfold Run_CloneRepository.
  apply (post_try (silent workspaceInfo setupInfo) (handed cmd workspaceInfo setupInfo)
           (handed_framed cmd workspaceInfo setupInfo)
           (handed_failed cmd workspaceInfo setupInfo)).
  - unfold cloneRepository, CloneRepositoryForWorkspace.
    destruct (StrBool_Bool _) as [[|] |]; repeat emits_step;
      try (apply silent_other; reflexivity).
    split; [reflexivity | split; [reflexivity |]].
    intros source agent folder options Hev.
    injection Hev as <- <- <- <-. repeat split. exact (proj1 Hsubst).
  - intros _. apply post_Run_ContainerSetup, Hsubst.
Qed.

Lemma post_handed_Run_InjectGitCredentials cmd workspaceInfo setupInfo setupInfo' :
  substituted (W := W) setupInfo setupInfo' ->
  post (handed cmd workspaceInfo setupInfo)
    (Run_InjectGitCredentials cmd workspaceInfo setupInfo').
Proof.
  intros Hsubst.
  pose proof (post_handed_Run_CloneRepository cmd workspaceInfo _ _ Hsubst) as Hrest.
  assert (Hgit : forall ev, isLogEvent ev || isGitSetup ev || isStartCredentialsServer ev
                            = true -> silent workspaceInfo setupInfo ev).
  { intros ev Hev. apply silent_other; destruct ev; cbn in *; congruence. }
  unfold Run_InjectGitCredentials.
  destruct (SetupContainerCmd.InjectGitCredentials cmd); [| exact Hrest].
  apply (post_defer (silent workspaceInfo setupInfo) _
           (handed_framed cmd workspaceInfo setupInfo));
    [apply emits_effect_, silent_other; reflexivity |].
  apply (post_bind_res (silent workspaceInfo setupInfo) _
           (handed_framed cmd workspaceInfo setupInfo)).
  { apply emits_configureSystemGitCredentials, Hgit. }
  intros [cleanupFunc | err] (st0 & st1 & Hconf).
  - apply configureSystemGitCredentials_cleanup in Hconf as ->.
    apply (post_defer (silent workspaceInfo setupInfo) _
             (handed_framed cmd workspaceInfo setupInfo)); [| exact Hrest].
    apply emits_unsetSystemGitCredentials. intros ev Hev. apply Hgit.
    rewrite Hev. reflexivity.
  - apply (post_bind (silent workspaceInfo setupInfo) _
             (handed_framed cmd workspaceInfo setupInfo));
      [apply emits_logf, silent_other; reflexivity | intros _; exact Hrest].
Qed.

Lemma fillContainerEnv_substituted setupInfo setupInfo' (st st' : State W) :
  fillContainerEnv setupInfo st = (Ok tt, setupInfo', st') ->
  substituted (W := W) setupInfo setupInfo'.
Proof.
  unfold fillContainerEnv, bind, read, ret.
  destruct (SubstituteContainerEnv _ _) as [newMergedConfig | err] eqn:Hsubst;
    [| discriminate].
  intros Hrun. injection Hrun as <- _. split; [reflexivity |].
  exists (world st). exact Hsubst.
Qed.

(** X18. The data of a run, from the inputs it decoded to the result it
    sends.  The repository is cloned from the source of the workspace
    into the workspace folder of the setup result; the container setup
    is given the setup result with the configuration that the
    substitution of the container environment returned, and the folder
    as it was; and the result that is sent is the setup result as the
    container setup, which then has succeeded, left it. *)
Theorem Run_hands_over
    (cmd : SetupContainerCmd.t) (workspaceInfo : WorkspaceInfo.t)
    (decompressed : string) (setupInfo : SetupInfo.t) (st : State W) :
  DecodeContainerWorkspaceInfo (SetupContainerCmd.ContainerWorkspaceInfo cmd)
  = Ok workspaceInfo ->
  Decompress (SetupContainerCmd.SetupInfo cmd) = Ok decompressed ->
  Unmarshal_SetupInfo decompressed = Ok setupInfo ->
  exists evs,
    trace (after (Run cmd) st) = trace st ++ evs
    /\ Forall (handedOver (W := W) cmd workspaceInfo setupInfo) evs
    /\ resultSent (W := W) cmd workspaceInfo evs.
Proof.
  intros Hdecode Hdecompress Hunmarshal.
  assert (Hrun : post (handed cmd workspaceInfo setupInfo) (Run cmd)).
  { unfold Run, Run_Ping, Run_DecodeInputs.
    apply (post_try (silent workspaceInfo setupInfo) _
             (handed_framed cmd workspaceInfo setupInfo)
             (handed_failed cmd workspaceInfo setupInfo));
      [apply emits_wrapErr, emits_effect, silent_other; reflexivity | intros _].
    apply (post_bind (silent workspaceInfo setupInfo) _
             (handed_framed cmd workspaceInfo setupInfo));
      [apply emits_logf, silent_other; reflexivity | intros _].
    apply (post_try (silent workspaceInfo setupInfo) _
             (handed_framed cmd workspaceInfo setupInfo)
             (handed_failed cmd workspaceInfo setupInfo));
      [apply emits_wrapErr, emits_effect, silent_other; reflexivity | intros _].
    apply (post_bind (silent workspaceInfo setupInfo) _
             (handed_framed cmd workspaceInfo setupInfo));
      [apply emits_logf, silent_other; reflexivity | intros _].
    rewrite Hdecode, Hdecompress.
    change (post (handed cmd workspaceInfo setupInfo)
              (try_ (ret (Unmarshal_SetupInfo decompressed))
                 (fun setupInfo => Run_StreamMounts cmd workspaceInfo setupInfo))).
    rewrite Hunmarshal.
    change (post (handed cmd workspaceInfo setupInfo)
              (Run_StreamMounts cmd workspaceInfo setupInfo)).
    unfold Run_StreamMounts, Run_DockerlessBuild, Run_MergeEnv.
    apply (post_try (silent workspaceInfo setupInfo) _
             (handed_framed cmd workspaceInfo setupInfo)
             (handed_failed cmd workspaceInfo setupInfo)).
    { apply emits_streamMounts; [| intros _];
        intros ev Hev; apply silent_other; destruct ev; cbn in *; congruence. }
    intros _.
    apply (post_try (silent workspaceInfo setupInfo) _
             (handed_framed cmd workspaceInfo setupInfo)
             (handed_failed cmd workspaceInfo setupInfo)).
    { apply emits_wrapErr, emits_dockerlessBuild.
      intros ev Hev; apply silent_other; destruct ev; cbn in *; congruence. }
    intros _.
    apply (post_bind_res (silent workspaceInfo setupInfo) _
             (handed_framed cmd workspaceInfo setupInfo)).
    { apply emits_fillContainerEnv. }
    intros [[[] | err] setupInfo'] (st0 & st1 & Hfill);
      [| apply (post_failed (silent workspaceInfo setupInfo) _
                  (handed_failed cmd workspaceInfo setupInfo))].
    apply post_handed_Run_InjectGitCredentials.
    exact (fillContainerEnv_substituted _ _ _ _ Hfill). }
  destruct (Hrun st) as (evs & Htrace & Hall & Hsent).
  exists evs. repeat split; assumption.
Qed.

End HandedOver.

(** A run in a container that was set up before, for the workspace and
    the setup result that the command carries. *)
Lemma Run_hands_over_witness :
  let cmd := Demo.cmd false false false in
  let workspaceInfo := Demo.workspaceInfo false false IDENone in
  let setupInfo := Demo.setupInfo None in
  let st := Demo.start (Demo.settled Demo.nothingFails) in
  @DecodeContainerWorkspaceInfo Demo.ex (SetupContainerCmd.ContainerWorkspaceInfo cmd)
  = Ok workspaceInfo
  /\ exists evs,
       trace (after (@Run _ Demo.ex Demo.sys cmd) st) = trace st ++ evs
       /\ Forall (@handedOver _ Demo.ex Demo.sys cmd workspaceInfo setupInfo) evs
       /\ @resultSent _ Demo.ex Demo.sys cmd workspaceInfo evs.
Proof.
  intros cmd workspaceInfo setupInfo st. split; [reflexivity |].
  exact (@Run_hands_over _ Demo.ex Demo.sys cmd workspaceInfo "setup-info" setupInfo st
           eq_refl eq_refl eq_refl).
Defined.

(** A run in a container that was set up before returns [nil], and has
    sent the result once. *)
Lemma Run_reported_witness :
  let cmd := Demo.cmd false false false in
  let st := Demo.start (Demo.settled Demo.nothingFails) in
  result (@Run _ Demo.ex Demo.sys cmd) st = Ok tt
  /\ countEvents isSendResult (trace (after (@Run _ Demo.ex Demo.sys cmd) st)) = 1%nat.
Proof.
  intros cmd st.
  assert (Hres : result (@Run _ Demo.ex Demo.sys cmd) st = Ok tt) by reflexivity.
  split; [exact Hres |].
  destruct (@Run_reported _ Demo.ex Demo.sys cmd st) as (evs & Htrace & _ & Hok & _).
  rewrite Htrace. exact (Hok Hres).
Defined.

(** The build of a fresh container applies the environment of the
    image, once, and returns [nil]. *)
Lemma dockerlessBuild_applied_witness :
  let build := @dockerlessBuild _ Demo.ex Demo.sys (Demo.setupInfo None) Demo.dockerless
                 false in
  let st := Demo.start (Demo.fresh Demo.nothingFails) in
  countEvents isMergeAndApply (trace (after build st)) = 1%nat
  /\ result build st = Ok tt.
Proof.
  intros build st.
  assert (Hcount : countEvents isMergeAndApply (trace (after build st)) = 1%nat)
    by (vm_compute; reflexivity).
  split; [exact Hcount |].
  destruct (@dockerlessBuild_applied _ Demo.ex Demo.sys (Demo.setupInfo None)
              Demo.dockerless false st) as (evs & Htrace & _ & _ & Hok).
  apply Hok. unfold build in Hcount. rewrite Htrace in Hcount. exact Hcount.
Defined.


(** A list with a blank after the comma. *)
Lemma parseIgnorePaths_commas_witness :
  GoStrings.TrimSpace "a, b" <> ""
  /\ length (parseIgnorePaths "a, b") = 4%nat
  /\ parseIgnorePaths "a, "
     = ["--ignore-path"; "a"; "--ignore-path"; ""].
Proof.
  assert (Hs : GoStrings.TrimSpace "a, b" <> "") by (vm_compute; discriminate).
  split; [exact Hs |]. split.
  - exact (proj2 parseIgnorePaths_commas "a, b" Hs).
  - exact (proj1 parseIgnorePaths_commas "a" " ").
Defined.

(** The entry of a remote environment without ["PATH"] is kept. *)
Lemma fillContainerEnv_in_place_witness :
  let remoteEnv : gmap string string := {[ "EDITOR" := "vi" ]} in
  let setupInfo := Demo.setupInfo (Some remoteEnv) in
  remoteEnv !! "EDITOR" = Some "vi"
  /\ exists env,
       MergedConfig.RemoteEnv (withRemoteEnv (SetupInfo.MergedConfig setupInfo)) = Some env
       /\ env !! "EDITOR" = Some "vi".
Proof.
  intros remoteEnv setupInfo. split; [reflexivity |].
  exact (proj1 (proj2 (proj2
           (@fillContainerEnv_in_place _ Demo.ex Demo.sys setupInfo
              (Demo.start (Demo.fresh Demo.nothingFails)))))
           remoteEnv "EDITOR" "vi" eq_refl eq_refl).
Defined.


(** The server of a workspace with one extension is started, after
    the install of the extension was handed to the guard. *)
Lemma setupOpenVSCode_order_witness :
  let setup :=
    @setupOpenVSCode _ (Demo.withVSCode ∅ ["golang.go"]) Demo.sys
      (Demo.cmd false false false) (Demo.setupInfo None) ∅ in
  let st := Demo.start (Demo.fresh Demo.nothingFails) in
  let background :=
    Cmd.Command "/usr/local/bin/devpod"
      ["agent"; "container"; "openvscode-async"; "--setup-info"; "setup-info"] in
  result setup st = Ok tt
  /\ (exists installer, In (EStart installer) (trace (after setup st)))
  /\ In (ESpawn "openvscode-async.pid" background) (trace (after setup st))
  /\ exists binaryPath,
       @sys_Executable _ Demo.sys (world st) = Ok binaryPath
       /\ background
          = Cmd.Command binaryPath
              ["agent"; "container"; "openvscode-async"; "--setup-info"; "setup-info"].
Proof.
  intros setup st background.
  assert (Hres : result setup st = Ok tt) by reflexivity.
  assert (Hin : In (ESpawn "openvscode-async.pid" background) (trace (after setup st)))
    by (vm_compute; tauto).
  destruct (@setupOpenVSCode_order _ (Demo.withVSCode ∅ ["golang.go"]) Demo.sys
              (Demo.cmd false false false) (Demo.setupInfo None) ∅ st)
    as (evs & Htrace & _ & Hok & Hspawn).
  split; [exact Hres |]. split; [| split; [exact Hin |]].
  - destruct (Hok Hres) as [installer Hstart].
    exists installer. unfold setup. rewrite Htrace. exact Hstart.
  - unfold setup in Hin. rewrite Htrace in Hin.
    destruct (proj2 (proj2 (Hspawn _ _ Hin)))
      as (settings & binaryPath & _ & Hself & Hcmd).
    exists binaryPath. split; [exact Hself | exact Hcmd].
Defined.

(** An IDE that [installIDE] does not know. *)
Lemma installIDE_footprint_witness :
  let ide := {| IDEConfig.Name := IDEOther "zed"; IDEConfig.Options := ∅ |} in
  let st := Demo.start (Demo.fresh Demo.nothingFails) in
  (exists name, IDEConfig.Name ide = IDEOther name)
  /\ @installIDE _ Demo.ex Demo.sys (Demo.cmd false false false) (Demo.setupInfo None)
       ide st
     = (Ok tt, st).
Proof.
  intros ide st.
  assert (Hname : exists name, IDEConfig.Name ide = IDEOther name)
    by (exists "zed"; reflexivity).
  split; [exact Hname |].
  exact (proj2 (@installIDE_footprint _ Demo.ex Demo.sys (Demo.cmd false false false)
                  (Demo.setupInfo None) ide st) (or_intror Hname)).
Defined.
